(** * isign: re-signing of the embedded code signature (codesig.py)

    A shallow embedding of [isign/codesig.py]: the slot classes, the
    [Codesig] wrapper and its mutating passes ([set_entitlements],
    [set_requirements], [set_codedirectory], [set_signature],
    [update_offsets]).  Python objects that the passes mutate in place are
    rendered by explicit state passing: every pass maps the parsed signature
    ([self.construct]) to the signature after the pass, or raises. *)

From stdpp Require Import base list strings.
From Stdlib Require Import ZArith Lia Ascii.

Set Warnings "-register-all".
Local Open Scope Z_scope.
Local Open Scope string_scope.

(** ** Python values and exceptions *)

(** [len] of a Python 2 [str] (a byte string). *)
Definition len (s : string) : Z := Z.of_nat (String.length s).

(** Exceptions that escape the functions of codesig.py. *)
Inductive exn : Type :=
| KeyError (magic : string)
| MultipleEntriesException (n : nat)
| ValueError (hash_type : Z)
| IndexError
| AttributeError
| IOError (path : string)
| ConstructError.

Inductive result (A : Type) : Type :=
| Ok (a : A)
| Raise (e : exn).
Arguments Ok {A} a.
Arguments Raise {A} e.

Definition bind {A B : Type} (m : result A) (k : A -> result B) : result B :=
  match m with
  | Ok a => k a
  | Raise e => Raise e
  end.

Notation "'do' x <- m ; k" := (bind m (fun x => k))
  (at level 10, x name, m at level 100, k at level 200).

(** The containers that construct hands back for the parts of the tree that
    codesig.py only walks dynamically (the requirement expression, the
    entitlements plist, the wrapper payload): [None], integers, strings,
    [ListContainer]s and [Container]s (attribute dictionaries). *)
Inductive pyval : Type :=
| PNone
| PInt (z : Z)
| PStr (s : string)
| PList (l : list pyval)
| PCont (fields : list (string * pyval)).

(** One step of an access path: [.name] or [[i]]. *)
Inductive step : Type :=
| Attr (name : string)
| Item (i : nat).

Fixpoint assoc_get (name : string) (fs : list (string * pyval)) : option pyval :=
  match fs with
  | [] => None
  | (k, v) :: fs' => if String.eqb k name then Some v else assoc_get name fs'
  end.

Fixpoint assoc_set (name : string) (x : pyval) (fs : list (string * pyval))
  : list (string * pyval) :=
  match fs with
  | [] => [(name, x)]
  | (k, v) :: fs' =>
      if String.eqb k name then (k, x) :: fs' else (k, v) :: assoc_set name x fs'
  end.

(** [v.name]: only a [Container] has attributes; everything else raises
    (AttributeError), rendered here as [None]. *)
Definition getattr (name : string) (v : pyval) : option pyval :=
  match v with
  | PCont fs => assoc_get name fs
  | _ => None
  end.

(** [v[i]] for a constant index [i >= 0]: a list yields its element, a
    string its one-character substring; a [Container] is a dictionary without
    integer keys (KeyError), [None] and integers are not subscriptable. *)
Definition getitem (i : nat) (v : pyval) : option pyval :=
  match v with
  | PList l => l !! i
  | PStr s =>
      match String.get i s with
      | Some ch => Some (PStr (String ch EmptyString))
      | None => None
      end
  | _ => None
  end.

(** [v.name = x]: succeeds on a [Container] only. *)
Definition setattr (name : string) (x : pyval) (v : pyval) : option pyval :=
  match v with
  | PCont fs => Some (PCont (assoc_set name x fs))
  | _ => None
  end.

Definition get_step (st : step) (v : pyval) : option pyval :=
  match st with
  | Attr name => getattr name v
  | Item i => getitem i v
  end.

(** Evaluation of an access path; [None] when any step raises. *)
Fixpoint get_path (p : list step) (v : pyval) : option pyval :=
  match p with
  | [] => Some v
  | st :: p' =>
      match get_step st v with
      | Some w => get_path p' w
      | None => None
      end
  end.

(** Writing a sub-object back at the place a path reached.  The object a path
    evaluates to is a reference into the tree, so a mutation through it is a
    replacement at that place.  Paths never end inside a string. *)
Definition put_step (st : step) (w : pyval) (v : pyval) : option pyval :=
  match st, v with
  | Attr name, PCont fs =>
      match assoc_get name fs with
      | Some _ => Some (PCont (assoc_set name w fs))
      | None => None
      end
  | Item i, PList l =>
      match l !! i with
      | Some _ => Some (PList (<[i := w]> l))
      | None => None
      end
  | _, _ => None
  end.

Fixpoint put_path (p : list step) (w : pyval) (v : pyval) : option pyval :=
  match p with
  | [] => Some w
  | st :: p' =>
      match get_step st v with
      | Some sub =>
          match put_path p' w sub with
          | Some sub' => put_step st sub' v
          | None => None
          end
      | None => None
      end
  end.

(** ** The parsed signature *)

(** The [bytes] attribute of a blob: an on-demand container (read through
    [.value], as [set_signature] does) after parsing, a plain string once a
    pass has assigned it. *)
Inductive BytesField : Type :=
| LazyContainer (value : string)
| Str (s : string).

Definition raw (b : BytesField) : string :=
  match b with
  | LazyContainer s => s
  | Str s => s
  end.

(** Payload of a CSMAGIC_CODEDIRECTORY blob ([cd.data]). *)
Record CodeDirectory : Type := mkCodeDirectory {
  version : Z;
  flags : Z;
  hashOffset : Z;
  identOffset : Z;
  nSpecialSlots : Z;
  nCodeSlots : Z;
  codeLimit : Z;
  hashSize : Z;
  hashType : Z;
  spare1 : Z;
  pageSize : Z;
  spare2 : Z;
  ident : string;
  scatterOffset : option Z;
  teamIDOffset : option Z;
  teamID : option string;
  hashes : list string
}.

(** A blob ([magic], [length], [data], [bytes]), the payload of a superblob
    ([count], [BlobIndex]) and an index entry ([type], [offset], [blob]).
    [attr_count] is the attribute [count] on the blob object itself: no parsed
    blob has it, the ad-hoc branch of [set_requirements] creates it. *)
Inductive Blob : Type :=
| mkBlob (magic : string) (length : Z) (data : BlobData) (bytes : BytesField)
         (attr_count : option Z)
with BlobData : Type :=
| DSuperBlob (count : Z) (BlobIndex : list IndexEntry)
| DCodeDirectory (cd : CodeDirectory)
| DDyn (v : pyval)
with IndexEntry : Type :=
| mkIndex (type : Z) (offset : Z) (blob : Blob).

Definition blob_magic (b : Blob) : string :=
  match b with mkBlob m _ _ _ _ => m end.
Definition blob_length (b : Blob) : Z :=
  match b with mkBlob _ l _ _ _ => l end.
Definition blob_data (b : Blob) : BlobData :=
  match b with mkBlob _ _ d _ _ => d end.
Definition blob_bytes (b : Blob) : BytesField :=
  match b with mkBlob _ _ _ y _ => y end.
Definition blob_attr_count (b : Blob) : option Z :=
  match b with mkBlob _ _ _ _ c => c end.

Definition set_length (l : Z) (b : Blob) : Blob :=
  match b with mkBlob m _ d y c => mkBlob m l d y c end.
Definition set_data (d : BlobData) (b : Blob) : Blob :=
  match b with mkBlob m l _ y c => mkBlob m l d y c end.
Definition set_bytes (y : BytesField) (b : Blob) : Blob :=
  match b with mkBlob m l d _ c => mkBlob m l d y c end.
Definition set_attr_count (z : Z) (b : Blob) : Blob :=
  match b with mkBlob m l d y _ => mkBlob m l d y (Some z) end.

Definition index_type (e : IndexEntry) : Z :=
  match e with mkIndex t _ _ => t end.
Definition index_offset (e : IndexEntry) : Z :=
  match e with mkIndex _ o _ => o end.
Definition index_blob (e : IndexEntry) : Blob :=
  match e with mkIndex _ _ b => b end.

Definition set_offset (o : Z) (e : IndexEntry) : IndexEntry :=
  match e with mkIndex t _ b => mkIndex t o b end.
Definition set_blob (b : Blob) (e : IndexEntry) : IndexEntry :=
  match e with mkIndex t o _ => mkIndex t o b end.

(** [blob.data.BlobIndex]; a payload that is no superblob has no such
    attribute. *)
Definition data_BlobIndex (d : BlobData) : result (list IndexEntry) :=
  match d with
  | DSuperBlob _ idx => Ok idx
  | _ => Raise AttributeError
  end.

Definition set_BlobIndex (idx : list IndexEntry) (d : BlobData) : BlobData :=
  match d with
  | DSuperBlob cnt _ => DSuperBlob cnt idx
  | _ => d
  end.

(** ** Collaborators *)

(** The module macho_cs (the construct declarations) is imported by
    codesig.py; the functions below use its two hash-type constants and the
    [build] method of five of its constructs. *)
Class MachoCS : Type := {
  SHA1_HASHTYPE : Z;
  SHA256_HASHTYPE : Z;
  Blob_build : Blob -> result string;
  SuperBlob_build : BlobData -> result string;
  Entitlements_build : BlobData -> result string;
  Requirement_build : BlobData -> result string;
  CodeDirectory_build : BlobData -> result string
}.

(** hashlib and the file system ([open(path, "rb").read()]). *)
Class Host : Type := {
  sha1 : string -> string;
  sha256 : string -> string;
  read_file : string -> result string
}.

(** One record of [get_codedirectory_hashes]. *)
Record HashRecord : Type := mkHashRecord {
  digest_sha1 : string;
  digest_sha256 : string;
  record_hashType : Z
}.

Record Signer : Type := mkSigner {
  is_adhoc : bool;
  get_common_name : string;
  get_team_id : string;
  sign : string -> list HashRecord -> string
}.

(** The five special slots; the relative offset is a class attribute. *)
Inductive Slot : Type :=
| EntitlementsSlot
| ApplicationSlot
| ResourceDirSlot (seal_path : string)
| RequirementsSlot
| InfoSlot (info_path : string).

Definition slot_offset (s : Slot) : Z :=
  match s with
  | EntitlementsSlot => -5
  | ApplicationSlot => -4
  | ResourceDirSlot _ => -3
  | RequirementsSlot => -2
  | InfoSlot _ => -1
  end.

Record Signable : Type := mkSignable {
  get_changed_bundle_id : option string;
  should_fill_slot : Blob -> Slot -> bool
}.

(** Truth value of [get_changed_bundle_id()]: [None] and the empty string
    are false. *)
Definition truthy (o : option string) : option string :=
  match o with
  | Some s => if String.eqb s "" then None else Some s
  | None => None
  end.

(** ** class Codesig *)

Section Codesig.
Context `{MachoCS} `{Host}.

(** [get_blobs]: the blobs of the top-level index with the given magic, in
    index order. *)
Definition blobs_with (magic : string) (idx : list IndexEntry) : list Blob :=
  List.filter (fun b => String.eqb (blob_magic b) magic)
              (List.map index_blob idx).

Definition get_blobs (construct : Blob) (magic : string) : result (list Blob) :=
  do idx <- data_BlobIndex (blob_data construct);
  Ok (blobs_with magic idx).

Definition get_blob (construct : Blob) (magic : string) : result Blob :=
  do blobs <- get_blobs construct magic;
  match blobs with
  | [] => Raise (KeyError magic)
  | [b] => Ok b
  | _ => Raise (MultipleEntriesException (List.length blobs))
  end.

Definition get_blob_data (construct : Blob) (magic : string) : result string :=
  do blob <- get_blob construct magic;
  Blob_build blob.

(** The blob [get_blob] returns is the object the index entry holds; an
    assignment to one of its attributes is an update of that entry.
    [write_blob magic b'] stores [b'] in every entry whose blob carries
    [magic]; it is used only after [get_blob] found exactly one. *)
Definition write_entry (magic : string) (b' : Blob) (e : IndexEntry) : IndexEntry :=
  if String.eqb (blob_magic (index_blob e)) magic then set_blob b' e else e.

Definition write_blob (magic : string) (b' : Blob) (construct : Blob) : Blob :=
  match blob_data construct with
  | DSuperBlob cnt idx =>
      set_data (DSuperBlob cnt (List.map (write_entry magic b') idx)) construct
  | _ => construct
  end.

Definition set_entitlements (entitlements_bytes : string) (construct : Blob)
  : result Blob :=
  match get_blob construct "CSMAGIC_ENTITLEMENT" with
  | Raise (KeyError _) => Ok construct
  | Raise e => Raise e
  | Ok entitlements =>
      let entitlements := set_bytes (Str entitlements_bytes) entitlements in
      let entitlements := set_length (len entitlements_bytes + 8) entitlements in
      Ok (write_blob "CSMAGIC_ENTITLEMENT" entitlements construct)
  end.

(** *** Special slots *)

(** ['\x00' * n] *)
Fixpoint zeros (n : nat) : string :=
  match n with
  | O => EmptyString
  | S n' => String Ascii.zero (zeros n')
  end.

(** [get_contents] of the four slot classes that define it;
    [ApplicationSlot] has none. *)
Definition get_contents (construct : Blob) (slot : Slot) : result string :=
  match slot with
  | EntitlementsSlot => get_blob_data construct "CSMAGIC_ENTITLEMENT"
  | ApplicationSlot => Raise AttributeError
  | ResourceDirSlot seal_path => read_file seal_path
  | RequirementsSlot => get_blob_data construct "CSMAGIC_REQUIREMENTS"
  | InfoSlot info_path => read_file info_path
  end.

(** [CodeDirectorySlot.get_hash], inherited by every slot class except
    [ApplicationSlot]. *)
Definition CodeDirectorySlot_get_hash (construct : Blob) (slot : Slot)
           (hash_type : Z) : result string :=
  if (hash_type =? SHA1_HASHTYPE)%Z then
    do contents <- get_contents construct slot;
    Ok (sha1 contents)
  else if (hash_type =? SHA256_HASHTYPE)%Z then
    do contents <- get_contents construct slot;
    Ok (sha256 contents)
  else Raise (ValueError hash_type).

(** [ApplicationSlot.get_hash] overrides it. *)
Definition ApplicationSlot_get_hash (hash_type : Z) : result string :=
  Ok (zeros (if (hash_type =? SHA1_HASHTYPE)%Z then 20 else 32)).

Definition get_hash (construct : Blob) (slot : Slot) (hash_type : Z)
  : result string :=
  match slot with
  | ApplicationSlot => ApplicationSlot_get_hash hash_type
  | _ => CodeDirectorySlot_get_hash construct slot hash_type
  end.

(** *** set_requirements *)

(** [req_blob_0.data.expr.data[0].data] *)
Definition bundle_path : list step :=
  [Attr "expr"; Attr "data"; Item 0; Attr "data"].

(** [req_blob_0.data.expr.data[1].data[1].data[0].data[2].Data] *)
Definition cn_path : list step :=
  [Attr "expr"; Attr "data"; Item 1; Attr "data"; Item 1; Attr "data";
   Item 0; Attr "data"; Item 2; Attr "Data"].

(** The payload of a blob as the dynamic tree the paths walk.  A superblob
    or code directory payload has no attribute [expr]. *)
Definition dyn_of (d : BlobData) : option pyval :=
  match d with
  | DDyn v => Some v
  | _ => None
  end.

(** [node.data = s; node.length = len(node.data)] *)
Definition set_literal (s : string) (node : pyval) : option pyval :=
  match setattr "data" (PStr s) node with
  | Some node1 => setattr "length" (PInt (len s)) node1
  | None => None
  end.

(** The [try] block that sets the bundle id: any exception leaves the tree
    as it was. *)
Definition patch_bundle_id (changed_bundle_id : string) (d : BlobData) : BlobData :=
  match dyn_of d with
  | Some v =>
      match get_path bundle_path v with
      | Some bundle_struct =>
          match set_literal changed_bundle_id bundle_struct with
          | Some bundle_struct' =>
              match put_path bundle_path bundle_struct' v with
              | Some v' => DDyn v'
              | None => d
              end
          | None => d
          end
      | None => d
      end
  | None => d
  end.

(** The [try] block that looks the signer CN rule up. *)
Definition find_cn (d : BlobData) : option pyval :=
  match dyn_of d with
  | Some v => get_path cn_path v
  | None => None
  end.

(** [cn.data = signer_cn; cn.length = len(cn.data)], outside any [try]. *)
Definition replace_cn (signer_cn : string) (cn : pyval) (d : BlobData)
  : result BlobData :=
  match set_literal signer_cn cn, dyn_of d with
  | Some cn', Some v =>
      match put_path cn_path cn' v with
      | Some v' => Ok (DDyn v')
      | None => Raise AttributeError
      end
  | _, _ => Raise AttributeError
  end.

(** [bi.offset += offset_delta] *)
Definition shift_offset (offset_delta : Z) (bi : IndexEntry) : IndexEntry :=
  set_offset (index_offset bi + offset_delta) bi.

Definition set_requirements (signable : Signable) (signer : Signer)
           (construct : Blob) : result Blob :=
  do requirements <- get_blob construct "CSMAGIC_REQUIREMENTS";
  if is_adhoc signer then
    Ok (write_blob "CSMAGIC_REQUIREMENTS" (set_attr_count 0 requirements) construct)
  else
    let signer_cn := get_common_name signer in
    do BlobIndex <- data_BlobIndex (blob_data requirements);
    match BlobIndex with
    | [] => Raise IndexError
    | entry_0 :: later =>
        let req_blob_0 := index_blob entry_0 in
        let req_blob_0_original_length := blob_length req_blob_0 in
        let req_blob_0 :=
          match truthy (get_changed_bundle_id signable) with
          | Some changed_bundle_id =>
              set_data (patch_bundle_id changed_bundle_id (blob_data req_blob_0))
                       req_blob_0
          | None => req_blob_0
          end in
        match find_cn (blob_data req_blob_0) with
        | None =>
            let requirements :=
              set_data (set_BlobIndex (set_blob req_blob_0 entry_0 :: later)
                                      (blob_data requirements)) requirements in
            Ok (write_blob "CSMAGIC_REQUIREMENTS" requirements construct)
        | Some cn =>
            do data_0 <- replace_cn signer_cn cn (blob_data req_blob_0);
            let req_blob_0 := set_data data_0 req_blob_0 in
            do bytes_0 <- Requirement_build (blob_data req_blob_0);
            let req_blob_0 := set_bytes (Str bytes_0) req_blob_0 in
            let req_blob_0 := set_length (len bytes_0 + 8) req_blob_0 in
            let offset_delta := blob_length req_blob_0 - req_blob_0_original_length in
            let later := List.map (shift_offset offset_delta) later in
            let requirements :=
              set_data (set_BlobIndex (set_blob req_blob_0 entry_0 :: later)
                                      (blob_data requirements)) requirements in
            do bytes <- Entitlements_build (blob_data requirements);
            let requirements := set_bytes (Str bytes) requirements in
            let requirements := set_length (len bytes + 8) requirements in
            Ok (write_blob "CSMAGIC_REQUIREMENTS" requirements construct)
        end
    end.

(** *** set_codedirectory *)

Definition set_hashes (h : list string) (cd : CodeDirectory) : CodeDirectory :=
  {| version := version cd; flags := flags cd; hashOffset := hashOffset cd;
     identOffset := identOffset cd; nSpecialSlots := nSpecialSlots cd;
     nCodeSlots := nCodeSlots cd; codeLimit := codeLimit cd;
     hashSize := hashSize cd; hashType := hashType cd; spare1 := spare1 cd;
     pageSize := pageSize cd; spare2 := spare2 cd; ident := ident cd;
     scatterOffset := scatterOffset cd; teamIDOffset := teamIDOffset cd;
     teamID := teamID cd; hashes := h |}.

Definition set_teamID (t : option string) (cd : CodeDirectory) : CodeDirectory :=
  {| version := version cd; flags := flags cd; hashOffset := hashOffset cd;
     identOffset := identOffset cd; nSpecialSlots := nSpecialSlots cd;
     nCodeSlots := nCodeSlots cd; codeLimit := codeLimit cd;
     hashSize := hashSize cd; hashType := hashType cd; spare1 := spare1 cd;
     pageSize := pageSize cd; spare2 := spare2 cd; ident := ident cd;
     scatterOffset := scatterOffset cd; teamIDOffset := teamIDOffset cd;
     teamID := t; hashes := hashes cd |}.

Definition set_ident (i : string) (cd : CodeDirectory) : CodeDirectory :=
  {| version := version cd; flags := flags cd; hashOffset := hashOffset cd;
     identOffset := identOffset cd; nSpecialSlots := nSpecialSlots cd;
     nCodeSlots := nCodeSlots cd; codeLimit := codeLimit cd;
     hashSize := hashSize cd; hashType := hashType cd; spare1 := spare1 cd;
     pageSize := pageSize cd; spare2 := spare2 cd; ident := i;
     scatterOffset := scatterOffset cd; teamIDOffset := teamIDOffset cd;
     teamID := teamID cd; hashes := hashes cd |}.

Definition set_hashOffset (o : Z) (cd : CodeDirectory) : CodeDirectory :=
  {| version := version cd; flags := flags cd; hashOffset := o;
     identOffset := identOffset cd; nSpecialSlots := nSpecialSlots cd;
     nCodeSlots := nCodeSlots cd; codeLimit := codeLimit cd;
     hashSize := hashSize cd; hashType := hashType cd; spare1 := spare1 cd;
     pageSize := pageSize cd; spare2 := spare2 cd; ident := ident cd;
     scatterOffset := scatterOffset cd; teamIDOffset := teamIDOffset cd;
     teamID := teamID cd; hashes := hashes cd |}.

Definition set_teamIDOffset (o : option Z) (cd : CodeDirectory) : CodeDirectory :=
  {| version := version cd; flags := flags cd; hashOffset := hashOffset cd;
     identOffset := identOffset cd; nSpecialSlots := nSpecialSlots cd;
     nCodeSlots := nCodeSlots cd; codeLimit := codeLimit cd;
     hashSize := hashSize cd; hashType := hashType cd; spare1 := spare1 cd;
     pageSize := pageSize cd; spare2 := spare2 cd; ident := ident cd;
     scatterOffset := scatterOffset cd; teamIDOffset := o;
     teamID := teamID cd; hashes := hashes cd |}.

(** [cd.data] read as a code directory. *)
Definition cd_of (b : Blob) : result CodeDirectory :=
  match blob_data b with
  | DCodeDirectory cd => Ok cd
  | _ => Raise AttributeError
  end.

(** Positions, in index order, of the entries whose blob carries [magic]:
    the list [get_blobs] returns holds the blobs of exactly these entries,
    and a loop over that list visits them in this order. *)
Fixpoint positions_from (magic : string) (k : nat) (idx : list IndexEntry)
  : list nat :=
  match idx with
  | [] => []
  | e :: idx' =>
      if String.eqb (blob_magic (index_blob e)) magic
      then k :: positions_from magic (S k) idx'
      else positions_from magic (S k) idx'
  end.

Definition get_codedirectories (construct : Blob) : result (list nat) :=
  do idx <- data_BlobIndex (blob_data construct);
  Ok (positions_from "CSMAGIC_CODEDIRECTORY" 0 idx).

Definition entry_at (construct : Blob) (i : nat) : result IndexEntry :=
  do idx <- data_BlobIndex (blob_data construct);
  match idx !! i with
  | Some e => Ok e
  | None => Raise IndexError
  end.

(** Store of a mutated blob object in the entry that holds it. *)
Definition put_blob_at (i : nat) (b : Blob) (construct : Blob) : Blob :=
  match blob_data construct with
  | DSuperBlob cnt idx =>
      set_data (DSuperBlob cnt (alter (set_blob b) i idx)) construct
  | _ => construct
  end.

(** A [for] loop over a list fixed before the loop starts, threading the
    signature. *)
Fixpoint for_each (body : nat -> Blob -> result Blob) (ps : list nat)
         (construct : Blob) : result Blob :=
  match ps with
  | [] => Ok construct
  | i :: ps' =>
      do construct' <- body i construct;
      for_each body ps' construct'
  end.

(** [l[index] = x] on a Python list. *)
Definition list_assign {A : Type} (l : list A) (index : Z) (x : A)
  : result (list A) :=
  let n := Z.of_nat (List.length l) in
  let i := if (index <? 0)%Z then index + n else index in
  if ((0 <=? i)%Z && (i <? n)%Z)%bool
  then Ok (<[Z.to_nat i := x]> l)
  else Raise IndexError.

Definition get_codedirectory_hash_index (cd : CodeDirectory) (slot : Slot) : Z :=
  slot_offset slot + nSpecialSlots cd.

Definition has_codedirectory_slot (cd : CodeDirectory) (slot : Slot) : bool :=
  (0 <=? get_codedirectory_hash_index cd slot)%Z.

Definition fill_codedirectory_slot (signable : Signable) (i : nat)
           (slot : Slot) (construct : Blob) : result Blob :=
  if should_fill_slot signable construct slot then
    do e <- entry_at construct i;
    let codedirectory := index_blob e in
    do cd <- cd_of codedirectory;
    let index := get_codedirectory_hash_index cd slot in
    do h <- get_hash construct slot (hashType cd);
    do hashes' <- list_assign (hashes cd) index h;
    Ok (put_blob_at i (set_data (DCodeDirectory (set_hashes hashes' cd))
                                codedirectory) construct)
  else Ok construct.

(** [if self.has_codedirectory_slot(cd, S) [and guard]: fill(cd, S(...))] *)
Definition fill_if_present (signable : Signable) (guard : bool) (i : nat)
           (slot : Slot) (construct : Blob) : result Blob :=
  do e <- entry_at construct i;
  do cd <- cd_of (index_blob e);
  if (has_codedirectory_slot cd slot && guard)%bool
  then fill_codedirectory_slot signable i slot construct
  else Ok construct.

(** Body of the first loop of [set_codedirectory]. *)
Definition fill_slots (signable : Signable) (seal_path info_path : string)
           (signer : Signer) (i : nat) (construct : Blob) : result Blob :=
  do c1 <- fill_if_present signable (negb (is_adhoc signer)) i
                           EntitlementsSlot construct;
  do c2 <- fill_if_present signable true i (ResourceDirSlot seal_path) c1;
  do c3 <- fill_if_present signable true i RequirementsSlot c2;
  do c4 <- fill_if_present signable true i ApplicationSlot c3;
  fill_if_present signable true i (InfoSlot info_path) c4.

(** The identifier change of the second loop, on the payload and on the
    blob's [length]. *)
Definition change_ident (changed_bundle_id : string) (cd : CodeDirectory)
  : CodeDirectory :=
  let offset_change := len changed_bundle_id - len (ident cd) in
  let cd1 := set_ident changed_bundle_id cd in
  let cd2 := set_hashOffset (hashOffset cd1 + offset_change) cd1 in
  set_teamIDOffset
    (match teamIDOffset cd2 with
     | None => Some offset_change
     | Some t => Some (t + offset_change)
     end) cd2.

(** Body of the second loop of [set_codedirectory], on the blob object
    [cd] it works on. *)
Definition rebuild_blob (signable : Signable) (signer : Signer)
           (cd_blob : Blob) : result Blob :=
  do cd <- cd_of cd_blob;
  let cd := set_teamID (Some (get_team_id signer)) cd in
  let '(cd, cd_blob) :=
    match truthy (get_changed_bundle_id signable) with
    | Some changed_bundle_id =>
        let offset_change := len changed_bundle_id - len (ident cd) in
        (change_ident changed_bundle_id cd,
         set_length (blob_length cd_blob + offset_change) cd_blob)
    | None => (cd, cd_blob)
    end in
  let cd_blob := set_data (DCodeDirectory cd) cd_blob in
  do bytes <- CodeDirectory_build (blob_data cd_blob);
  Ok (set_bytes (Str bytes) cd_blob).

Definition rebuild_codedirectory (signable : Signable) (signer : Signer)
           (i : nat) (construct : Blob) : result Blob :=
  do e <- entry_at construct i;
  do cd_blob <- rebuild_blob signable signer (index_blob e);
  Ok (put_blob_at i cd_blob construct).

Definition set_codedirectory (signable : Signable)
           (seal_path info_path : string) (signer : Signer)
           (construct : Blob) : result Blob :=
  do cds <- get_codedirectories construct;
  do filled <- for_each (fill_slots signable seal_path info_path signer)
                        cds construct;
  do cds' <- get_codedirectories filled;
  for_each (rebuild_codedirectory signable signer) cds' filled.

(** *** set_signature *)

Fixpoint map_result {A B : Type} (f : A -> result B) (l : list A)
  : result (list B) :=
  match l with
  | [] => Ok []
  | a :: l' =>
      do b <- f a;
      do bs <- map_result f l';
      Ok (b :: bs)
  end.

Definition get_codedirectory_hashes (construct : Blob)
  : result (list HashRecord) :=
  do cds <- get_blobs construct "CSMAGIC_CODEDIRECTORY";
  do cd_datas <- map_result (fun cd => do data <- Blob_build cd; Ok (cd, data)) cds;
  map_result (fun '(cd, data) =>
                do d <- cd_of cd;
                Ok {| digest_sha1 := sha1 data;
                      digest_sha256 := sha256 data;
                      record_hashType := hashType d |}) cd_datas.

Definition set_signature (signer : Signer) (construct : Blob) : result Blob :=
  do sigwrapper <- get_blob construct "CSMAGIC_BLOBWRAPPER";
  do oldsig <- match blob_bytes sigwrapper with
               | LazyContainer value => Ok value
               | Str _ => Raise AttributeError
               end;
  do cd_hashes <- get_codedirectory_hashes construct;
  let sig := sign signer oldsig cd_hashes in
  let sigwrapper := set_data (DDyn (PCont [("data", PStr sig)])) sigwrapper in
  let sigwrapper := set_length (len sig + 8) sigwrapper in
  let sigwrapper := set_bytes (Str sig) sigwrapper in
  Ok (write_blob "CSMAGIC_BLOBWRAPPER" sigwrapper construct).

(** *** update_offsets *)

(** The loop of [update_offsets]: every entry gets the running offset,
    which then advances by the size of the entry's freshly built blob. *)
Fixpoint assign_offsets (offset : Z) (idx : list IndexEntry)
  : result (list IndexEntry) :=
  match idx with
  | [] => Ok []
  | blob :: idx' =>
      let blob' := set_offset offset blob in
      do built <- Blob_build (index_blob blob');
      do rest <- assign_offsets (offset + len built) idx';
      Ok (blob' :: rest)
  end.

Definition update_offsets (construct : Blob) : result Blob :=
  do idx <- data_BlobIndex (blob_data construct);
  match idx with
  | [] => Raise IndexError
  | first :: _ =>
      let offset := index_offset first in
      do idx' <- assign_offsets offset idx;
      let construct := set_data (set_BlobIndex idx' (blob_data construct))
                                construct in
      do superblob <- SuperBlob_build (blob_data construct);
      let construct := set_length (len superblob + 8) construct in
      Ok (set_bytes (Str superblob) construct)
  end.

(** *** resign *)

Record Bundle : Type := mkBundle {
  entitlements : option string;
  seal_path : string;
  info_path : string
}.

Definition resign (signable : Signable) (bundle : Bundle) (signer : Signer)
           (construct : Blob) : result Blob :=
  do c1 <- match entitlements bundle with
           | Some entitlements_bytes => set_entitlements entitlements_bytes construct
           | None => Ok construct
           end;
  do c2 <- set_requirements signable signer c1;
  do c3 <- set_codedirectory signable (seal_path bundle) (info_path bundle) signer c2;
  do c4 <- set_signature signer c3;
  update_offsets c4.

End Codesig.

(** ** A codec for macho_cs *)

Module SpecCodec.

(** Modelled from the spec: macho_cs.py, the construct declarations that
    codesig.py builds with, is not among the sources.  The encoders below
    follow the data model of the specification: all integers big-endian; a
    blob is a 32-bit tag, a 32-bit header-inclusive length and a payload; a
    superblob payload is a count, the index entries (type, offset from the
    superblob start) and the sub-blobs at their recorded offsets; a code
    directory holds its identifier, its team identifier and its hash array
    at their recorded byte offsets.  A write at a recorded offset goes
    where the offset says, over whatever is there, and extends the output
    with zero bytes when it lies beyond the end. *)
Definition byte_of (z : Z) : ascii := ascii_of_N (Z.to_N (z mod 256)).

Definition be8 (z : Z) : result string :=
  if ((0 <=? z)%Z && (z <? 256)%Z)%bool
  then Ok (String (byte_of z) EmptyString)
  else Raise ConstructError.

Definition be32 (z : Z) : result string :=
  if ((0 <=? z)%Z && (z <? 4294967296)%Z)%bool
  then Ok (String (byte_of (z / 16777216))
          (String (byte_of (z / 65536))
          (String (byte_of (z / 256))
          (String (byte_of z) EmptyString))))
  else Raise ConstructError.

(** Concatenation of encoded fields. *)
Fixpoint cat (parts : list (result string)) : result string :=
  match parts with
  | [] => Ok EmptyString
  | p :: parts' =>
      do a <- p;
      do b <- cat parts';
      Ok (a ++ b)
  end.

(** [buf] with [data] written at byte position [pos]. *)
Definition write_at (pos : nat) (data buf : string) : string :=
  let padded := buf ++ zeros (pos - String.length buf) in
  let stop := (pos + String.length data)%nat in
  String.substring 0 pos padded ++ data
    ++ String.substring stop (String.length padded - stop) padded.

(** A write at a recorded offset; offsets count from the start of the
    enclosing blob, whose 8-byte header is not part of the payload. *)
Definition place (offset : Z) (data buf : string) : result string :=
  if (8 <=? offset)%Z
  then Ok (write_at (Z.to_nat (offset - 8)) data buf)
  else Raise ConstructError.

Definition SHA1_HASHTYPE : Z := 1.
Definition SHA256_HASHTYPE : Z := 2.

Definition magic_number (magic : string) : result Z :=
  if String.eqb magic "CSMAGIC_REQUIREMENT" then Ok 4208856064
  else if String.eqb magic "CSMAGIC_REQUIREMENTS" then Ok 4208856065
  else if String.eqb magic "CSMAGIC_CODEDIRECTORY" then Ok 4208856066
  else if String.eqb magic "CSMAGIC_ENTITLEMENT" then Ok 4208882033
  else if String.eqb magic "CSMAGIC_BLOBWRAPPER" then Ok 4208855809
  else if String.eqb magic "CSMAGIC_EMBEDDED_SIGNATURE" then Ok 4208856256
  else if String.eqb magic "CSMAGIC_DETACHED_SIGNATURE" then Ok 4208856257
  else Raise ConstructError.

(** A blob: tag, declared length, then the stored payload bytes. *)
Definition Blob_build (b : Blob) : result string :=
  do m <- magic_number (blob_magic b);
  cat [be32 m; be32 (blob_length b); Ok (raw (blob_bytes b))].

(** The index of a superblob: every entry writes its type and offset in
    sequence and its blob at the recorded offset. *)
Fixpoint build_entries (idx : list IndexEntry) (table : string) (buf : string)
  : result (string * string) :=
  match idx with
  | [] => Ok (table, buf)
  | e :: idx' =>
      do row <- cat [be32 (index_type e); be32 (index_offset e)];
      do sub <- Blob_build (index_blob e);
      do buf' <- place (index_offset e) sub buf;
      build_entries idx' (table ++ row) buf'
  end.

Definition SuperBlob_build (d : BlobData) : result string :=
  match d with
  | DSuperBlob count idx =>
      if (count =? Z.of_nat (List.length idx))%Z then
        do c <- be32 count;
        do tb <- build_entries idx c EmptyString;
        Ok (write_at 0 (fst tb) (snd tb))
      else Raise ConstructError
  | _ => Raise AttributeError
  end.

(** The Requirements blob is a superblob of requirement blobs. *)
Definition Entitlements_build (d : BlobData) : result string :=
  SuperBlob_build d.

Definition cstring (s : string) : string := s ++ String Ascii.zero EmptyString.

Definition required {A : Type} (o : option A) : result A :=
  match o with
  | Some a => Ok a
  | None => Raise ConstructError
  end.

Definition check_hash (size : Z) (h : string) : result string :=
  if (len h =? size)%Z then Ok h else Raise ConstructError.

Definition CodeDirectory_build (d : BlobData) : result string :=
  match d with
  | DCodeDirectory cd =>
      do fixed <- cat [be32 (version cd); be32 (flags cd); be32 (hashOffset cd);
                       be32 (identOffset cd); be32 (nSpecialSlots cd);
                       be32 (nCodeSlots cd); be32 (codeLimit cd);
                       be8 (hashSize cd); be8 (hashType cd); be8 (spare1 cd);
                       be8 (pageSize cd); be32 (spare2 cd)];
      do buf <- place (identOffset cd) (cstring (ident cd)) fixed;
      do scatter <- (if (131328 <=? version cd)%Z
                     then do o <- required (scatterOffset cd); be32 o
                     else Ok EmptyString);
      let buf := write_at 36 scatter buf in
      do buf <- (if (131584 <=? version cd)%Z
                 then
                   do o <- required (teamIDOffset cd);
                   do t <- required (teamID cd);
                   do field <- be32 o;
                   place o (cstring t)
                         (write_at (36 + String.length scatter) field buf)
                 else Ok buf);
      if (Z.of_nat (List.length (hashes cd)) =? nSpecialSlots cd + nCodeSlots cd)%Z
      then
        do hs <- cat (List.map (check_hash (hashSize cd)) (hashes cd));
        place (hashOffset cd - hashSize cd * nSpecialSlots cd) hs buf
      else Raise ConstructError
  | _ => Raise AttributeError
  end.

(** Modelled from the spec: the expression tree of a requirement (the
    construct [Requirement] of macho_cs.py, not among the sources).  A
    node is a container with an operator name [op] and operands [data]; a
    literal is a container with [length] and [data], written as a 32-bit
    length, the bytes, and zero padding to a multiple of four; a match is
    a container with [matchOp] and, unless it only tests existence, a
    literal [Data].  Operator codes are those of the signature format. *)
Definition opcode (op : string) : result Z :=
  if String.eqb op "opFalse" then Ok 0
  else if String.eqb op "opTrue" then Ok 1
  else if String.eqb op "opIdent" then Ok 2
  else if String.eqb op "opAppleAnchor" then Ok 3
  else if String.eqb op "opAnchorHash" then Ok 4
  else if String.eqb op "opInfoKeyValue" then Ok 5
  else if String.eqb op "opAnd" then Ok 6
  else if String.eqb op "opOr" then Ok 7
  else if String.eqb op "opCDHash" then Ok 8
  else if String.eqb op "opNot" then Ok 9
  else if String.eqb op "opInfoKeyField" then Ok 10
  else if String.eqb op "opCertField" then Ok 11
  else if String.eqb op "opTrustedCert" then Ok 12
  else if String.eqb op "opTrustedCerts" then Ok 13
  else if String.eqb op "opCertGeneric" then Ok 14
  else if String.eqb op "opAppleGenericAnchor" then Ok 15
  else if String.eqb op "opEntitlementField" then Ok 16
  else Raise ConstructError.

Definition matchcode (op : string) : result Z :=
  if String.eqb op "matchExists" then Ok 0
  else if String.eqb op "matchEqual" then Ok 1
  else if String.eqb op "matchContains" then Ok 2
  else if String.eqb op "matchBeginsWith" then Ok 3
  else if String.eqb op "matchEndsWith" then Ok 4
  else if String.eqb op "matchLessThan" then Ok 5
  else if String.eqb op "matchGreaterThan" then Ok 6
  else if String.eqb op "matchLessEqual" then Ok 7
  else if String.eqb op "matchGreaterEqual" then Ok 8
  else Raise ConstructError.

Definition build_Data (v : pyval) : result string :=
  match getattr "length" v, getattr "data" v with
  | Some (PInt n), Some (PStr s) =>
      if (len s =? n)%Z then
        do hd <- be32 n;
        Ok (hd ++ s ++ zeros (Z.to_nat ((- n) mod 4)))
      else Raise ConstructError
  | _, _ => Raise ConstructError
  end.

Definition build_CertSlot (v : pyval) : result string :=
  match v with
  | PStr s =>
      if String.eqb s "anchorCert" then be32 4294967295
      else if String.eqb s "leafCert" then be32 0
      else Raise ConstructError
  | PInt z => be32 z
  | _ => Raise ConstructError
  end.

Definition build_Match (v : pyval) : result string :=
  match getattr "matchOp" v with
  | Some (PStr m) =>
      do code <- matchcode m;
      do hd <- be32 code;
      if String.eqb m "matchExists" then Ok hd
      else
        match getattr "Data" v with
        | Some d => do lit <- build_Data d; Ok (hd ++ lit)
        | None => Raise ConstructError
        end
  | _ => Raise ConstructError
  end.

Definition is_in (op : string) (ops : list string) : bool :=
  List.existsb (String.eqb op) ops.

(** Building recurses on the nesting of the expression; [fuel] bounds the
    depth, as the interpreter's recursion limit does. *)
Fixpoint build_Expr (fuel : nat) (v : pyval) : result string :=
  match fuel with
  | O => Raise ConstructError
  | S fuel' =>
      match getattr "op" v, getattr "data" v with
      | Some (PStr op), Some d =>
          do code <- opcode op;
          do hd <- be32 code;
          do operands <-
            (if is_in op ["opIdent"; "opInfoKeyValue"; "opCDHash"] then build_Data d
             else if is_in op ["opAnd"; "opOr"] then
               match d with
               | PList [a; b] => cat [build_Expr fuel' a; build_Expr fuel' b]
               | _ => Raise ConstructError
               end
             else if String.eqb op "opNot" then build_Expr fuel' d
             else if is_in op ["opCertField"; "opCertGeneric"] then
               match d with
               | PList [slot; key; m] =>
                   cat [build_CertSlot slot; build_Data key; build_Match m]
               | _ => Raise ConstructError
               end
             else if String.eqb op "opAnchorHash" then
               match d with
               | PList [slot; h] => cat [build_CertSlot slot; build_Data h]
               | _ => Raise ConstructError
               end
             else if is_in op ["opInfoKeyField"; "opEntitlementField"] then
               match d with
               | PList [key; m] => cat [build_Data key; build_Match m]
               | _ => Raise ConstructError
               end
             else if String.eqb op "opTrustedCert" then build_CertSlot d
             else Ok EmptyString);
          Ok (hd ++ operands)
      | _, _ => Raise ConstructError
      end
  end.

Definition recursion_limit : nat := 1000.

Definition Requirement_build (d : BlobData) : result string :=
  match d with
  | DDyn v =>
      match getattr "kind" v, getattr "expr" v with
      | Some (PInt 1), Some e =>
          do k <- be32 1;
          do body <- build_Expr recursion_limit e;
          Ok (k ++ body)
      | _, _ => Raise ConstructError
      end
  | _ => Raise AttributeError
  end.

Definition codec : MachoCS :=
  Build_MachoCS SHA1_HASHTYPE SHA256_HASHTYPE Blob_build SuperBlob_build
                Entitlements_build Requirement_build CodeDirectory_build.

End SpecCodec.

(** ** A synthetic signature *)

Module Sample.
Import SpecCodec.

(** Stand-ins for hashlib and the file system, to run the passes on the
    sample below; every theorem is stated for an arbitrary [Host].  The
    digests have the width of the real ones: the first 20 (32) bytes of
    the zero-padded content. *)
Definition host : Host :=
  {| sha1 := fun s => String.substring 0 20 (s ++ zeros 20);
     sha256 := fun s => String.substring 0 32 (s ++ zeros 32);
     read_file := fun path =>
       if String.eqb path "_CodeSignature/CodeResources" then Ok "SEAL"
       else if String.eqb path "Info.plist" then Ok "INFO"
       else Raise (IOError path) |}.

Definition unwrap (r : result string) : string :=
  match r with
  | Ok s => s
  | Raise _ => EmptyString
  end.

Definition literal (s : string) : pyval :=
  PCont [("length", PInt (len s)); ("data", PStr s)].

Definition expr (op : string) (operands : pyval) : pyval :=
  PCont [("op", PStr op); ("data", operands)].

Definition match_equal (s : string) : pyval :=
  PCont [("matchOp", PStr "matchEqual"); ("Data", literal s)].

Definition match_exists : pyval :=
  PCont [("matchOp", PStr "matchExists"); ("Data", PNone)].

(** [identifier <bundle_id> and anchor apple generic and
    certificate leaf[subject.CN] = <cn> and certificate 1[<oid>] exists] *)
Definition designated (bundle_id cn : string) : pyval :=
  PCont [("kind", PInt 1);
         ("expr",
          expr "opAnd" (PList [
            expr "opIdent" (literal bundle_id);
            expr "opAnd" (PList [
              expr "opAppleGenericAnchor" PNone;
              expr "opAnd" (PList [
                expr "opCertField"
                     (PList [PStr "leafCert"; literal "subject.CN"; match_equal cn]);
                expr "opCertGeneric"
                     (PList [PInt 1; literal "oid"; match_exists])])])]))].

(** A requirement blob as parsing leaves it: [bytes] holds the encoding of
    [data], [length] its size plus the header. *)
Definition requirement_blob (tree : pyval) : Blob :=
  let encoded := unwrap (Requirement_build (DDyn tree)) in
  mkBlob "CSMAGIC_REQUIREMENT" (len encoded + 8) (DDyn tree)
         (LazyContainer encoded) None.

Definition parsed_superblob (magic : string) (idx : list IndexEntry) : Blob :=
  let d := DSuperBlob (Z.of_nat (List.length idx)) idx in
  let encoded := unwrap (SuperBlob_build d) in
  mkBlob magic (len encoded + 8) d (LazyContainer encoded) None.

Definition req_blob_0 : Blob :=
  Eval vm_compute in requirement_blob (designated "com.example.app" "Old CN").

Definition req_blob_1 : Blob :=
  Eval vm_compute in
    requirement_blob (PCont [("kind", PInt 1); ("expr", expr "opTrue" PNone)]).

(** Requirements: the designated requirement and a second entry after it. *)
Definition requirements : Blob :=
  Eval vm_compute in
    parsed_superblob "CSMAGIC_REQUIREMENTS"
      [mkIndex 3 28 req_blob_0;
       mkIndex 1 (28 + blob_length req_blob_0) req_blob_1].

Definition code_directory (special code : nat) (team : string) : CodeDirectory :=
  {| version := 131584; flags := 0;
     hashOffset := 68 + len team + 1 + 20 * Z.of_nat special;
     identOffset := 52; nSpecialSlots := Z.of_nat special;
     nCodeSlots := Z.of_nat code; codeLimit := 4096; hashSize := 20;
     hashType := 1; spare1 := 0; pageSize := 12; spare2 := 0;
     ident := "com.example.app"; scatterOffset := Some 0;
     teamIDOffset := Some 68; teamID := Some team;
     hashes := List.repeat (zeros 20) (special + code) |}.

Definition codedirectory_blob (cd : CodeDirectory) : Blob :=
  let encoded := unwrap (CodeDirectory_build (DCodeDirectory cd)) in
  mkBlob "CSMAGIC_CODEDIRECTORY" (len encoded + 8) (DCodeDirectory cd)
         (LazyContainer encoded) None.

Definition cd_blob : Blob :=
  Eval vm_compute in codedirectory_blob (code_directory 5 1 "OLDTM").

Definition entitlements_blob : Blob :=
  mkBlob "CSMAGIC_ENTITLEMENT" 13 (DDyn (PCont [("data", PStr "<ent>")]))
         (LazyContainer "<ent>") None.

Definition sigwrapper : Blob :=
  mkBlob "CSMAGIC_BLOBWRAPPER" 14 (DDyn (PCont [("data", PStr "OLDSIG")]))
         (LazyContainer "OLDSIG") None.

(** Offsets of a run of blobs laid out one after the other from [offset]. *)
Fixpoint lay_out (offset : Z) (types : list Z) (blobs : list Blob)
  : list IndexEntry :=
  match types, blobs with
  | t :: types', b :: blobs' =>
      mkIndex t offset b :: lay_out (offset + blob_length b) types' blobs'
  | _, _ => []
  end.

(** The signature of the end-to-end scenario: one code directory with five
    special slots, requirements, entitlements and the signature wrapper. *)
Definition signature : Blob :=
  Eval vm_compute in
    parsed_superblob "CSMAGIC_EMBEDDED_SIGNATURE"
      (lay_out 44 [0; 2; 5; 65536]
               [cd_blob; requirements; entitlements_blob; sigwrapper]).

(** [identifier <bundle_id> and anchor apple]: a designated requirement
    with no signer CN rule. *)
Definition designated_without_cn (bundle_id : string) : pyval :=
  PCont [("kind", PInt 1);
         ("expr",
          expr "opAnd" (PList [
            expr "opIdent" (literal bundle_id);
            expr "opAppleAnchor" PNone]))].

Definition requirements_without_cn : Blob :=
  Eval vm_compute in
    let req_0 := requirement_blob (designated_without_cn "com.example.app") in
    parsed_superblob "CSMAGIC_REQUIREMENTS"
      [mkIndex 3 28 req_0; mkIndex 1 (28 + blob_length req_0) req_blob_1].

Definition signature_without_cn : Blob :=
  Eval vm_compute in
    parsed_superblob "CSMAGIC_EMBEDDED_SIGNATURE"
      (lay_out 44 [0; 2; 5; 65536]
               [cd_blob; requirements_without_cn; entitlements_blob; sigwrapper]).

(** A code directory that keeps its team identifier after the hash array:
    identifier at 52, five special and one code slot from 68, team
    identifier at 188. *)
Definition code_directory_team_last (team : string) : CodeDirectory :=
  {| version := 131584; flags := 0; hashOffset := 168; identOffset := 52;
     nSpecialSlots := 5; nCodeSlots := 1; codeLimit := 4096; hashSize := 20;
     hashType := 1; spare1 := 0; pageSize := 12; spare2 := 0;
     ident := "com.example.app"; scatterOffset := Some 0;
     teamIDOffset := Some 188; teamID := Some team;
     hashes := List.repeat (zeros 20) 6 |}.

Definition cd_blob_team_last : Blob :=
  Eval vm_compute in codedirectory_blob (code_directory_team_last "OLDTM").

Definition signature_team_last : Blob :=
  Eval vm_compute in
    parsed_superblob "CSMAGIC_EMBEDDED_SIGNATURE"
      (lay_out 44 [0; 2; 5; 65536]
               [cd_blob_team_last; requirements; entitlements_blob; sigwrapper]).

(** A signature with two wrapper blobs. *)
Definition signature_two_wrappers : Blob :=
  Eval vm_compute in
    parsed_superblob "CSMAGIC_EMBEDDED_SIGNATURE"
      (lay_out 36 [0; 65536; 65536] [cd_blob; sigwrapper; sigwrapper]).

(** The top-level index, split around the entry at a position. *)
Definition index_of (construct : Blob) : list IndexEntry :=
  match blob_data construct with
  | DSuperBlob _ idx => idx
  | _ => []
  end.

Definition entry (construct : Blob) (i : nat) : IndexEntry :=
  List.nth i (index_of construct) (mkIndex 0 0 construct).

Definition before (construct : Blob) (i : nat) : list IndexEntry :=
  List.firstn i (index_of construct).

Definition after (construct : Blob) (i : nat) : list IndexEntry :=
  List.skipn (S i) (index_of construct).

Definition signer : Signer :=
  {| is_adhoc := false; get_common_name := "New CN"; get_team_id := "TEAM1";
     sign := fun _ _ => "NEWSIG" |}.

(** A signer whose team identifier is longer than the one in the code
    directory. *)
Definition signer_long_team : Signer :=
  {| is_adhoc := false; get_common_name := "New CN";
     get_team_id := "TEAMID1234"; sign := fun _ _ => "NEWSIG" |}.

Definition adhoc_signer : Signer :=
  {| is_adhoc := true; get_common_name := ""; get_team_id := "";
     sign := fun _ _ => "NEWSIG" |}.

Definition signable (changed : option string) : Signable :=
  {| get_changed_bundle_id := changed; should_fill_slot := fun _ _ => true |}.

Definition bundle : Bundle :=
  {| entitlements := Some "<new-ent>";
     seal_path := "_CodeSignature/CodeResources";
     info_path := "Info.plist" |}.

(** A signature without a Requirements blob. *)
Definition signature_without_requirements : Blob :=
  Eval vm_compute in
    parsed_superblob "CSMAGIC_EMBEDDED_SIGNATURE"
      (lay_out 36 [0; 5; 65536] [cd_blob; entitlements_blob; sigwrapper]).

(** A signature with two entitlements blobs. *)
Definition signature_two_entitlements : Blob :=
  Eval vm_compute in
    parsed_superblob "CSMAGIC_EMBEDDED_SIGNATURE"
      (lay_out 36 [0; 5; 5] [cd_blob; entitlements_blob; entitlements_blob]).

(** A code directory whose hash type is neither SHA-1 nor SHA-256, after
    the requirements in the index. *)
Definition code_directory_unknown_hash : CodeDirectory :=
  {| version := 131584; flags := 0; hashOffset := 174; identOffset := 52;
     nSpecialSlots := 5; nCodeSlots := 1; codeLimit := 4096; hashSize := 20;
     hashType := 3; spare1 := 0; pageSize := 12; spare2 := 0;
     ident := "com.example.app"; scatterOffset := Some 0;
     teamIDOffset := Some 68; teamID := Some "OLDTM";
     hashes := List.repeat (zeros 20) 6 |}.

Definition cd_blob_unknown_hash : Blob :=
  mkBlob "CSMAGIC_CODEDIRECTORY" 194 (DCodeDirectory code_directory_unknown_hash)
         (blob_bytes cd_blob) None.

Definition signature_unknown_hash : Blob :=
  Eval vm_compute in
    parsed_superblob "CSMAGIC_EMBEDDED_SIGNATURE"
      (lay_out 36 [2; 0; 65536] [requirements; cd_blob_unknown_hash; sigwrapper]).

(** A requirement set without entries, and one whose designated
    requirement has [exists] where the signer CN is compared. *)
Definition requirements_empty : Blob :=
  Eval vm_compute in parsed_superblob "CSMAGIC_REQUIREMENTS" [].

Definition designated_cn_exists (bundle_id : string) : pyval :=
  PCont [("kind", PInt 1);
         ("expr",
          expr "opAnd" (PList [
            expr "opIdent" (literal bundle_id);
            expr "opAnd" (PList [
              expr "opAppleGenericAnchor" PNone;
              expr "opAnd" (PList [
                expr "opCertField"
                     (PList [PStr "leafCert"; literal "subject.CN"; match_exists]);
                expr "opCertGeneric"
                     (PList [PInt 1; literal "oid"; match_exists])])])]))].

Definition requirements_cn_exists : Blob :=
  Eval vm_compute in
    parsed_superblob "CSMAGIC_REQUIREMENTS"
      [mkIndex 3 20 (requirement_blob (designated_cn_exists "com.example.app"))].

Definition signature_with (requirements : Blob) : Blob :=
  parsed_superblob "CSMAGIC_EMBEDDED_SIGNATURE"
    (lay_out 44 [0; 2; 5; 65536]
             [cd_blob; requirements; entitlements_blob; sigwrapper]).

(** A signature whose code directory has one special slot and one code
    slot. *)
Definition signature_one_slot : Blob :=
  Eval vm_compute in
    parsed_superblob "CSMAGIC_EMBEDDED_SIGNATURE"
      (lay_out 28 [0; 2]
               [codedirectory_blob (code_directory 1 1 "OLDTM"); requirements]).

(** A signature without entries, and one with a blob of a magic the
    encoder does not know. *)
Definition signature_empty : Blob :=
  Eval vm_compute in parsed_superblob "CSMAGIC_EMBEDDED_SIGNATURE" [].

Definition signature_unknown_magic : Blob :=
  mkBlob "CSMAGIC_EMBEDDED_SIGNATURE" 230
         (DSuperBlob 2 [mkIndex 0 28 cd_blob;
                        mkIndex 9 222
                          (mkBlob "CSMAGIC_UNKNOWN" 8 (DDyn PNone)
                                  (LazyContainer "") None)])
         (LazyContainer "") None.

End Sample.

(** ** Notions the statements use *)

(** Number of index entries whose blob carries [magic]. *)
Fixpoint occurrences (magic : string) (idx : list IndexEntry) : nat :=
  match idx with
  | [] => 0%nat
  | e :: idx' =>
      if String.eqb (blob_magic (index_blob e)) magic
      then S (occurrences magic idx')
      else occurrences magic idx'
  end.

(** The cascading offset law: entries of sizes [s0, s1, ...] laid out from
    base offset [b] sit at [b, b + s0, b + s0 + s1, ...]. *)
Fixpoint cascade (b : Z) (sizes : list Z) : list Z :=
  match sizes with
  | [] => []
  | s :: sizes' => b :: cascade (b + s) sizes'
  end.

(** [sizes] are the sizes of the freshly built blobs of [idx]. *)
Definition built_sizes `{MachoCS} (idx : list IndexEntry) (sizes : list Z) : Prop :=
  Forall2 (fun e s => exists built, Blob_build (index_blob e) = Ok built /\ s = len built)
          idx sizes.

(** The length invariant of a blob: declared length = header + payload. *)
Definition length_ok (b : Blob) : Prop :=
  blob_length b = 8 + len (raw (blob_bytes b)).

(** A blob with the hash array of its code directory, if it holds one,
    emptied: what the first loop of [set_codedirectory] leaves alone. *)
Definition forget_hashes (b : Blob) : Blob :=
  match blob_data b with
  | DCodeDirectory cd => set_data (DCodeDirectory (set_hashes [] cd)) b
  | _ => b
  end.

Definition forget_entry_hashes (e : IndexEntry) : IndexEntry :=
  set_blob (forget_hashes (index_blob e)) e.

(** A path on which every subscript is followed by an attribute access, as
    on the two paths of [set_requirements]. *)
Fixpoint attr_follows_item (p : list step) : bool :=
  match p with
  | [] => true
  | Attr _ :: p' => attr_follows_item p'
  | Item _ :: p' =>
      match p' with
      | Attr _ :: _ => attr_follows_item p'
      | _ => false
      end
  end.

(** What [set_requirements] is to leave behind: entry 0 of the Requirements
    superblob carries the encoding of its expression tree and the matching
    length, and the Requirements superblob carries its own re-encoding and
    a length of the encoded payload size plus 8. *)
Definition requirements_reencoded `{MachoCS} (construct' : Blob) : Prop :=
  exists requirements' entry_0' later' bytes_0 bytes,
    get_blob construct' "CSMAGIC_REQUIREMENTS" = Ok requirements' /\
    data_BlobIndex (blob_data requirements') = Ok (entry_0' :: later') /\
    Requirement_build (blob_data (index_blob entry_0')) = Ok bytes_0 /\
    raw (blob_bytes (index_blob entry_0')) = bytes_0 /\
    blob_length (index_blob entry_0') = len bytes_0 + 8 /\
    Entitlements_build (blob_data requirements') = Ok bytes /\
    raw (blob_bytes requirements') = bytes /\
    blob_length requirements' = len bytes + 8.

(** What the first loop of [set_codedirectory] may do to the hash array of a
    code directory with [n] special slots: the array keeps its length, and a
    hash that differs afterwards is that of a special slot present on the
    directory, and never that of the entitlements slot when the signer is
    ad hoc. *)
Definition touched (n : Z) (adhoc : bool) (hs hs' : list string) : Prop :=
  List.length hs' = List.length hs /\
  forall k : nat,
    hs' !! k = hs !! k \/
    exists slot : Slot,
      0 <= slot_offset slot + n /\
      Z.of_nat k = slot_offset slot + n /\
      (slot = EntitlementsSlot -> adhoc = false).

(** An entry before and after slots were filled: the same entry, or the
    same entry with a hash array [touched] in this way. *)
Definition slots_filled (adhoc : bool) (e e' : IndexEntry) : Prop :=
  e' = e \/
  exists cd hs',
    blob_data (index_blob e) = DCodeDirectory cd /\
    e' = set_blob (set_data (DCodeDirectory (set_hashes hs' cd)) (index_blob e)) e /\
    touched (nSpecialSlots cd) adhoc (hashes cd) hs'.

(** Two states of the signature that differ at most in the entries at the
    positions [ps], where the entries are related by [R]: the index has the
    same length, the entries elsewhere are the same, the superblob's own
    magic, length, bytes and count are the same. *)
Definition changed_within (R : IndexEntry -> IndexEntry -> Prop) (ps : list nat)
           (construct construct' : Blob) : Prop :=
  exists count idx idx',
    blob_data construct = DSuperBlob count idx /\
    construct' = set_data (DSuperBlob count idx') construct /\
    List.length idx' = List.length idx /\
    forall i e,
      idx !! i = Some e ->
      exists e', idx' !! i = Some e' /\
                 (i ∈ ps -> R e e') /\
                 (i ∉ ps -> e' = e).

(** An index entry whose blob has been replaced: type and offset stay. *)
Definition blob_replaced (e e' : IndexEntry) : Prop :=
  exists b : Blob, e' = set_blob b e.

(** What an index entry is: its type and the magic of its blob. *)
Definition entry_kind (e : IndexEntry) : Z * string :=
  (index_type e, blob_magic (index_blob e)).

(** Two states of a signature with the same entries at the same places:
    the pass in between may have changed the blobs, but no entry's type,
    offset or magic, nor the magic and the count of the signature. *)
Definition same_places (construct construct' : Blob) : Prop :=
  blob_magic construct' = blob_magic construct /\
  exists count idx idx',
    blob_data construct = DSuperBlob count idx /\
    blob_data construct' = DSuperBlob count idx' /\
    List.map entry_kind idx' = List.map entry_kind idx /\
    List.map index_offset idx' = List.map index_offset idx.

(** * Verification *)

Local Open Scope list_scope.

Section Lookup.
Context `{MachoCS} `{Host}.

Lemma blobs_with_length magic idx :
  List.length (blobs_with magic idx) = occurrences magic idx.
Proof.
  unfold blobs_with. induction idx as [|e idx IH]; simpl; [reflexivity|].
  destruct (String.eqb (blob_magic (index_blob e)) magic); simpl; congruence.
Qed.

Lemma blobs_with_app magic idx1 idx2 :
  blobs_with magic (idx1 ++ idx2) = blobs_with magic idx1 ++ blobs_with magic idx2.
Proof. unfold blobs_with. now rewrite List.map_app, List.filter_app. Qed.

Lemma blobs_with_none magic idx :
  occurrences magic idx = 0%nat -> blobs_with magic idx = [].
Proof.
  intros Hn. rewrite <- blobs_with_length in Hn.
  destruct (blobs_with magic idx); [reflexivity | discriminate].
Qed.

(** The one entry that carries [magic], with nothing of that magic around
    it, is what [get_blobs] finds. *)
Lemma blobs_with_unique magic pre e post :
  blob_magic (index_blob e) = magic ->
  occurrences magic pre = 0%nat -> occurrences magic post = 0%nat ->
  blobs_with magic (pre ++ e :: post) = [index_blob e].
Proof.
  intros Hm Hpre Hpost.
  rewrite blobs_with_app, (blobs_with_none _ _ Hpre).
  change (e :: post) with ([e] ++ post).
  rewrite blobs_with_app, (blobs_with_none _ _ Hpost).
  unfold blobs_with. simpl. rewrite Hm, String.eqb_refl. reflexivity.
Qed.

(** A unique occurrence splits the index around it. *)
Lemma occurrences_one_split magic idx :
  occurrences magic idx = 1%nat ->
  exists pre e post,
    idx = pre ++ e :: post /\ blob_magic (index_blob e) = magic /\
    occurrences magic pre = 0%nat /\ occurrences magic post = 0%nat.
Proof.
  induction idx as [|e idx IH]; simpl; [discriminate|].
  destruct (String.eqb (blob_magic (index_blob e)) magic) eqn:E.
  - intros Hn. exists [], e, idx. simpl.
    apply String.eqb_eq in E. repeat split; [assumption | lia].
  - intros Hn. destruct (IH Hn) as (pre & e' & post & -> & Hm & Hpre & Hpost).
    exists (e :: pre), e', post. simpl. rewrite E. auto.
Qed.

Lemma get_blob_absent construct magic idx :
  data_BlobIndex (blob_data construct) = Ok idx ->
  occurrences magic idx = 0%nat ->
  get_blob construct magic = Raise (KeyError magic).
Proof.
  intros Hidx Hn. unfold get_blob, get_blobs. rewrite Hidx. simpl.
  now rewrite (blobs_with_none _ _ Hn).
Qed.

Lemma get_blob_many construct magic idx :
  data_BlobIndex (blob_data construct) = Ok idx ->
  (1 < occurrences magic idx)%nat ->
  get_blob construct magic
  = Raise (MultipleEntriesException (occurrences magic idx)).
Proof.
  intros Hidx Hn. unfold get_blob, get_blobs. rewrite Hidx. simpl.
  rewrite <- blobs_with_length in *.
  destruct (blobs_with magic idx) as [|b [|b' l]]; simpl in *; try lia.
  reflexivity.
Qed.

Lemma get_blob_unique construct magic idx pre e post :
  data_BlobIndex (blob_data construct) = Ok idx ->
  idx = pre ++ e :: post -> blob_magic (index_blob e) = magic ->
  occurrences magic pre = 0%nat -> occurrences magic post = 0%nat ->
  get_blob construct magic = Ok (index_blob e).
Proof.
  intros Hidx -> Hm Hpre Hpost.
  unfold get_blob, get_blobs. rewrite Hidx. simpl.
  now rewrite (blobs_with_unique _ _ _ _ Hm Hpre Hpost).
Qed.

(** C5: [get_blob] raises [KeyError] when no blob of the top-level index
    carries the magic, raises [MultipleEntriesException] carrying the
    number of matching blobs when more than one does (2 when the magic
    occurs twice), and returns the matching blob when exactly one does. *)
Theorem get_blob_cases (construct : Blob) (magic : string) (idx : list IndexEntry) :
  data_BlobIndex (blob_data construct) = Ok idx ->
  (occurrences magic idx = 0%nat ->
   get_blob construct magic = Raise (KeyError magic)) /\
  ((1 < occurrences magic idx)%nat ->
   get_blob construct magic =
     Raise (MultipleEntriesException (occurrences magic idx))) /\
  (occurrences magic idx = 2%nat ->
   get_blob construct magic = Raise (MultipleEntriesException 2)) /\
  (forall pre e post,
      idx = pre ++ e :: post -> blob_magic (index_blob e) = magic ->
      occurrences magic pre = 0%nat -> occurrences magic post = 0%nat ->
      get_blob construct magic = Ok (index_blob e)) /\
  (occurrences magic idx = 1%nat ->
   exists b, In b (List.map index_blob idx) /\ blob_magic b = magic /\
             get_blob construct magic = Ok b).
Proof.
  intros Hidx. repeat split.
  - now apply get_blob_absent.
  - now apply get_blob_many.
  - intros Hn. rewrite (get_blob_many _ _ _ Hidx); [now rewrite Hn | lia].
  - intros pre e post. now apply get_blob_unique.
  - intros Hn.
    destruct (occurrences_one_split _ _ Hn) as (pre & e & post & Hsplit & Hm & Hpre & Hpost).
    exists (index_blob e). split; [|split].
    + rewrite Hsplit, List.map_app. apply List.in_or_app. right. now left.
    + exact Hm.
    + now apply (get_blob_unique _ _ idx pre e post).
Qed.

End Lookup.

Section Entitlements.

Lemma write_entries_none magic b' idx :
  occurrences magic idx = 0%nat ->
  List.map (write_entry magic b') idx = idx.
Proof.
  induction idx as [|e idx IH]; simpl; [reflexivity|].
  unfold write_entry at 1.
  destruct (String.eqb (blob_magic (index_blob e)) magic); [discriminate|].
  intros Hn. now rewrite IH.
Qed.

(** Writing through the reference [get_blob] returned touches the entry
    that holds the blob and no other. *)
Lemma write_entries_unique magic b' pre e post :
  blob_magic (index_blob e) = magic ->
  occurrences magic pre = 0%nat -> occurrences magic post = 0%nat ->
  List.map (write_entry magic b') (pre ++ e :: post)
  = pre ++ set_blob b' e :: post.
Proof.
  intros Hm Hpre Hpost. rewrite List.map_app. simpl.
  rewrite (write_entries_none _ _ _ Hpre), (write_entries_none _ _ _ Hpost).
  unfold write_entry. now rewrite Hm, String.eqb_refl.
Qed.

(** C10: without an entitlements blob [set_entitlements] returns and
    leaves the signature as it is; with exactly one it stores the supplied
    bytes in that blob and sets the blob's length to their number plus 8;
    the blob's magic and parsed data, every other entry and the enclosing
    superblob stay as they were. *)
Theorem set_entitlements_cases (construct : Blob) (count : Z)
        (idx : list IndexEntry) (entitlements_bytes : string) :
  blob_data construct = DSuperBlob count idx ->
  (occurrences "CSMAGIC_ENTITLEMENT" idx = 0%nat ->
   set_entitlements entitlements_bytes construct = Ok construct) /\
  (forall pre e post,
      idx = pre ++ e :: post ->
      blob_magic (index_blob e) = "CSMAGIC_ENTITLEMENT" ->
      occurrences "CSMAGIC_ENTITLEMENT" pre = 0%nat ->
      occurrences "CSMAGIC_ENTITLEMENT" post = 0%nat ->
      set_entitlements entitlements_bytes construct
      = Ok (set_data
              (DSuperBlob count
                 (pre ++
                  mkIndex (index_type e) (index_offset e)
                    (mkBlob "CSMAGIC_ENTITLEMENT" (len entitlements_bytes + 8)
                            (blob_data (index_blob e)) (Str entitlements_bytes)
                            (blob_attr_count (index_blob e)))
                  :: post))
              construct)).
Proof.
  intros Hdata.
  assert (Hidx : data_BlobIndex (blob_data construct) = Ok idx)
    by now rewrite Hdata.
  split.
  - intros Hn. unfold set_entitlements.
    now rewrite (get_blob_absent _ _ _ Hidx Hn).
  - intros pre e post Hsplit Hm Hpre Hpost. unfold set_entitlements.
    rewrite (get_blob_unique _ _ _ pre e post Hidx Hsplit Hm Hpre Hpost).
    unfold write_blob. rewrite Hdata, Hsplit.
    rewrite (write_entries_unique _ _ _ _ _ Hm Hpre Hpost).
    destruct e as [t o [m l d y c]]. simpl in *. now subst m.
Qed.

End Entitlements.

Section SlotHashes.
Context `{MachoCS} `{Host}.

Lemma zeros_length n : String.length (zeros n) = n.
Proof. induction n; simpl; congruence. Qed.

Lemma zeros_get n : forall i ch, String.get i (zeros n) = Some ch -> ch = Ascii.zero.
Proof.
  induction n as [|n IH]; simpl; intros i ch; [discriminate|].
  destruct i as [|i]; [now intros [= <-] | apply IH].
Qed.

(** C6, as the code has it: the four slot classes that inherit
    [CodeDirectorySlot.get_hash] raise [ValueError] for every hash type
    other than the two supported ones, whatever their contents;
    [ApplicationSlot.get_hash] never raises, whatever the hash type: it
    answers the legacy hash type with 20 zero bytes and every other hash
    type, supported or not, with 32 zero bytes. *)
Theorem get_hash_unsupported (construct : Blob) (slot : Slot) (hash_type : Z) :
  (hash_type <> SHA1_HASHTYPE -> hash_type <> SHA256_HASHTYPE ->
   slot <> ApplicationSlot ->
   get_hash construct slot hash_type = Raise (ValueError hash_type)) /\
  exists digest : string,
    get_hash construct ApplicationSlot hash_type = Ok digest /\
    (forall i ch, String.get i digest = Some ch -> ch = Ascii.zero) /\
    (hash_type = SHA1_HASHTYPE -> String.length digest = 20%nat) /\
    (hash_type <> SHA1_HASHTYPE -> String.length digest = 32%nat).
Proof.
  split.
  - intros H1 H2 Hslot.
    apply Z.eqb_neq in H1. apply Z.eqb_neq in H2.
    destruct slot; try congruence; simpl;
      unfold CodeDirectorySlot_get_hash; now rewrite H1, H2.
  - eexists. split; [reflexivity|]. split; [apply zeros_get|].
    rewrite zeros_length.
    split; intros Ht.
    + now rewrite Ht, Z.eqb_refl.
    + apply Z.eqb_neq in Ht. now rewrite Ht.
Qed.

(** The fixed digest of the application slot under the legacy algorithm. *)
Lemma application_slot_sha1 construct :
  get_hash construct ApplicationSlot SHA1_HASHTYPE = Ok (zeros 20).
Proof. simpl. unfold ApplicationSlot_get_hash. now rewrite Z.eqb_refl. Qed.

End SlotHashes.

Section Paths.

Lemma assoc_get_set_eq name x fs :
  assoc_get name (assoc_set name x fs) = Some x.
Proof.
  induction fs as [|[k v] fs IH]; simpl.
  - now rewrite String.eqb_refl.
  - destruct (String.eqb k name) eqn:E; simpl; rewrite E; auto.
Qed.

Lemma assoc_get_set_ne name name' x fs :
  name <> name' ->
  assoc_get name' (assoc_set name x fs) = assoc_get name' fs.
Proof.
  intros Hne. induction fs as [|[k v] fs IH]; simpl.
  - apply String.eqb_neq in Hne. now rewrite Hne.
  - destruct (String.eqb k name) eqn:E; simpl.
    + apply String.eqb_eq in E. subst k.
      apply String.eqb_neq in Hne. now rewrite Hne.
    + now rewrite IH.
Qed.

(** Reading where one has just written gives what was written. *)
Lemma get_put_step st w v v' :
  put_step st w v = Some v' -> get_step st v' = Some w.
Proof.
  destruct st as [name|i], v as [| | |l|fs]; simpl; try discriminate.
  - destruct (assoc_get name fs); [|discriminate].
    intros [= <-]. simpl. apply assoc_get_set_eq.
  - destruct (l !! i) eqn:E; [|discriminate].
    intros [= <-]. simpl. apply list_lookup_insert_eq.
    now apply lookup_lt_Some in E.
Qed.

Lemma get_put_path p w : forall v v',
  put_path p w v = Some v' -> get_path p v' = Some w.
Proof.
  induction p as [|st p IH]; simpl; intros v v'.
  - now intros [= <-].
  - destruct (get_step st v) as [sub|]; [|discriminate].
    destruct (put_path p w sub) as [sub'|] eqn:E; [|discriminate].
    intros Hput. rewrite (get_put_step _ _ _ _ Hput). now apply (IH sub).
Qed.

(** Two paths that part at a subscript reach different objects: a write
    through one is not seen through the other. *)
Lemma get_put_diverge pre i j r1 r2 w :
  i <> j -> forall v v',
  put_path (pre ++ Item i :: r1) w v = Some v' ->
  get_path (pre ++ Item j :: r2) v' = get_path (pre ++ Item j :: r2) v.
Proof.
  intros Hij. induction pre as [|st pre IH]; simpl; intros v v'.
  - destruct v as [| |s|l|fs]; simpl; try discriminate.
    + destruct (String.get i s); [|discriminate].
      destruct (put_path r1 w _); discriminate.
    + destruct (l !! i); [|discriminate].
      destruct (put_path r1 w p); [|discriminate].
      intros [= <-]. simpl. now rewrite list_lookup_insert_ne.
  - destruct (get_step st v) as [sub|] eqn:Eg; [|discriminate].
    destruct (put_path (pre ++ Item i :: r1) w sub) as [sub'|] eqn:E; [|discriminate].
    intros Hput. rewrite (get_put_step _ _ _ _ Hput). now apply (IH sub).
Qed.

(** On such a path every object reached can be written back. *)
Lemma put_path_defined p w : forall v n,
  attr_follows_item p = true -> get_path p v = Some n ->
  exists v', put_path p w v = Some v'.
Proof.
  induction p as [|st p IH]; simpl; intros v n Hwf Hget.
  - eauto.
  - destruct (get_step st v) as [sub|] eqn:Eg; [|discriminate].
    assert (Hwf' : attr_follows_item p = true).
    { destruct st; [assumption|]. destruct p as [|[|] ?]; try discriminate.
      assumption. }
    destruct (IH sub n Hwf' Hget) as [sub' Hsub']. rewrite Hsub'.
    destruct st as [name|i]; simpl in *.
    + destruct v; simpl in *; try discriminate. rewrite Eg. eauto.
    + destruct v as [| |s|l|fs]; simpl in *; try discriminate.
      * destruct (String.get i s); [|discriminate].
        injection Eg as <-.
        destruct p as [|[|] ?]; simpl in *; discriminate.
      * rewrite Eg. eauto.
Qed.

Lemma set_literal_cont s fs :
  set_literal s (PCont fs)
  = Some (PCont (assoc_set "length" (PInt (len s)) (assoc_set "data" (PStr s) fs))).
Proof. reflexivity. Qed.

Lemma set_literal_attrs s node node' :
  set_literal s node = Some node' ->
  getattr "data" node' = Some (PStr s) /\
  getattr "length" node' = Some (PInt (len s)).
Proof.
  destruct node; try discriminate. rewrite set_literal_cont. intros [= <-].
  simpl. split.
  - rewrite assoc_get_set_ne by discriminate. apply assoc_get_set_eq.
  - apply assoc_get_set_eq.
Qed.

End Paths.

Section Requirements.
Context `{MachoCS}.

Lemma set_data_same b : set_data (blob_data b) b = b.
Proof. now destruct b. Qed.

Lemma set_blob_same e : set_blob (index_blob e) e = e.
Proof. now destruct e. Qed.

(** Setting the bundle id does not move the signer CN rule. *)
Lemma find_cn_patch id d : find_cn (patch_bundle_id id d) = find_cn d.
Proof.
  unfold patch_bundle_id.
  destruct (dyn_of d) as [v|] eqn:Ed; [|reflexivity].
  destruct (get_path bundle_path v) as [b|]; [|reflexivity].
  destruct (set_literal id b) as [b'|]; [|reflexivity].
  destruct (put_path bundle_path b' v) as [v'|] eqn:Ep; [|reflexivity].
  destruct d; try discriminate. injection Ed as ->.
  unfold find_cn. simpl dyn_of.
  exact (get_put_diverge [Attr "expr"; Attr "data"] 0 1 [Attr "data"]
           [Attr "data"; Item 1; Attr "data"; Item 0; Attr "data"; Item 2;
            Attr "Data"] b' ltac:(discriminate) v v' Ep).
Qed.

(** When the bundle-identifier path reaches a container, the container
    ends up holding the changed bundle id and its length. *)
Lemma patch_bundle_id_found id v fs :
  get_path bundle_path v = Some (PCont fs) ->
  exists v' b',
    patch_bundle_id id (DDyn v) = DDyn v' /\
    get_path bundle_path v' = Some b' /\
    getattr "data" b' = Some (PStr id) /\
    getattr "length" b' = Some (PInt (len id)).
Proof.
  intros Hget. unfold patch_bundle_id. simpl dyn_of. cbv beta iota. rewrite Hget.
  rewrite set_literal_cont.
  set (b' := PCont _).
  destruct (put_path_defined bundle_path b' v _ eq_refl Hget) as [v' Hput].
  rewrite Hput. exists v', b'. split; [reflexivity|].
  split; [exact (get_put_path _ _ _ _ Hput)|].
  exact (set_literal_attrs id (PCont fs) b' (set_literal_cont id fs)).
Qed.

(** Replacing the signer CN leaves the bundle-identifier literal alone. *)
Lemma replace_cn_ok signer_cn cn d d' :
  replace_cn signer_cn cn d = Ok d' ->
  exists v v' cn',
    d = DDyn v /\ d' = DDyn v' /\
    get_path cn_path v' = Some cn' /\
    getattr "data" cn' = Some (PStr signer_cn) /\
    getattr "length" cn' = Some (PInt (len signer_cn)) /\
    get_path bundle_path v' = get_path bundle_path v.
Proof.
  unfold replace_cn.
  destruct (set_literal signer_cn cn) as [cn'|] eqn:Es; [|discriminate].
  destruct d as [| |v]; cbn [dyn_of]; try discriminate.
  destruct (put_path cn_path cn' v) as [v'|] eqn:Ep; [|discriminate].
  intros [= <-]. exists v, v', cn'.
  destruct (set_literal_attrs _ _ _ Es) as [Hd Hl].
  repeat split; auto.
  - exact (get_put_path _ _ _ _ Ep).
  - exact (get_put_diverge [Attr "expr"; Attr "data"] 1 0
             [Attr "data"; Item 1; Attr "data"; Item 0; Attr "data"; Item 2;
              Attr "Data"] [Attr "data"] cn' ltac:(discriminate) v v' Ep).
Qed.

(** A container found at the CN path can always be replaced. *)
Lemma replace_cn_defined signer_cn fs v :
  get_path cn_path v = Some (PCont fs) ->
  exists d', replace_cn signer_cn (PCont fs) (DDyn v) = Ok d'.
Proof.
  intros Hget. unfold replace_cn. rewrite set_literal_cont. simpl dyn_of. cbv beta iota.
  set (cn' := PCont _).
  destruct (put_path_defined cn_path cn' v _ eq_refl Hget) as [v' Hput].
  rewrite Hput. eauto.
Qed.

(** The signature after a write through the unique blob of a magic. *)
Lemma write_blob_unique magic b' construct count pre e post :
  blob_data construct = DSuperBlob count (pre ++ e :: post) ->
  blob_magic (index_blob e) = magic ->
  occurrences magic pre = 0%nat -> occurrences magic post = 0%nat ->
  write_blob magic b' construct
  = set_data (DSuperBlob count (pre ++ set_blob b' e :: post)) construct.
Proof.
  intros Hdata Hm Hpre Hpost. unfold write_blob. rewrite Hdata.
  now rewrite (write_entries_unique _ _ _ _ _ Hm Hpre Hpost).
Qed.

Lemma blob_data_set_data d b : blob_data (set_data d b) = d.
Proof. now destruct b. Qed.

Lemma get_blob_after_write magic b' construct count pre e post :
  blob_magic b' = magic ->
  occurrences magic pre = 0%nat -> occurrences magic post = 0%nat ->
  get_blob (set_data (DSuperBlob count (pre ++ set_blob b' e :: post)) construct)
           magic = Ok b'.
Proof.
  intros Hm Hpre Hpost.
  rewrite (get_blob_unique _ magic (pre ++ set_blob b' e :: post) pre
                           (set_blob b' e) post).
  - now destruct e.
  - now rewrite blob_data_set_data.
  - reflexivity.
  - now destruct e.
  - assumption.
  - assumption.
Qed.

End Requirements.

Lemma bind_ok {A B : Type} (m : result A) (k : A -> result B) (b : B) :
  bind m k = Ok b -> exists a, m = Ok a /\ k a = Ok b.
Proof. destruct m as [a|]; simpl; [eauto | discriminate]. Qed.

Section SetRequirements.
Context `{MachoCS}.

(** A signature whose top-level index holds exactly one Requirements
    blob, the entry [e], whose own index starts with [entry_0]; the signer
    is not ad hoc. *)
Variables (signable : Signable) (signer : Signer) (construct : Blob).
Variables (count : Z) (pre post : list IndexEntry) (e : IndexEntry).
Variables (rcount : Z) (entry_0 : IndexEntry) (later : list IndexEntry).
Hypothesis Hdata : blob_data construct = DSuperBlob count (pre ++ e :: post).
Hypothesis Hmagic : blob_magic (index_blob e) = "CSMAGIC_REQUIREMENTS".
Hypothesis Hpre : occurrences "CSMAGIC_REQUIREMENTS" pre = 0%nat.
Hypothesis Hpost : occurrences "CSMAGIC_REQUIREMENTS" post = 0%nat.
Hypothesis Hreq : blob_data (index_blob e) = DSuperBlob rcount (entry_0 :: later).
Hypothesis Hsigner : is_adhoc signer = false.

(** Entry 0's payload once the [try] block for the bundle id has run. *)
Let data_0 : BlobData :=
  match truthy (get_changed_bundle_id signable) with
  | Some changed_bundle_id =>
      patch_bundle_id changed_bundle_id (blob_data (index_blob entry_0))
  | None => blob_data (index_blob entry_0)
  end.

Lemma find_cn_data_0 : find_cn data_0 = find_cn (blob_data (index_blob entry_0)).
Proof.
  unfold data_0. destruct (truthy _); [apply find_cn_patch | reflexivity].
Qed.

Lemma get_requirements : get_blob construct "CSMAGIC_REQUIREMENTS" = Ok (index_blob e).
Proof.
  apply (get_blob_unique _ _ (pre ++ e :: post) pre e post); auto.
  now rewrite Hdata.
Qed.

(** [set_requirements] past its prologue: what is left is the lookup of
    the CN rule in the patched entry 0. *)
Lemma set_requirements_body :
  set_requirements signable signer construct
  = let req_blob_0 := set_data data_0 (index_blob entry_0) in
    match find_cn (blob_data (index_blob entry_0)) with
    | None =>
        Ok (write_blob "CSMAGIC_REQUIREMENTS"
              (set_data (DSuperBlob rcount (set_blob req_blob_0 entry_0 :: later))
                        (index_blob e)) construct)
    | Some cn =>
        do data_0' <- replace_cn (get_common_name signer) cn data_0;
        let req_blob_0 := set_data data_0' req_blob_0 in
        do bytes_0 <- Requirement_build (blob_data req_blob_0);
        let req_blob_0 := set_length (len bytes_0 + 8)
                                     (set_bytes (Str bytes_0) req_blob_0) in
        let offset_delta :=
          blob_length req_blob_0 - blob_length (index_blob entry_0) in
        let requirements :=
          set_data (DSuperBlob rcount
                      (set_blob req_blob_0 entry_0
                       :: List.map (shift_offset offset_delta) later))
                   (index_blob e) in
        do bytes <- Entitlements_build (blob_data requirements);
        Ok (write_blob "CSMAGIC_REQUIREMENTS"
              (set_length (len bytes + 8) (set_bytes (Str bytes) requirements))
              construct)
    end.
Proof.
  unfold set_requirements. rewrite get_requirements. cbn [bind].
  rewrite Hsigner, Hreq. cbn [data_BlobIndex bind set_BlobIndex].
  rewrite <- find_cn_data_0. unfold data_0.
  destruct (truthy (get_changed_bundle_id signable)) as [id|].
  - cbv zeta. rewrite !blob_data_set_data. reflexivity.
  - cbv zeta. rewrite !set_data_same. reflexivity.
Qed.


(** With a container at the CN path, [set_requirements] returns as soon as
    the two builders do. *)
Lemma set_requirements_with_cn_returns (fs : list (string * pyval)) :
  find_cn (blob_data (index_blob entry_0)) = Some (PCont fs) ->
  (forall d, exists b, Requirement_build d = Ok b) ->
  (forall d, exists b, Entitlements_build d = Ok b) ->
  exists construct', set_requirements signable signer construct = Ok construct'.
Proof.
  intros Hcn Hreq_build Hent_build.
  rewrite set_requirements_body, Hcn. cbv zeta.
  assert (Hcn' : find_cn data_0 = Some (PCont fs))
    by now rewrite find_cn_data_0.
  unfold find_cn in Hcn'.
  destruct data_0 as [| |v] eqn:Ed; cbn [dyn_of] in Hcn'; try discriminate.
  destruct (replace_cn_defined (get_common_name signer) fs v Hcn') as [d' Hd'].
  rewrite Hd'. cbn [bind].
  destruct (Hreq_build
              (blob_data (set_data d' (set_data (DDyn v) (index_blob entry_0)))))
    as [bytes_0 Hb0].
  rewrite Hb0. cbn [bind].
  match goal with
  | |- context [Entitlements_build ?d] => destruct (Hent_build d) as [bytes Hb]
  end.
  rewrite Hb. cbn [bind]. eauto.
Qed.

Lemma shifted_lookup (offset_delta : Z) (l : list IndexEntry) :
  forall i bi,
    l !! i = Some bi ->
    List.map (shift_offset offset_delta) l !! i
    = Some (mkIndex (index_type bi) (index_offset bi + offset_delta) (index_blob bi)).
Proof.
  induction l as [|b l IH]; intros [|i] bi; simpl; try discriminate.
  - intros [= ->]. now destruct bi.
  - apply IH.
Qed.

(** C1, as the code has it: when the signer CN rule is found,
    [set_requirements] puts the signer's common name into the rule and the
    changed bundle id, if one is supplied, into the bundle-identifier
    literal, rebuilds entry 0 from its tree and sets its length to the
    rebuilt size plus 8, adds the change of that length to the offset of
    every later entry and leaves the offset of entry 0, rebuilds the
    Requirements superblob and sets its length to the encoded payload
    size plus 8; the rest of the signature stays as it was.  When the
    lookup of the rule fails, [set_requirements] returns and nothing is
    rebuilt: entry 0 and the Requirements superblob keep their bytes and
    their lengths, and every entry keeps its offset. *)
Theorem set_requirements_with_cn (cn : pyval) (construct' : Blob) :
  (find_cn (blob_data (index_blob entry_0)) = Some cn ->
  set_requirements signable signer construct = Ok construct' ->
  exists requirements' req_blob_0' later' tree tree' cn' bytes_0 bytes,
    construct'
    = set_data (DSuperBlob count (pre ++ set_blob requirements' e :: post))
               construct /\
    get_blob construct' "CSMAGIC_REQUIREMENTS" = Ok requirements' /\
    blob_data requirements'
    = DSuperBlob rcount
        (mkIndex (index_type entry_0) (index_offset entry_0) req_blob_0'
         :: later') /\
    List.length later' = List.length later /\
    (forall i bi,
        later !! i = Some bi ->
        exists bi',
          later' !! i = Some bi' /\
          index_offset bi'
          = index_offset bi
            + (blob_length req_blob_0' - blob_length (index_blob entry_0)) /\
          index_type bi' = index_type bi /\
          index_blob bi' = index_blob bi) /\
    blob_data (index_blob entry_0) = DDyn tree /\
    blob_data req_blob_0' = DDyn tree' /\
    get_path cn_path tree' = Some cn' /\
    getattr "data" cn' = Some (PStr (get_common_name signer)) /\
    getattr "length" cn' = Some (PInt (len (get_common_name signer))) /\
    (forall id fs,
        truthy (get_changed_bundle_id signable) = Some id ->
        get_path bundle_path tree = Some (PCont fs) ->
        exists b',
          get_path bundle_path tree' = Some b' /\
          getattr "data" b' = Some (PStr id) /\
          getattr "length" b' = Some (PInt (len id))) /\
    (truthy (get_changed_bundle_id signable) = None ->
     get_path bundle_path tree' = get_path bundle_path tree) /\
    Requirement_build (DDyn tree') = Ok bytes_0 /\
    blob_bytes req_blob_0' = Str bytes_0 /\
    blob_length req_blob_0' = len bytes_0 + 8 /\
    Entitlements_build (blob_data requirements') = Ok bytes /\
    blob_bytes requirements' = Str bytes /\
    blob_length requirements' = len bytes + 8 /\
    requirements_reencoded construct') /\
  (find_cn (blob_data (index_blob entry_0)) = None ->
   exists requirements' entry_0',
     set_requirements signable signer construct
     = Ok (set_data (DSuperBlob count (pre ++ set_blob requirements' e :: post))
                    construct) /\
     blob_bytes requirements' = blob_bytes (index_blob e) /\
     blob_length requirements' = blob_length (index_blob e) /\
     blob_data requirements' = DSuperBlob rcount (entry_0' :: later) /\
     index_type entry_0' = index_type entry_0 /\
     index_offset entry_0' = index_offset entry_0 /\
     blob_bytes (index_blob entry_0') = blob_bytes (index_blob entry_0) /\
     blob_length (index_blob entry_0') = blob_length (index_blob entry_0)).
Proof.
  split.
  2: {
    intros Hcn. rewrite set_requirements_body, Hcn. cbv zeta.
    rewrite (write_blob_unique _ _ _ _ _ _ _ Hdata Hmagic Hpre Hpost).
    eexists _, _. split; [reflexivity|].
    split; [now destruct (index_blob e)|]. split; [now destruct (index_blob e)|].
    split; [apply blob_data_set_data|].
    split; [now destruct entry_0|]. split; [now destruct entry_0|].
    split; destruct entry_0 as [t o [m l d y c]]; reflexivity. }
  intros Hcn Hrun. rewrite set_requirements_body, Hcn in Hrun. cbv zeta in Hrun.
  apply bind_ok in Hrun as (data_0' & Hrep & Hrun).
  apply bind_ok in Hrun as (bytes_0 & Hb0 & Hrun).
  apply bind_ok in Hrun as (bytes & Hb & Hrun).
  rewrite (write_blob_unique _ _ _ _ _ _ _ Hdata Hmagic Hpre Hpost) in Hrun.
  injection Hrun as <-.
  destruct (replace_cn_ok _ _ _ _ Hrep) as (tree0 & tree' & cn' & Ht0 & -> & Hg & Hd & Hl & Hbp).
  assert (Htree : exists tree, blob_data (index_blob entry_0) = DDyn tree).
  { destruct (blob_data (index_blob entry_0)) eqn:E; try discriminate. eauto. }
  destruct Htree as [tree Htree].
  rewrite !blob_data_set_data in Hb0.
  set (req_blob_0' :=
         set_length (len bytes_0 + 8)
           (set_bytes (Str bytes_0)
              (set_data (DDyn tree') (set_data data_0 (index_blob entry_0))))) in *.
  set (requirements' :=
         set_length (len bytes + 8)
           (set_bytes (Str bytes)
              (set_data
                 (DSuperBlob rcount
                    (set_blob req_blob_0' entry_0
                     :: List.map (shift_offset (blob_length req_blob_0'
                                                - blob_length (index_blob entry_0)))
                                 later))
                 (index_blob e)))) in *.
  rewrite blob_data_set_data in Hb.
  assert (Hm' : blob_magic requirements' = "CSMAGIC_REQUIREMENTS").
  { unfold requirements'. rewrite <- Hmagic. now destruct (index_blob e). }
  assert (Hd0 : blob_data req_blob_0' = DDyn tree').
  { unfold req_blob_0'. now destruct (index_blob entry_0). }
  assert (Hy0 : blob_bytes req_blob_0' = Str bytes_0).
  { unfold req_blob_0'. now destruct (index_blob entry_0). }
  assert (Hl0 : blob_length req_blob_0' = len bytes_0 + 8).
  { unfold req_blob_0'. now destruct (index_blob entry_0). }
  assert (Hdr : blob_data requirements'
                = DSuperBlob rcount
                    (mkIndex (index_type entry_0) (index_offset entry_0) req_blob_0'
                     :: List.map (shift_offset (blob_length req_blob_0'
                                                - blob_length (index_blob entry_0)))
                                 later)).
  { unfold requirements'. destruct (index_blob e). now destruct entry_0. }
  assert (Hyr : blob_bytes requirements' = Str bytes).
  { unfold requirements'. now destruct (index_blob e). }
  assert (Hlr : blob_length requirements' = len bytes + 8).
  { unfold requirements'. now destruct (index_blob e). }
  assert (Hbr : Entitlements_build (blob_data requirements') = Ok bytes).
  { rewrite Hdr. destruct entry_0. exact Hb. }
  assert (Hget' : get_blob
                    (set_data (DSuperBlob count (pre ++ set_blob requirements' e :: post))
                              construct) "CSMAGIC_REQUIREMENTS" = Ok requirements')
    by now apply get_blob_after_write.
  exists requirements', req_blob_0',
    (List.map (shift_offset (blob_length req_blob_0'
                             - blob_length (index_blob entry_0))) later),
    tree, tree', cn', bytes_0, bytes.
  split; [reflexivity|]. split; [exact Hget'|]. split; [exact Hdr|].
  split; [apply List.length_map|].
  split.
  { intros i bi Hi. eexists. split; [exact (shifted_lookup _ _ _ _ Hi)|].
    repeat split; reflexivity. }
  split; [exact Htree|]. split; [exact Hd0|]. split; [exact Hg|].
  split; [exact Hd|]. split; [exact Hl|].
  split; [|split; [|split; [exact Hb0|split; [exact Hy0|split; [exact Hl0|
    split; [exact Hbr|split; [exact Hyr|split; [exact Hlr|]]]]]]]].
  - intros id fs Hid Hget. rewrite Hbp.
    unfold data_0 in Ht0. rewrite Hid, Htree in Ht0.
    destruct (patch_bundle_id_found id tree fs Hget) as (t1 & b' & Hp & Hg1 & Hd1 & Hl1).
    rewrite Hp in Ht0. injection Ht0 as <-. eauto.
  - intros Hid. rewrite Hbp. unfold data_0 in Ht0. rewrite Hid, Htree in Ht0.
    now injection Ht0 as <-.
  - exists requirements', (mkIndex (index_type entry_0) (index_offset entry_0) req_blob_0'),
      (List.map (shift_offset (blob_length req_blob_0'
                               - blob_length (index_blob entry_0))) later),
      bytes_0, bytes.
    rewrite Hdr. cbn [data_BlobIndex index_blob]. rewrite Hd0, Hy0, Hyr.
    rewrite <- Hdr. repeat split; auto.
Qed.

End SetRequirements.

Section UpdateOffsets.
Context `{MachoCS}.

Lemma index_blob_set_offset o e : index_blob (set_offset o e) = index_blob e.
Proof. now destruct e. Qed.

Lemma set_offset_twice o o' e : set_offset o (set_offset o' e) = set_offset o e.
Proof. now destruct e. Qed.

(** The loop of [update_offsets] lays the entries out by the cascading
    offset law and touches nothing but the offsets. *)
Lemma assign_offsets_cascade idx : forall sizes b,
  built_sizes idx sizes ->
  exists idx',
    assign_offsets b idx = Ok idx' /\
    List.map index_offset idx' = cascade b sizes /\
    List.map index_type idx' = List.map index_type idx /\
    List.map index_blob idx' = List.map index_blob idx.
Proof.
  induction idx as [|e idx IH]; intros sizes b Hsizes.
  - inversion Hsizes; subst. exists []. now simpl.
  - inversion Hsizes as [|e' s idx0 sizes' (built & Hb & ->) Hrest]; subst.
    destruct (IH sizes' (b + len built) Hrest) as (rest & Hrun & Ho & Ht & Hbl).
    exists (set_offset b e :: rest). simpl.
    rewrite index_blob_set_offset, Hb. simpl. rewrite Hrun. simpl.
    rewrite Ho, Ht, Hbl. destruct e; now simpl.
Qed.

(** Laying out entries that are already laid out from the same base
    changes nothing. *)
Lemma assign_offsets_fix idx : forall b idx',
  assign_offsets b idx = Ok idx' -> assign_offsets b idx' = Ok idx'.
Proof.
  induction idx as [|e idx IH]; simpl; intros b idx'.
  - now intros [= <-].
  - intros Hrun.
    apply bind_ok in Hrun as (built & Hb & Hrun).
    apply bind_ok in Hrun as (rest & Hrest & Hrun).
    injection Hrun as <-. simpl.
    rewrite set_offset_twice, Hb. simpl.
    now rewrite (IH _ _ Hrest).
Qed.

Lemma assign_offsets_head b e idx idx' :
  assign_offsets b (e :: idx) = Ok idx' ->
  exists rest, idx' = set_offset b e :: rest.
Proof.
  simpl. intros Hrun.
  apply bind_ok in Hrun as (built & Hb & Hrun).
  apply bind_ok in Hrun as (rest & Hrest & Hrun).
  injection Hrun as <-. eauto.
Qed.

(** C2: on a signature whose entries build to sizes [s0 .. sn-1] and whose
    first entry sits at base offset [b], [update_offsets] gives the
    entries, in their order and with their types and blobs, the offsets
    [b, b + s0, b + s0 + s1, ...], and stores the re-encoded superblob
    payload together with a length of its size plus 8; it raises only
    what building that payload raises. *)
Theorem update_offsets_cascade (construct : Blob) (count : Z)
        (first : IndexEntry) (rest : list IndexEntry) (sizes : list Z) :
  blob_data construct = DSuperBlob count (first :: rest) ->
  built_sizes (first :: rest) sizes ->
  exists idx',
    List.map index_offset idx' = cascade (index_offset first) sizes /\
    List.map index_type idx' = List.map index_type (first :: rest) /\
    List.map index_blob idx' = List.map index_blob (first :: rest) /\
    (forall superblob,
        SuperBlob_build (DSuperBlob count idx') = Ok superblob ->
        update_offsets construct
        = Ok (mkBlob (blob_magic construct) (len superblob + 8)
                     (DSuperBlob count idx') (Str superblob)
                     (blob_attr_count construct))) /\
    (forall err,
        SuperBlob_build (DSuperBlob count idx') = Raise err ->
        update_offsets construct = Raise err).
Proof.
  intros Hdata Hsizes.
  destruct (assign_offsets_cascade _ _ (index_offset first) Hsizes)
    as (idx' & Hrun & Ho & Ht & Hb).
  exists idx'. repeat split; auto.
  - intros superblob Hsb. unfold update_offsets.
    rewrite Hdata. cbn [data_BlobIndex bind]. rewrite Hrun. cbn [bind set_BlobIndex].
    rewrite blob_data_set_data, Hsb. cbn [bind].
    destruct construct. simpl in *. now subst.
  - intros err Hsb. unfold update_offsets.
    rewrite Hdata. cbn [data_BlobIndex bind]. rewrite Hrun. cbn [bind set_BlobIndex].
    now rewrite blob_data_set_data, Hsb.
Qed.

(** C7: running [update_offsets] again on its own result gives that
    result again; a run that raises has no result to run on. *)
Theorem update_offsets_idempotent (construct : Blob) :
  (do construct' <- update_offsets construct; update_offsets construct')
  = update_offsets construct.
Proof.
  destruct (update_offsets construct) as [construct'|err] eqn:Hrun;
    [|reflexivity].
  cbn [bind]. unfold update_offsets in Hrun.
  destruct (blob_data construct) as [count idx| |] eqn:Hdata; try discriminate.
  cbn [data_BlobIndex bind] in Hrun.
  destruct idx as [|first rest]; [discriminate|].
  apply bind_ok in Hrun as (idx' & Hidx & Hrun).
  cbn [set_BlobIndex] in Hrun. rewrite blob_data_set_data in Hrun.
  apply bind_ok in Hrun as (superblob & Hsb & Hrun).
  injection Hrun as <-.
  destruct (assign_offsets_head _ _ _ _ Hidx) as (rest' & Hhead).
  apply assign_offsets_fix in Hidx.
  unfold update_offsets.
  replace (blob_data
             (set_bytes (Str superblob)
                (set_length (len superblob + 8)
                   (set_data (DSuperBlob count idx') construct))))
    with (DSuperBlob count idx') by now destruct construct.
  cbn [data_BlobIndex bind]. rewrite Hhead.
  replace (index_offset (set_offset (index_offset first) first))
    with (index_offset first) by now destruct first.
  rewrite <- Hhead, Hidx. cbn [bind set_BlobIndex].
  rewrite blob_data_set_data, Hsb. cbn [bind].
  now destruct construct.
Qed.

End UpdateOffsets.

Section SetCodedirectory.
Context `{MachoCS} `{Host}.

Lemma map_alter_frame {A B : Type} (f : A -> B) (g : A -> A) (l : list A) :
  forall i, (forall a, l !! i = Some a -> f (g a) = f a) ->
            List.map f (alter g i l) = List.map f l.
Proof.
  induction l as [|a l IH]; intros [|i] Hfg; simpl; try reflexivity.
  - now rewrite (Hfg a eq_refl).
  - f_equal. apply IH. intros a' Ha'. now apply Hfg.
Qed.

Lemma lookup_map {A B : Type} (f : A -> B) (l : list A) :
  forall i, List.map f l !! i = option_map f (l !! i).
Proof. induction l as [|a l IH]; intros [|i]; simpl; auto. Qed.

Lemma forget_hashes_magic b : blob_magic (forget_hashes b) = blob_magic b.
Proof. unfold forget_hashes. destruct b as [m l [| |] y c]; reflexivity. Qed.

Lemma forget_entry_filled e cd h :
  blob_data (index_blob e) = DCodeDirectory cd ->
  forget_entry_hashes
    (set_blob (set_data (DCodeDirectory (set_hashes h cd)) (index_blob e)) e)
  = forget_entry_hashes e.
Proof.
  destruct e as [t o [m l d y c]]. simpl. intros ->. reflexivity.
Qed.

Lemma cd_of_data b cd : cd_of b = Ok cd -> blob_data b = DCodeDirectory cd.
Proof.
  unfold cd_of. destruct (blob_data b); try discriminate. now intros [= ->].
Qed.

Lemma entry_at_lookup construct count idx i e :
  blob_data construct = DSuperBlob count idx ->
  entry_at construct i = Ok e -> idx !! i = Some e.
Proof.
  intros Hdata. unfold entry_at. rewrite Hdata. cbn [data_BlobIndex bind].
  destruct (idx !! i); [now intros [= ->] | discriminate].
Qed.

(** Filling a slot changes the hash array of one code directory and
    nothing else. *)
Lemma fill_codedirectory_slot_frame signable i slot construct construct'
      count idx :
  blob_data construct = DSuperBlob count idx ->
  fill_codedirectory_slot signable i slot construct = Ok construct' ->
  exists idx',
    blob_data construct' = DSuperBlob count idx' /\
    List.map forget_entry_hashes idx' = List.map forget_entry_hashes idx.
Proof.
  intros Hdata. unfold fill_codedirectory_slot.
  destruct (should_fill_slot signable construct slot).
  - intros Hrun.
    apply bind_ok in Hrun as (e & He & Hrun).
    apply bind_ok in Hrun as (cd & Hcd & Hrun).
    apply bind_ok in Hrun as (h & Hh & Hrun).
    apply bind_ok in Hrun as (hashes' & Hhs & Hrun).
    injection Hrun as <-.
    unfold put_blob_at. rewrite Hdata, blob_data_set_data.
    eexists. split; [reflexivity|].
    apply map_alter_frame. intros a Ha.
    rewrite (entry_at_lookup _ _ _ _ _ Hdata He) in Ha. injection Ha as <-.
    apply forget_entry_filled. now apply cd_of_data.
  - intros [= <-]. eauto.
Qed.

Lemma fill_if_present_frame signable guard i slot construct construct'
      count idx :
  blob_data construct = DSuperBlob count idx ->
  fill_if_present signable guard i slot construct = Ok construct' ->
  exists idx',
    blob_data construct' = DSuperBlob count idx' /\
    List.map forget_entry_hashes idx' = List.map forget_entry_hashes idx.
Proof.
  intros Hdata Hrun. unfold fill_if_present in Hrun.
  apply bind_ok in Hrun as (e & He & Hrun).
  apply bind_ok in Hrun as (cd & Hcd & Hrun).
  destruct (has_codedirectory_slot cd slot && guard)%bool.
  - eapply fill_codedirectory_slot_frame; eauto.
  - injection Hrun as <-. eauto.
Qed.

Lemma fill_slots_frame signable seal_path info_path signer i construct
      construct' count idx :
  blob_data construct = DSuperBlob count idx ->
  fill_slots signable seal_path info_path signer i construct = Ok construct' ->
  exists idx',
    blob_data construct' = DSuperBlob count idx' /\
    List.map forget_entry_hashes idx' = List.map forget_entry_hashes idx.
Proof.
  intros Hdata Hrun. unfold fill_slots in Hrun.
  apply bind_ok in Hrun as (c1 & H1 & Hrun).
  apply bind_ok in Hrun as (c2 & H2 & Hrun).
  apply bind_ok in Hrun as (c3 & H3 & Hrun).
  apply bind_ok in Hrun as (c4 & H4 & H5).
  destruct (fill_if_present_frame _ _ _ _ _ _ _ _ Hdata H1) as (i1 & D1 & E1).
  destruct (fill_if_present_frame _ _ _ _ _ _ _ _ D1 H2) as (i2 & D2 & E2).
  destruct (fill_if_present_frame _ _ _ _ _ _ _ _ D2 H3) as (i3 & D3 & E3).
  destruct (fill_if_present_frame _ _ _ _ _ _ _ _ D3 H4) as (i4 & D4 & E4).
  destruct (fill_if_present_frame _ _ _ _ _ _ _ _ D4 H5) as (i5 & D5 & E5).
  exists i5. split; [assumption | congruence].
Qed.

(** So does the whole first loop. *)
Lemma fill_loop_frame signable seal_path info_path signer ps :
  forall construct construct' count idx,
    blob_data construct = DSuperBlob count idx ->
    for_each (fill_slots signable seal_path info_path signer) ps construct
    = Ok construct' ->
    exists idx',
      blob_data construct' = DSuperBlob count idx' /\
      List.map forget_entry_hashes idx' = List.map forget_entry_hashes idx.
Proof.
  induction ps as [|i ps IH]; simpl; intros construct construct' count idx Hdata.
  - intros [= <-]. eauto.
  - intros Hrun. apply bind_ok in Hrun as (c1 & H1 & Hrun).
    destruct (fill_slots_frame _ _ _ _ _ _ _ _ _ Hdata H1) as (i1 & D1 & E1).
    destruct (IH _ _ _ _ D1 Hrun) as (i2 & D2 & E2).
    exists i2. split; [assumption | congruence].
Qed.

(** The code directories sit where they sat. *)
Lemma positions_from_forget magic idx : forall idx' k,
  List.map forget_entry_hashes idx' = List.map forget_entry_hashes idx ->
  positions_from magic k idx' = positions_from magic k idx.
Proof.
  induction idx as [|e idx IH]; intros [|e' idx'] k; simpl; try discriminate;
    [reflexivity|].
  intros [= He Hrest].
  assert (Hm : blob_magic (index_blob e') = blob_magic (index_blob e)).
  { apply (f_equal (fun x => blob_magic (index_blob x))) in He.
    destruct e, e'. simpl in He. now rewrite !forget_hashes_magic in He. }
  rewrite Hm, (IH idx' (S k) Hrest). reflexivity.
Qed.

Lemma positions_from_lower magic idx : forall k i,
  i ∈ positions_from magic k idx -> (k <= i)%nat.
Proof.
  induction idx as [|e idx IH]; simpl; intros k i.
  - intros Hi. apply elem_of_nil in Hi. contradiction.
  - destruct (String.eqb (blob_magic (index_blob e)) magic).
    + rewrite elem_of_cons. intros [-> | Hi]; [lia|]. apply IH in Hi. lia.
    + intros Hi. apply IH in Hi. lia.
Qed.

Lemma positions_from_NoDup magic idx : forall k,
  NoDup (positions_from magic k idx).
Proof.
  induction idx as [|e idx IH]; simpl; intros k; [constructor|].
  destruct (String.eqb (blob_magic (index_blob e)) magic); [|apply IH].
  constructor; [|apply IH].
  intros Hk. apply positions_from_lower in Hk. lia.
Qed.

Lemma positions_from_elem magic idx : forall k i e,
  idx !! i = Some e -> blob_magic (index_blob e) = magic ->
  (k + i)%nat ∈ positions_from magic k idx.
Proof.
  induction idx as [|e0 idx IH]; intros k [|i] e; simpl; try discriminate.
  - intros [= ->] ->. rewrite String.eqb_refl, Nat.add_0_r. apply elem_of_cons. now left.
  - intros Hi Hm. replace (k + S i)%nat with (S k + i)%nat by lia.
    destruct (String.eqb _ _); [apply elem_of_cons; right|]; eapply IH; eauto.
Qed.

(** The second loop rebuilds the blob of every entry it visits, from that
    blob alone, and leaves the other entries as they are. *)
Lemma rebuild_loop signable signer ps :
  forall construct construct' count idx,
    NoDup ps ->
    blob_data construct = DSuperBlob count idx ->
    for_each (rebuild_codedirectory signable signer) ps construct = Ok construct' ->
    exists idx',
      blob_data construct' = DSuperBlob count idx' /\
      forall i e,
        idx !! i = Some e ->
        (i ∈ ps ->
         exists b', rebuild_blob signable signer (index_blob e) = Ok b' /\
                    idx' !! i = Some (set_blob b' e)) /\
        (i ∉ ps -> idx' !! i = Some e).
Proof.
  induction ps as [|j ps IH]; simpl; intros construct construct' count idx Hnd Hdata.
  - intros [= <-]. exists idx. split; [assumption|].
    intros i e Hi. split; [|auto].
    intros Hin. apply elem_of_nil in Hin. contradiction.
  - intros Hrun. apply NoDup_cons in Hnd as [Hj Hnd].
    apply bind_ok in Hrun as (c1 & Hbody & Hrun).
    unfold rebuild_codedirectory in Hbody.
    apply bind_ok in Hbody as (ej & Hej & Hbody).
    apply bind_ok in Hbody as (bj & Hbj & Hbody).
    injection Hbody as <-.
    apply (entry_at_lookup _ _ _ _ _ Hdata) in Hej.
    assert (D1 : blob_data (put_blob_at j bj construct)
                 = DSuperBlob count (alter (set_blob bj) j idx)).
    { unfold put_blob_at. rewrite Hdata. apply blob_data_set_data. }
    destruct (IH _ _ _ _ Hnd D1 Hrun) as (idx' & D' & Hall).
    exists idx'. split; [assumption|].
    intros i e Hi. destruct (decide (i = j)) as [->|Hne].
    + rewrite Hej in Hi. injection Hi as <-.
      assert (Hl : alter (set_blob bj) j idx !! j = Some (set_blob bj ej))
        by now rewrite list_lookup_alter_eq, Hej.
      destruct (Hall _ _ Hl) as [_ Hout].
      split.
      * intros _. exists bj. split; [assumption | now apply Hout].
      * intros Hnot. exfalso. apply Hnot. apply elem_of_cons. now left.
    + assert (Hl : alter (set_blob bj) j idx !! i = Some e)
        by now rewrite list_lookup_alter_ne.
      destruct (Hall _ _ Hl) as [Hin Hout].
      split.
      * intros Hi'. apply elem_of_cons in Hi' as [->|Hi']; [congruence|].
        now apply Hin.
      * intros Hnot. apply Hout. intros Hi'. apply Hnot.
        apply elem_of_cons. now right.
Qed.

(** What the first loop leaves of an entry that holds a code directory. *)
Lemma forget_entry_cd e e' cd :
  forget_entry_hashes e' = forget_entry_hashes e ->
  blob_data (index_blob e) = DCodeDirectory cd ->
  exists cd',
    blob_data (index_blob e') = DCodeDirectory cd' /\
    set_hashes [] cd' = set_hashes [] cd /\
    blob_length (index_blob e') = blob_length (index_blob e) /\
    blob_magic (index_blob e') = blob_magic (index_blob e).
Proof.
  destruct e as [t o [m l d y c]], e' as [t' o' [m' l' d' y' c']].
  unfold forget_entry_hashes, forget_hashes. simpl. intros He ->.
  destruct d' as [| cd' |]; simpl in He; try discriminate.
  exists cd'. split; [reflexivity|]. split; [|split].
  - exact (f_equal (fun x => match blob_data (index_blob x) with
                             | DCodeDirectory c0 => c0
                             | _ => cd
                             end) He).
  - exact (f_equal (fun x => blob_length (index_blob x)) He).
  - exact (f_equal (fun x => blob_magic (index_blob x)) He).
Qed.

(** The second loop's body on one code directory blob, when the bundle id
    has changed. *)
Lemma rebuild_blob_changed signable signer b b' cd id :
  truthy (get_changed_bundle_id signable) = Some id ->
  blob_data b = DCodeDirectory cd ->
  rebuild_blob signable signer b = Ok b' ->
  let cd' := change_ident id (set_teamID (Some (get_team_id signer)) cd) in
  exists bytes,
    blob_data b' = DCodeDirectory cd' /\
    blob_length b' = blob_length b + (len id - len (ident cd)) /\
    CodeDirectory_build (DCodeDirectory cd') = Ok bytes /\
    blob_bytes b' = Str bytes.
Proof.
  intros Hid Hdata. unfold rebuild_blob, cd_of. rewrite Hdata, Hid.
  cbn [bind]. rewrite blob_data_set_data. intros Hrun.
  apply bind_ok in Hrun as (bytes & Hb & Hrun). injection Hrun as <-.
  exists bytes. destruct b; simpl. auto.
Qed.

(** [set_codedirectory] on the entries that hold a code directory: the
    first loop leaves of each all but its hash array, the second rebuilds
    it from what the first left. *)
Lemma set_codedirectory_entries
      (signable : Signable) (seal_path info_path : string) (signer : Signer)
      (construct construct' : Blob) (count : Z) (idx : list IndexEntry) :
  blob_data construct = DSuperBlob count idx ->
  set_codedirectory signable seal_path info_path signer construct = Ok construct' ->
  exists idx',
    blob_data construct' = DSuperBlob count idx' /\
    forall i e,
      idx !! i = Some e ->
      blob_magic (index_blob e) = "CSMAGIC_CODEDIRECTORY" ->
      exists e_f b',
        forget_entry_hashes e_f = forget_entry_hashes e /\
        rebuild_blob signable signer (index_blob e_f) = Ok b' /\
        idx' !! i = Some (set_blob b' e_f).
Proof.
  intros Hdata Hrun. unfold set_codedirectory, get_codedirectories in Hrun.
  rewrite Hdata in Hrun. cbn [data_BlobIndex bind] in Hrun.
  apply bind_ok in Hrun as (filled & Hfill & Hrun).
  destruct (fill_loop_frame _ _ _ _ _ _ _ _ _ Hdata Hfill) as (idx_f & Df & Ef).
  rewrite Df in Hrun. cbn [data_BlobIndex bind] in Hrun.
  rewrite (positions_from_forget _ _ _ _ Ef) in Hrun.
  destruct (rebuild_loop _ _ _ _ _ _ _ (positions_from_NoDup _ _ _) Df Hrun)
    as (idx' & D' & Hall).
  exists idx'. split; [assumption|].
  intros i e Hi Hm.
  assert (Hif : exists e_f, idx_f !! i = Some e_f /\
                            forget_entry_hashes e_f = forget_entry_hashes e).
  { apply (f_equal (fun l => l !! i)) in Ef.
    rewrite !lookup_map, Hi in Ef.
    destruct (idx_f !! i) as [e_f|]; [|discriminate].
    injection Ef as Ef. eauto. }
  destruct Hif as (e_f & Hif & Hfe).
  destruct (Hall _ _ Hif) as [Hin _].
  destruct Hin as (b' & Hb' & Hi').
  { apply (positions_from_elem _ _ 0%nat i e Hi Hm). }
  eauto.
Qed.

(** The second loop's body on one code directory blob, when the bundle id
    has not changed: the declared length stays, whatever the team
    identifier and whatever the rebuilt bytes. *)
Lemma rebuild_blob_unchanged signable signer b b' cd :
  truthy (get_changed_bundle_id signable) = None ->
  blob_data b = DCodeDirectory cd ->
  rebuild_blob signable signer b = Ok b' ->
  let cd' := set_teamID (Some (get_team_id signer)) cd in
  exists bytes,
    blob_data b' = DCodeDirectory cd' /\
    blob_length b' = blob_length b /\
    CodeDirectory_build (DCodeDirectory cd') = Ok bytes /\
    blob_bytes b' = Str bytes.
Proof.
  intros Hid Hdata. unfold rebuild_blob, cd_of. rewrite Hdata, Hid.
  cbn [bind]. rewrite blob_data_set_data. intros Hrun.
  apply bind_ok in Hrun as (bytes & Hb & Hrun). injection Hrun as <-.
  exists bytes. destruct b; simpl. auto.
Qed.

(** Without a changed bundle id [set_codedirectory] never touches the
    declared length of a code directory: it replaces the team identifier
    and stores the rebuilt bytes, of whatever size they are. *)
Lemma set_codedirectory_keeps_length
      (signable : Signable) (seal_path info_path : string) (signer : Signer)
      (construct construct' : Blob) (count : Z) (idx : list IndexEntry) :
  blob_data construct = DSuperBlob count idx ->
  truthy (get_changed_bundle_id signable) = None ->
  set_codedirectory signable seal_path info_path signer construct = Ok construct' ->
  exists idx',
    blob_data construct' = DSuperBlob count idx' /\
    forall i e cd,
      idx !! i = Some e ->
      blob_magic (index_blob e) = "CSMAGIC_CODEDIRECTORY" ->
      blob_data (index_blob e) = DCodeDirectory cd ->
      exists e' cd' bytes,
        idx' !! i = Some e' /\
        blob_data (index_blob e') = DCodeDirectory cd' /\
        teamID cd' = Some (get_team_id signer) /\
        blob_length (index_blob e') = blob_length (index_blob e) /\
        CodeDirectory_build (DCodeDirectory cd') = Ok bytes /\
        blob_bytes (index_blob e') = Str bytes.
Proof.
  intros Hdata Hid Hrun.
  destruct (set_codedirectory_entries _ _ _ _ _ _ _ _ Hdata Hrun)
    as (idx' & D' & Hall).
  exists idx'. split; [assumption|].
  intros i e cd Hi Hm Hcd.
  destruct (Hall _ _ Hi Hm) as (e_f & b' & Hfe & Hb' & Hi').
  destruct (forget_entry_cd _ _ _ Hfe Hcd) as (cd_f & Hcdf & Hsame & Hlen & _).
  destruct (rebuild_blob_unchanged _ _ _ _ _ Hid Hcdf Hb')
    as (bytes & Hd' & Hl' & Hbuild & Hbytes).
  exists (set_blob b' e_f), (set_teamID (Some (get_team_id signer)) cd_f), bytes.
  destruct e_f. simpl in *. repeat split; auto. congruence.
Qed.

(** C3: when the bundle identifier has changed and [set_codedirectory]
    returns, every code directory of the signature has the new identifier,
    a [hashOffset] shifted by [offset_change = len(new) - len(old)], a
    [teamIDOffset] equal to [offset_change] if none was recorded and
    shifted by [offset_change] otherwise, and a declared length changed by
    exactly [offset_change]; an identifier one byte longer makes each of
    the three exactly 1 larger. *)
Theorem set_codedirectory_changed_ident
        (signable : Signable) (seal_path info_path : string) (signer : Signer)
        (construct construct' : Blob) (count : Z) (idx : list IndexEntry)
        (new_id : string) :
  blob_data construct = DSuperBlob count idx ->
  truthy (get_changed_bundle_id signable) = Some new_id ->
  set_codedirectory signable seal_path info_path signer construct = Ok construct' ->
  exists idx',
    blob_data construct' = DSuperBlob count idx' /\
    forall i e cd,
      idx !! i = Some e ->
      blob_magic (index_blob e) = "CSMAGIC_CODEDIRECTORY" ->
      blob_data (index_blob e) = DCodeDirectory cd ->
      exists e' cd',
        idx' !! i = Some e' /\
        blob_data (index_blob e') = DCodeDirectory cd' /\
        let offset_change := len new_id - len (ident cd) in
        ident cd' = new_id /\
        hashOffset cd' = hashOffset cd + offset_change /\
        teamIDOffset cd'
        = Some (match teamIDOffset cd with
                | None => offset_change
                | Some t => t + offset_change
                end) /\
        blob_length (index_blob e') = blob_length (index_blob e) + offset_change /\
        (len new_id = len (ident cd) + 1 ->
         hashOffset cd' = hashOffset cd + 1 /\
         (forall t, teamIDOffset cd = Some t -> teamIDOffset cd' = Some (t + 1)) /\
         blob_length (index_blob e') = blob_length (index_blob e) + 1).
Proof.
  intros Hdata Hid Hrun.
  destruct (set_codedirectory_entries _ _ _ _ _ _ _ _ Hdata Hrun)
    as (idx' & D' & Hall).
  exists idx'. split; [assumption|].
  intros i e cd Hi Hm Hcd.
  destruct (Hall _ _ Hi Hm) as (e_f & b' & Hfe & Hb' & Hi').
  destruct (forget_entry_cd _ _ _ Hfe Hcd) as (cd_f & Hcdf & Hsame & Hlen & _).
  destruct (rebuild_blob_changed _ _ _ _ _ _ Hid Hcdf Hb') as (bytes & Hd' & Hl' & _ & _).
  assert (Hident : ident cd_f = ident cd)
    by exact (f_equal ident Hsame).
  assert (Hho : hashOffset cd_f = hashOffset cd)
    by exact (f_equal hashOffset Hsame).
  assert (Hto : teamIDOffset cd_f = teamIDOffset cd)
    by exact (f_equal teamIDOffset Hsame).
  eexists (set_blob b' e_f), _. split; [exact Hi'|].
  split; [destruct e_f; exact Hd'|].
  assert (Hlen' : blob_length (index_blob (set_blob b' e_f))
                  = blob_length (index_blob e) + (len new_id - len (ident cd))).
  { destruct e_f. simpl in *. rewrite Hl', Hlen, Hident. reflexivity. }
  cbn [change_ident set_teamID set_ident set_hashOffset set_teamIDOffset
       ident hashOffset teamIDOffset].
  rewrite Hident, Hho, Hto.
  split; [reflexivity|]. split; [reflexivity|].
  split; [now destruct (teamIDOffset cd)|]. split; [exact Hlen'|].
  intros Hone. split; [lia|]. split; [|lia].
  intros t ->. f_equal. lia.
Qed.

End SetCodedirectory.

Section AdHoc.
Context `{MachoCS} `{Host}.

(** The ad-hoc branch of [set_requirements]: an attribute [count] appears
    on the blob object; the payload, with its own [count] and index, the
    stored bytes and the length are not written. *)
Lemma set_requirements_adhoc signable signer construct requirements :
  is_adhoc signer = true ->
  get_blob construct "CSMAGIC_REQUIREMENTS" = Ok requirements ->
  set_requirements signable signer construct
  = Ok (write_blob "CSMAGIC_REQUIREMENTS" (set_attr_count 0 requirements)
                   construct).
Proof.
  intros Hadhoc Hget. unfold set_requirements. rewrite Hget. cbn [bind].
  now rewrite Hadhoc.
Qed.

Lemma set_attr_count_keeps z b :
  blob_magic (set_attr_count z b) = blob_magic b /\
  blob_length (set_attr_count z b) = blob_length b /\
  blob_data (set_attr_count z b) = blob_data b /\
  blob_bytes (set_attr_count z b) = blob_bytes b.
Proof. now destruct b. Qed.

(** With an ad-hoc signer the first loop of [set_codedirectory] passes
    the entitlements slot by. *)
Lemma entitlements_fill_skipped signable signer i construct construct' :
  is_adhoc signer = true ->
  fill_if_present signable (negb (is_adhoc signer)) i EntitlementsSlot construct
  = Ok construct' ->
  construct' = construct.
Proof.
  intros Hadhoc Hrun. unfold fill_if_present in Hrun.
  apply bind_ok in Hrun as (e & _ & Hrun).
  apply bind_ok in Hrun as (cd & _ & Hrun).
  rewrite Hadhoc, andb_false_r in Hrun. now injection Hrun.
Qed.

End AdHoc.

Section DeclaredLengths.
Context `{MachoCS} `{Host}.

(** A blob that [get_blob] returns sits alone among the entries. *)
Lemma get_blob_split construct count idx magic b :
  blob_data construct = DSuperBlob count idx ->
  get_blob construct magic = Ok b ->
  exists pre e post,
    idx = pre ++ e :: post /\ index_blob e = b /\
    blob_magic b = magic /\
    occurrences magic pre = 0%nat /\ occurrences magic post = 0%nat.
Proof.
  intros Hdata Hget. unfold get_blob, get_blobs in Hget.
  rewrite Hdata in Hget. cbn [data_BlobIndex bind] in Hget.
  destruct (blobs_with magic idx) as [|b0 [|b1 l]] eqn:Hb; try discriminate.
  injection Hget as ->.
  assert (Hn : occurrences magic idx = 1%nat)
    by now rewrite <- blobs_with_length, Hb.
  destruct (occurrences_one_split _ _ Hn) as (pre & e & post & -> & Hm & Hpre & Hpost).
  rewrite (blobs_with_unique _ _ _ _ Hm Hpre Hpost) in Hb. injection Hb as <-.
  exists pre, e, post. auto.
Qed.

(** [set_signature] stores the new signature with its size plus 8. *)
Lemma set_signature_length_ok signer construct construct' count idx :
  blob_data construct = DSuperBlob count idx ->
  set_signature signer construct = Ok construct' ->
  exists sigwrapper',
    get_blob construct' "CSMAGIC_BLOBWRAPPER" = Ok sigwrapper' /\
    length_ok sigwrapper'.
Proof.
  intros Hdata Hrun. unfold set_signature in Hrun.
  apply bind_ok in Hrun as (sigwrapper & Hget & Hrun).
  apply bind_ok in Hrun as (oldsig & _ & Hrun).
  apply bind_ok in Hrun as (cd_hashes & _ & Hrun).
  injection Hrun as <-.
  destruct (get_blob_split _ _ _ _ _ Hdata Hget)
    as (pre & e & post & -> & <- & Hm & Hpre & Hpost).
  rewrite (write_blob_unique _ _ _ _ _ _ _ Hdata Hm Hpre Hpost).
  eexists. split.
  - apply get_blob_after_write; auto. rewrite <- Hm. now destruct (index_blob e).
  - unfold length_ok. destruct (index_blob e). simpl. lia.
Qed.

(** [update_offsets] stores the superblob payload with its size plus 8. *)
Lemma update_offsets_length_ok construct construct' :
  update_offsets construct = Ok construct' -> length_ok construct'.
Proof.
  unfold update_offsets. intros Hrun.
  apply bind_ok in Hrun as (idx & _ & Hrun).
  destruct idx as [|first rest]; [discriminate|].
  apply bind_ok in Hrun as (idx' & _ & Hrun).
  apply bind_ok in Hrun as (superblob & _ & Hrun).
  injection Hrun as <-. unfold length_ok. destruct construct. simpl. lia.
Qed.

End DeclaredLengths.

Section SpecialSlots.

(** X1: The index of a special slot: the entitlements, application,
    resource directory, requirements and info slots have the hash at 5, 4,
    3, 2 and 1 places below [nSpecialSlots]; a slot is present exactly
    when the directory has at least that many special slots; a present
    slot has its index among the special slots, below the code slots;
    slots of different classes never share an index. *)
Theorem slot_index_law (cd : CodeDirectory) (slot : Slot) :
  let below :=
    match slot with
    | EntitlementsSlot => 5
    | ApplicationSlot => 4
    | ResourceDirSlot _ => 3
    | RequirementsSlot => 2
    | InfoSlot _ => 1
    end in
  get_codedirectory_hash_index cd slot = nSpecialSlots cd - below /\
  (has_codedirectory_slot cd slot = true <-> below <= nSpecialSlots cd) /\
  (has_codedirectory_slot cd slot = true ->
   0 <= get_codedirectory_hash_index cd slot < nSpecialSlots cd) /\
  (forall slot' : Slot,
      get_codedirectory_hash_index cd slot = get_codedirectory_hash_index cd slot' ->
      match slot, slot' with
      | EntitlementsSlot, EntitlementsSlot
      | ApplicationSlot, ApplicationSlot
      | ResourceDirSlot _, ResourceDirSlot _
      | RequirementsSlot, RequirementsSlot
      | InfoSlot _, InfoSlot _ => True
      | _, _ => False
      end).
Proof.
  unfold has_codedirectory_slot, get_codedirectory_hash_index.
  rewrite Z.leb_le.
  split; [destruct slot; simpl; lia|].
  split; [destruct slot; simpl; lia|].
  split; [destruct slot; simpl; lia|].
  intros slot'. destruct slot, slot'; simpl; intros; try exact I; lia.
Qed.

Lemma touched_refl n adhoc hs : touched n adhoc hs hs.
Proof. split; auto. Qed.

Lemma touched_trans n adhoc hs hs' hs'' :
  touched n adhoc hs hs' -> touched n adhoc hs' hs'' -> touched n adhoc hs hs''.
Proof.
  intros [Hl1 H1] [Hl2 H2]. split; [congruence|].
  intros k. destruct (H2 k) as [E2|S2]; [|now right].
  destruct (H1 k) as [E1|S1]; [left; congruence | now right].
Qed.

Lemma slots_filled_refl adhoc e : slots_filled adhoc e e.
Proof. now left. Qed.

Lemma slots_filled_trans adhoc e e' e'' :
  slots_filled adhoc e e' -> slots_filled adhoc e' e'' -> slots_filled adhoc e e''.
Proof.
  intros [->|(cd & hs' & Hcd & -> & Ht)]; [auto|].
  intros [->|(cd' & hs'' & Hcd' & -> & Ht')].
  - right. eauto.
  - right. exists cd, hs''.
    destruct e as [t o [m l d y c]]. simpl in *. subst d.
    injection Hcd' as <-. simpl in Ht'.
    split; [reflexivity|]. split; [reflexivity|].
    now apply (touched_trans _ _ _ hs').
Qed.

End SpecialSlots.

Section Loops.
Context `{MachoCS} `{Host}.

Variable R : IndexEntry -> IndexEntry -> Prop.
Hypothesis R_refl : forall e, R e e.
Hypothesis R_trans : forall e e' e'', R e e' -> R e' e'' -> R e e''.

Lemma set_data_twice d d' b : set_data d' (set_data d b) = set_data d' b.
Proof. now destruct b. Qed.

Lemma changed_within_refl ps construct count idx :
  blob_data construct = DSuperBlob count idx ->
  changed_within R ps construct construct.
Proof.
  intros Hdata. exists count, idx, idx.
  split; [assumption|]. split; [now rewrite <- Hdata, set_data_same|].
  split; [reflexivity|]. intros i e Hi. exists e. auto.
Qed.

Lemma changed_within_trans ps qs c c' c'' :
  changed_within R ps c c' -> changed_within R qs c' c'' ->
  changed_within R (ps ++ qs) c c''.
Proof.
  intros (count & idx & idx' & Hd & -> & Hl & Hp)
         (count' & idx0 & idx'' & Hd' & -> & Hl' & Hq).
  rewrite blob_data_set_data in Hd'. injection Hd' as <- <-.
  exists count, idx, idx''.
  split; [assumption|]. split; [apply set_data_twice|]. split; [congruence|].
  intros i e Hi.
  destruct (Hp i e Hi) as (e' & Hi' & Hin & Hout).
  destruct (Hq i e' Hi') as (e'' & Hi'' & Hin' & Hout').
  exists e''. split; [assumption|]. split.
  - intros Hmem. apply elem_of_app in Hmem.
    destruct (decide (i ∈ ps)) as [Hps|Hps], (decide (i ∈ qs)) as [Hqs|Hqs].
    + eauto.
    + rewrite (Hout' Hqs). auto.
    + rewrite <- (Hout Hps). auto.
    + tauto.
  - intros Hmem.
    assert (Hps : i ∉ ps) by (intros ?; apply Hmem, elem_of_app; auto).
    assert (Hqs : i ∉ qs) by (intros ?; apply Hmem, elem_of_app; auto).
    now rewrite (Hout' Hqs), (Hout Hps).
Qed.

(** A loop whose body changes the entry it visits in a way [R] allows
    changes the visited entries in that way and no others. *)
Lemma for_each_changed_within (body : nat -> Blob -> result Blob) :
  (forall j c c', body j c = Ok c' -> changed_within R [j] c c') ->
  forall ps c c' count idx,
    blob_data c = DSuperBlob count idx ->
    for_each body ps c = Ok c' ->
    changed_within R ps c c'.
Proof.
  intros Hbody. induction ps as [|j ps IH]; simpl; intros c c' count idx Hd.
  - intros [= <-]. now apply (changed_within_refl _ _ count idx).
  - intros Hrun. apply bind_ok in Hrun as (c1 & H1 & Hrun).
    pose proof (Hbody _ _ _ H1) as Hstep.
    assert (Hd1 : exists idx1, blob_data c1 = DSuperBlob count idx1).
    { destruct Hstep as (count' & idx0 & idx1 & Hd0 & -> & _).
      rewrite Hd in Hd0. injection Hd0 as <- <-.
      exists idx1. apply blob_data_set_data. }
    destruct Hd1 as [idx1 Hd1].
    exact (changed_within_trans [j] ps _ _ _ Hstep (IH _ _ _ _ Hd1 Hrun)).
Qed.

End Loops.

Section HashArrays.
Context `{MachoCS} `{Host}.

Lemma changed_within_equiv R ps qs c c' :
  (forall i, i ∈ ps <-> i ∈ qs) ->
  changed_within R ps c c' -> changed_within R qs c c'.
Proof.
  intros Heq (count & idx & idx' & Hd & -> & Hl & Hp).
  exists count, idx, idx'.
  split; [assumption|]. split; [reflexivity|]. split; [assumption|].
  intros i e Hi. destruct (Hp i e Hi) as (e' & Hi' & Hin & Hout).
  exists e'. split; [assumption|]. split.
  - intros Hq. apply Hin. now apply Heq.
  - intros Hq. apply Hout. intros Hp'. apply Hq. now apply Heq.
Qed.

(** A store into the blob of the entry at [i]. *)
Lemma put_blob_at_changed (R : IndexEntry -> IndexEntry -> Prop)
      construct count idx i e b :
  blob_data construct = DSuperBlob count idx ->
  idx !! i = Some e -> R e (set_blob b e) ->
  changed_within R [i] construct (put_blob_at i b construct).
Proof.
  intros Hd Hi HR. exists count, idx, (alter (set_blob b) i idx).
  split; [assumption|]. split; [unfold put_blob_at; now rewrite Hd|].
  split; [apply length_alter|].
  intros k e0 Hk. destruct (decide (k = i)) as [->|Hne].
  - exists (set_blob b e). rewrite list_lookup_alter_eq, Hi. split; [reflexivity|].
    rewrite Hi in Hk. injection Hk as <-. split; [auto|].
    intros Hnot. exfalso. apply Hnot. now apply list_elem_of_singleton.
  - exists e0. rewrite list_lookup_alter_ne by auto. split; [assumption|].
    split; [|auto]. intros Hin. apply list_elem_of_singleton in Hin. contradiction.
Qed.

Lemma list_assign_ok {A : Type} (l l' : list A) (index : Z) (x : A) :
  0 <= index ->
  list_assign l index x = Ok l' ->
  (Z.to_nat index < List.length l)%nat /\ l' = <[Z.to_nat index := x]> l.
Proof.
  intros Hpos. unfold list_assign.
  destruct (index <? 0)%Z eqn:Hneg; [apply Z.ltb_lt in Hneg; lia|].
  destruct (0 <=? index)%Z eqn:H0'; simpl; [|discriminate].
  destruct (index <? Z.of_nat (List.length l))%Z eqn:Hlt; [|discriminate].
  apply Z.ltb_lt in Hlt. intros [= <-]. split; [lia | reflexivity].
Qed.

(** Filling one slot that is present on the directory at [i]. *)
Lemma fill_codedirectory_slot_changed signable adhoc i slot construct construct' :
  (slot = EntitlementsSlot -> adhoc = false) ->
  (forall e cd, entry_at construct i = Ok e -> cd_of (index_blob e) = Ok cd ->
                has_codedirectory_slot cd slot = true) ->
  (exists count idx, blob_data construct = DSuperBlob count idx) ->
  fill_codedirectory_slot signable i slot construct = Ok construct' ->
  changed_within (slots_filled adhoc) [i] construct construct'.
Proof.
  intros Hent Hhas (count & idx & Hd). unfold fill_codedirectory_slot.
  destruct (should_fill_slot signable construct slot).
  - intros Hrun.
    apply bind_ok in Hrun as (e & He & Hrun).
    apply bind_ok in Hrun as (cd & Hcd & Hrun).
    apply bind_ok in Hrun as (h & Hh & Hrun).
    apply bind_ok in Hrun as (hashes' & Hhs & Hrun).
    injection Hrun as <-.
    pose proof (Hhas e cd He Hcd) as Hpresent.
    unfold has_codedirectory_slot in Hpresent. apply Z.leb_le in Hpresent.
    destruct (list_assign_ok _ _ _ _ Hpresent Hhs) as [Hlt ->].
    apply (put_blob_at_changed _ construct count idx i e); auto.
    + now apply (entry_at_lookup construct count).
    + right. exists cd, (<[Z.to_nat (get_codedirectory_hash_index cd slot) := h]> (hashes cd)).
      split; [now apply cd_of_data|]. split; [reflexivity|].
      split; [apply length_insert|].
      intros k.
      destruct (decide (Z.to_nat (get_codedirectory_hash_index cd slot) = k)) as [<-|Hne].
      * right. exists slot. unfold get_codedirectory_hash_index in *.
        repeat split; auto; lia.
      * left. now apply list_lookup_insert_ne.
  - intros [= <-]. now apply (changed_within_refl _ (slots_filled_refl adhoc) _ _ count idx).
Qed.

Lemma fill_if_present_changed signable adhoc guard i slot construct construct' :
  (slot = EntitlementsSlot -> guard = true -> adhoc = false) ->
  fill_if_present signable guard i slot construct = Ok construct' ->
  changed_within (slots_filled adhoc) [i] construct construct'.
Proof.
  intros Hent Hrun. unfold fill_if_present in Hrun.
  apply bind_ok in Hrun as (e & He & Hrun).
  apply bind_ok in Hrun as (cd & Hcd & Hrun).
  assert (Hd : exists count idx, blob_data construct = DSuperBlob count idx).
  { unfold entry_at in He. destruct (blob_data construct); try discriminate. eauto. }
  destruct (has_codedirectory_slot cd slot) eqn:Hhas, guard; simpl in Hrun;
    try (injection Hrun as <-; destruct Hd as (count & idx & Hd);
         now apply (changed_within_refl _ (slots_filled_refl adhoc) _ _ count idx)).
  apply (fill_codedirectory_slot_changed signable adhoc i slot); auto.
  intros e0 cd0 He0 Hcd0. congruence.
Qed.

(** The body of the first loop at position [i]. *)
Lemma fill_slots_changed signable seal_path info_path signer i construct construct' :
  fill_slots signable seal_path info_path signer i construct = Ok construct' ->
  changed_within (slots_filled (is_adhoc signer)) [i] construct construct'.
Proof.
  intros Hrun. unfold fill_slots in Hrun.
  apply bind_ok in Hrun as (c1 & H1 & Hrun).
  apply bind_ok in Hrun as (c2 & H2 & Hrun).
  apply bind_ok in Hrun as (c3 & H3 & Hrun).
  apply bind_ok in Hrun as (c4 & H4 & H5).
  apply (fill_if_present_changed _ (is_adhoc signer)) in H1;
    [|intros _ Hg; now destruct (is_adhoc signer)].
  apply (fill_if_present_changed _ (is_adhoc signer)) in H2; [|discriminate].
  apply (fill_if_present_changed _ (is_adhoc signer)) in H3; [|discriminate].
  apply (fill_if_present_changed _ (is_adhoc signer)) in H4; [|discriminate].
  apply (fill_if_present_changed _ (is_adhoc signer)) in H5; [|discriminate].
  pose proof (changed_within_trans _ (slots_filled_refl _) (slots_filled_trans _)
                _ _ _ _ _ H1
             (changed_within_trans _ (slots_filled_refl _) (slots_filled_trans _)
                _ _ _ _ _ H2
             (changed_within_trans _ (slots_filled_refl _) (slots_filled_trans _)
                _ _ _ _ _ H3
             (changed_within_trans _ (slots_filled_refl _) (slots_filled_trans _)
                _ _ _ _ _ H4 H5)))) as Hall.
  revert Hall. apply changed_within_equiv.
  intros k. rewrite !elem_of_app, !list_elem_of_singleton. tauto.
Qed.

End HashArrays.
Section CodeDirectoryPass.
Context `{MachoCS} `{Host}.

Lemma blob_replaced_refl e : blob_replaced e e.
Proof. exists (index_blob e). now destruct e. Qed.

Lemma blob_replaced_trans e e' e'' :
  blob_replaced e e' -> blob_replaced e' e'' -> blob_replaced e e''.
Proof. intros [b ->] [b' ->]. exists b'. now destruct e. Qed.

Lemma positions_from_inv magic idx : forall k i,
  i ∈ positions_from magic k idx ->
  exists e, idx !! (i - k)%nat = Some e /\ blob_magic (index_blob e) = magic /\
            (k <= i)%nat.
Proof.
  induction idx as [|e0 idx IH]; simpl; intros k i.
  - intros Hi. apply elem_of_nil in Hi. contradiction.
  - assert (Hrest : i ∈ positions_from magic (S k) idx ->
                    exists e, (e0 :: idx) !! (i - k)%nat = Some e /\
                              blob_magic (index_blob e) = magic /\ (k <= i)%nat).
    { intros Hi. destruct (IH _ _ Hi) as (e & He & Hm & Hk).
      exists e. replace (i - k)%nat with (S (i - S k)) by lia.
      repeat split; auto. lia. }
    destruct (String.eqb (blob_magic (index_blob e0)) magic) eqn:Hm0; [|assumption].
    rewrite elem_of_cons. intros [-> | Hi]; [|auto].
    exists e0. rewrite Nat.sub_diag. apply String.eqb_eq in Hm0. auto.
Qed.

(** The body of the second loop at position [j]. *)
Lemma rebuild_codedirectory_changed signable signer j construct construct' :
  rebuild_codedirectory signable signer j construct = Ok construct' ->
  changed_within blob_replaced [j] construct construct'.
Proof.
  intros Hrun. unfold rebuild_codedirectory in Hrun.
  apply bind_ok in Hrun as (e & He & Hrun).
  apply bind_ok in Hrun as (b & Hb & Hrun). injection Hrun as <-.
  assert (Hd : exists count idx, blob_data construct = DSuperBlob count idx).
  { unfold entry_at in He. destruct (blob_data construct); try discriminate. eauto. }
  destruct Hd as (count & idx & Hd).
  apply (put_blob_at_changed _ construct count idx j e); auto.
  - now apply (entry_at_lookup construct count).
  - now exists b.
Qed.

(** [set_codedirectory], entry by entry: an entry that does not hold a
    code directory stays; one that does has its special slots filled by
    the first loop and its blob rebuilt from the outcome by the second. *)
Lemma set_codedirectory_effect
      (signable : Signable) (seal_path info_path : string) (signer : Signer)
      (construct construct' : Blob) (count : Z) (idx : list IndexEntry) :
  blob_data construct = DSuperBlob count idx ->
  set_codedirectory signable seal_path info_path signer construct = Ok construct' ->
  exists idx',
    construct' = set_data (DSuperBlob count idx') construct /\
    List.length idx' = List.length idx /\
    forall i e,
      idx !! i = Some e ->
      (blob_magic (index_blob e) <> "CSMAGIC_CODEDIRECTORY" -> idx' !! i = Some e) /\
      (blob_magic (index_blob e) = "CSMAGIC_CODEDIRECTORY" ->
       exists e_f b',
         slots_filled (is_adhoc signer) e e_f /\
         rebuild_blob signable signer (index_blob e_f) = Ok b' /\
         idx' !! i = Some (set_blob b' e_f)).
Proof.
  intros Hdata Hrun. unfold set_codedirectory, get_codedirectories in Hrun.
  rewrite Hdata in Hrun. cbn [data_BlobIndex bind] in Hrun.
  apply bind_ok in Hrun as (filled & Hfill & Hrun).
  destruct (fill_loop_frame _ _ _ _ _ _ _ _ _ Hdata Hfill) as (idx_f & Df & Ef).
  pose proof (for_each_changed_within _ (slots_filled_refl _) (slots_filled_trans _)
                _ (fill_slots_changed signable seal_path info_path signer)
                _ _ _ _ _ Hdata Hfill)
    as (count1 & idx1 & idx_f' & Hd1 & Hc1 & Hl1 & Hp1).
  rewrite Hdata in Hd1. injection Hd1 as <- <-.
  assert (idx_f' = idx_f) as ->.
  { rewrite Hc1, blob_data_set_data in Df. now injection Df. }
  rewrite Df in Hrun. cbn [data_BlobIndex bind] in Hrun.
  rewrite (positions_from_forget _ _ _ _ Ef) in Hrun.
  destruct (rebuild_loop _ _ _ _ _ _ _ (positions_from_NoDup _ _ _) Df Hrun)
    as (idx' & D' & Hall).
  pose proof (for_each_changed_within _ blob_replaced_refl blob_replaced_trans
                _ (rebuild_codedirectory_changed signable signer)
                _ _ _ _ _ Df Hrun)
    as (count2 & idx2 & idx2' & Hd2 & Hc2 & Hl2 & _).
  rewrite Df in Hd2. injection Hd2 as <- <-.
  assert (idx2' = idx') as ->.
  { rewrite Hc2, blob_data_set_data in D'. now injection D'. }
  exists idx'. split; [rewrite Hc2, Hc1; apply set_data_twice|].
  split; [congruence|].
  intros i e Hi. destruct (Hp1 _ _ Hi) as (e_f & Hif & Hin & Hout).
  destruct (Hall _ _ Hif) as [Hin' Hout'].
  split.
  - intros Hm.
    assert (Hnot : i ∉ positions_from "CSMAGIC_CODEDIRECTORY" 0 idx).
    { intros Hpos. apply positions_from_inv in Hpos as (e0 & He0 & Hm0 & _).
      rewrite Nat.sub_0_r, Hi in He0. injection He0 as <-. contradiction. }
    rewrite <- (Hout Hnot). now apply Hout'.
  - intros Hm.
    assert (Hpos : i ∈ positions_from "CSMAGIC_CODEDIRECTORY" 0 idx)
      by apply (positions_from_elem _ _ 0%nat i e Hi Hm).
    destruct (Hin' Hpos) as (b' & Hb' & Hi').
    exists e_f, b'. auto.
Qed.

End CodeDirectoryPass.
Section CodeDirectoryResults.
Context `{MachoCS} `{Host}.

(** What the first loop has made of an entry whose blob still reads as a
    code directory. *)
Lemma slots_filled_cd adhoc e e_f cd_f :
  slots_filled adhoc e e_f ->
  cd_of (index_blob e_f) = Ok cd_f ->
  exists cd,
    blob_data (index_blob e) = DCodeDirectory cd /\
    cd_f = set_hashes (hashes cd_f) cd /\
    touched (nSpecialSlots cd) adhoc (hashes cd) (hashes cd_f) /\
    e_f = set_blob (set_data (DCodeDirectory cd_f) (index_blob e)) e.
Proof.
  intros [->|(cd & hs' & Hcd & -> & Ht)] Hcdf.
  - exists cd_f. apply cd_of_data in Hcdf.
    split; [assumption|]. split; [now destruct cd_f|].
    split; [apply touched_refl|].
    rewrite <- Hcdf, set_data_same, set_blob_same. reflexivity.
  - exists cd. split; [assumption|].
    assert (cd_f = set_hashes hs' cd) as ->.
    { apply cd_of_data in Hcdf. destruct e as [t o b]. simpl in Hcdf.
      rewrite blob_data_set_data in Hcdf. now injection Hcdf. }
    destruct cd. simpl. auto.
Qed.

(** The second loop's body on one code directory blob. *)
Lemma rebuild_blob_fields signable signer b b' cd :
  cd_of b = Ok cd ->
  rebuild_blob signable signer b = Ok b' ->
  exists cd' bytes,
    b' = set_bytes (Str bytes)
           (set_data (DCodeDirectory cd')
              (set_length (blob_length b
                           + match truthy (get_changed_bundle_id signable) with
                             | Some id => len id - len (ident cd)
                             | None => 0
                             end) b)) /\
    CodeDirectory_build (DCodeDirectory cd') = Ok bytes /\
    cd' = match truthy (get_changed_bundle_id signable) with
          | Some id => change_ident id (set_teamID (Some (get_team_id signer)) cd)
          | None => set_teamID (Some (get_team_id signer)) cd
          end.
Proof.
  intros Hcd. unfold rebuild_blob. rewrite Hcd. cbn [bind].
  destruct (truthy (get_changed_bundle_id signable)) as [id|]; intros Hrun;
    apply bind_ok in Hrun as (bytes & Hb & Hrun); injection Hrun as <-;
    rewrite blob_data_set_data in Hb; eexists _, bytes;
    (split; [|split; [exact Hb | reflexivity]]).
  - destruct b; reflexivity.
  - destruct b; simpl. now rewrite Z.add_0_r.
Qed.

(** X3: [set_codedirectory] never adds, removes or moves an entry of the
    index, never changes an entry's type or offset nor a blob's magic, and
    leaves every entry that is not a code directory, and the magic, length
    and bytes of the signature itself, exactly as they were. *)
Theorem set_codedirectory_frame
        (signable : Signable) (seal_path info_path : string) (signer : Signer)
        (construct construct' : Blob) (count : Z) (idx : list IndexEntry) :
  blob_data construct = DSuperBlob count idx ->
  set_codedirectory signable seal_path info_path signer construct = Ok construct' ->
  exists idx',
    construct' = set_data (DSuperBlob count idx') construct /\
    List.length idx' = List.length idx /\
    forall i e,
      idx !! i = Some e ->
      exists e',
        idx' !! i = Some e' /\
        index_type e' = index_type e /\
        index_offset e' = index_offset e /\
        blob_magic (index_blob e') = blob_magic (index_blob e) /\
        blob_attr_count (index_blob e') = blob_attr_count (index_blob e) /\
        (blob_magic (index_blob e) <> "CSMAGIC_CODEDIRECTORY" -> e' = e).
Proof.
  intros Hdata Hrun.
  destruct (set_codedirectory_effect _ _ _ _ _ _ _ _ Hdata Hrun)
    as (idx' & Hc & Hl & Hall).
  exists idx'. split; [assumption|]. split; [assumption|].
  intros i e Hi. destruct (Hall _ _ Hi) as [Hother Hcd].
  destruct (String.eqb_spec (blob_magic (index_blob e)) "CSMAGIC_CODEDIRECTORY")
    as [Hm|Hm].
  - destruct (Hcd Hm) as (e_f & b' & Hf & Hb' & Hi').
    assert (Hcdf : exists cd_f, cd_of (index_blob e_f) = Ok cd_f).
    { unfold rebuild_blob in Hb'. apply bind_ok in Hb' as (cd_f & Hcdf & _). eauto. }
    destruct Hcdf as [cd_f Hcdf].
    destruct (slots_filled_cd _ _ _ _ Hf Hcdf) as (cd & _ & _ & _ & ->).
    destruct (rebuild_blob_fields _ _ _ _ _ Hcdf Hb') as (cd' & bytes & -> & _ & _).
    eexists. split; [exact Hi'|].
    destruct e as [t o [m l d y c]]. simpl. repeat split; auto. contradiction.
  - exists e. rewrite (Hother Hm). repeat split; auto.
Qed.

(** X4: [set_codedirectory] on the hash array of each code directory: the
    array keeps its length, and a hash can only differ at the index of one
    of the five special slots, that is at most five places below
    [nSpecialSlots]; the hashes of the code slots stay, and with an ad-hoc
    signer so does the hash of the entitlements slot. *)
Theorem set_codedirectory_hash_array
        (signable : Signable) (seal_path info_path : string) (signer : Signer)
        (construct construct' : Blob) (count : Z) (idx : list IndexEntry) :
  blob_data construct = DSuperBlob count idx ->
  set_codedirectory signable seal_path info_path signer construct = Ok construct' ->
  exists idx',
    blob_data construct' = DSuperBlob count idx' /\
    forall i e,
      idx !! i = Some e ->
      blob_magic (index_blob e) = "CSMAGIC_CODEDIRECTORY" ->
      exists e' cd cd',
        idx' !! i = Some e' /\
        blob_data (index_blob e) = DCodeDirectory cd /\
        blob_data (index_blob e') = DCodeDirectory cd' /\
        nSpecialSlots cd' = nSpecialSlots cd /\
        nCodeSlots cd' = nCodeSlots cd /\
        List.length (hashes cd') = List.length (hashes cd) /\
        forall k : nat,
          hashes cd' !! k <> hashes cd !! k ->
          nSpecialSlots cd - 5 <= Z.of_nat k < nSpecialSlots cd /\
          (is_adhoc signer = true -> Z.of_nat k <> nSpecialSlots cd - 5).
Proof.
  intros Hdata Hrun.
  destruct (set_codedirectory_effect _ _ _ _ _ _ _ _ Hdata Hrun)
    as (idx' & Hc & Hl & Hall).
  exists idx'. split; [rewrite Hc; apply blob_data_set_data|].
  intros i e Hi Hm. destruct (Hall _ _ Hi) as [_ Hcd].
  destruct (Hcd Hm) as (e_f & b' & Hf & Hb' & Hi').
  assert (Hcdf : exists cd_f, cd_of (index_blob e_f) = Ok cd_f).
  { unfold rebuild_blob in Hb'. apply bind_ok in Hb' as (cd_f & Hcdf & _). eauto. }
  destruct Hcdf as [cd_f Hcdf].
  destruct (slots_filled_cd _ _ _ _ Hf Hcdf) as (cd & Hcd0 & Hsame & [Hlen Ht] & ->).
  destruct (rebuild_blob_fields _ _ _ _ _ Hcdf Hb') as (cd' & bytes & -> & _ & Hcd').
  assert (Hfields : hashes cd' = hashes cd_f /\ nSpecialSlots cd' = nSpecialSlots cd
                    /\ nCodeSlots cd' = nCodeSlots cd).
  { rewrite Hcd', Hsame.
    destruct (truthy (get_changed_bundle_id signable)); destruct cd; simpl; auto. }
  destruct Hfields as (Hh & Hn & Hc').
  eexists _, cd, cd'. split; [exact Hi'|]. split; [assumption|].
  split; [destruct e as [t o [m l d y c]]; reflexivity|].
  split; [assumption|]. split; [assumption|].
  rewrite Hh. split; [assumption|].
  intros k Hk. destruct (Ht k) as [Heq | (slot & Hpos & Hidx & Hent)]; [contradiction|].
  destruct slot; simpl in *; split; try lia.
  intros Hadhoc. specialize (Hent eq_refl). congruence.
Qed.

(** X5: [set_codedirectory] on the record of each code directory: the team
    identifier is the signer's, the identifier is the changed bundle id if
    there is one and the old identifier otherwise, the other counts and
    sizes are as they were, and the stored bytes are the encoding of the
    record as it ends up, hashes included. *)
Theorem set_codedirectory_rebuilds
        (signable : Signable) (seal_path info_path : string) (signer : Signer)
        (construct construct' : Blob) (count : Z) (idx : list IndexEntry) :
  blob_data construct = DSuperBlob count idx ->
  set_codedirectory signable seal_path info_path signer construct = Ok construct' ->
  exists idx',
    blob_data construct' = DSuperBlob count idx' /\
    forall i e,
      idx !! i = Some e ->
      blob_magic (index_blob e) = "CSMAGIC_CODEDIRECTORY" ->
      exists e' cd cd' bytes,
        idx' !! i = Some e' /\
        blob_data (index_blob e) = DCodeDirectory cd /\
        blob_data (index_blob e') = DCodeDirectory cd' /\
        teamID cd' = Some (get_team_id signer) /\
        ident cd' = match truthy (get_changed_bundle_id signable) with
                    | Some id => id
                    | None => ident cd
                    end /\
        (version cd', flags cd', identOffset cd', codeLimit cd', hashSize cd',
         hashType cd', pageSize cd', scatterOffset cd')
        = (version cd, flags cd, identOffset cd, codeLimit cd, hashSize cd,
           hashType cd, pageSize cd, scatterOffset cd) /\
        CodeDirectory_build (DCodeDirectory cd') = Ok bytes /\
        blob_bytes (index_blob e') = Str bytes.
Proof.
  intros Hdata Hrun.
  destruct (set_codedirectory_effect _ _ _ _ _ _ _ _ Hdata Hrun)
    as (idx' & Hc & Hl & Hall).
  exists idx'. split; [rewrite Hc; apply blob_data_set_data|].
  intros i e Hi Hm. destruct (Hall _ _ Hi) as [_ Hcd].
  destruct (Hcd Hm) as (e_f & b' & Hf & Hb' & Hi').
  assert (Hcdf : exists cd_f, cd_of (index_blob e_f) = Ok cd_f).
  { unfold rebuild_blob in Hb'. apply bind_ok in Hb' as (cd_f & Hcdf & _). eauto. }
  destruct Hcdf as [cd_f Hcdf].
  destruct (slots_filled_cd _ _ _ _ Hf Hcdf) as (cd & Hcd0 & Hsame & _ & ->).
  destruct (rebuild_blob_fields _ _ _ _ _ Hcdf Hb') as (cd' & bytes & -> & Hbuild & Hcd').
  eexists _, cd, cd', bytes. split; [exact Hi'|]. split; [assumption|].
  split; [destruct e as [t o [m l d y c]]; reflexivity|].
  assert (Hfields :
            teamID cd' = Some (get_team_id signer) /\
            ident cd' = match truthy (get_changed_bundle_id signable) with
                        | Some id => id
                        | None => ident cd
                        end /\
            (version cd', flags cd', identOffset cd', codeLimit cd', hashSize cd',
             hashType cd', pageSize cd', scatterOffset cd')
            = (version cd, flags cd, identOffset cd, codeLimit cd, hashSize cd,
               hashType cd, pageSize cd, scatterOffset cd)).
  { rewrite Hcd', Hsame.
    destruct (truthy (get_changed_bundle_id signable)); destruct cd; simpl; auto. }
  destruct Hfields as (Ht & Hid & Hrest).
  split; [assumption|]. split; [assumption|]. split; [assumption|].
  split; [assumption|]. destruct e as [t o [m l d y c]]; reflexivity.
Qed.

End CodeDirectoryResults.

Section Signature.
Context `{MachoCS} `{Host}.

Lemma map_result_ok {A B : Type} (f : A -> result B) (l : list A) (bs : list B) :
  map_result f l = Ok bs <-> Forall2 (fun a b => f a = Ok b) l bs.
Proof.
  revert bs. induction l as [|a l IH]; simpl; intros bs.
  - split; [intros [= <-]; constructor | intros Hall; now inversion Hall].
  - split.
    + intros Hrun. apply bind_ok in Hrun as (b & Hb & Hrun).
      apply bind_ok in Hrun as (bs' & Hbs & Hrun). injection Hrun as <-.
      constructor; [assumption | now apply IH].
    + intros Hall. inversion Hall as [|a0 b l0 bs' Hb Hrest]; subst.
      rewrite Hb. cbn [bind]. apply IH in Hrest. now rewrite Hrest.
Qed.

Lemma Forall2_compose {A B C : Type} (P : A -> B -> Prop) (Q : B -> C -> Prop)
      (l : list A) (n : list C) :
  (exists m, Forall2 P l m /\ Forall2 Q m n)
  <-> Forall2 (fun a c => exists b, P a b /\ Q b c) l n.
Proof.
  revert n. induction l as [|a l IH]; intros n.
  - split.
    + intros (m & HP & HQ). inversion HP; subst. inversion HQ; subst. constructor.
    + intros Hall. inversion Hall; subst. exists []. split; constructor.
  - split.
    + intros (m & HP & HQ).
      inversion HP as [|a0 b l0 m' Hab HP']; subst.
      inversion HQ as [|b0 c m0 n' Hbc HQ']; subst.
      constructor; [eauto|]. apply IH. eauto.
    + intros Hall. inversion Hall as [|a0 c l0 n' (b & Hab & Hbc) Hrest]; subst.
      apply IH in Hrest as (m & HP & HQ).
      exists (b :: m). split; constructor; assumption.
Qed.

(** X8: [get_codedirectory_hashes] returns exactly when every code directory
    blob of the index encodes and holds a code directory record, and then
    gives one record per code directory, in index order: the two digests
    of the blob's encoding and the hash type of its record. *)
Theorem get_codedirectory_hashes_records
        (construct : Blob) (count : Z) (idx : list IndexEntry)
        (records : list HashRecord) :
  blob_data construct = DSuperBlob count idx ->
  (get_codedirectory_hashes construct = Ok records
   <-> Forall2 (fun cd record =>
                  exists data d,
                    Blob_build cd = Ok data /\
                    blob_data cd = DCodeDirectory d /\
                    record = {| digest_sha1 := sha1 data;
                                digest_sha256 := sha256 data;
                                record_hashType := hashType d |})
               (blobs_with "CSMAGIC_CODEDIRECTORY" idx) records).
Proof.
  intros Hdata. unfold get_codedirectory_hashes, get_blobs.
  rewrite Hdata. cbn [data_BlobIndex bind].
  set (cds := blobs_with "CSMAGIC_CODEDIRECTORY" idx). clearbody cds.
  split.
  - intros Hrun. apply bind_ok in Hrun as (cd_datas & H1 & H2).
    apply map_result_ok in H1. apply map_result_ok in H2.
    pose proof (proj1 (Forall2_compose _ _ _ _) (ex_intro _ cd_datas (conj H1 H2)))
      as Hall.
    eapply Forall2_impl; [exact Hall|].
    intros cd record ([cd0 data] & Hb & Hr). simpl in Hb, Hr.
    apply bind_ok in Hb as (data0 & Hbuild & Hb). injection Hb as <- <-.
    apply bind_ok in Hr as (d & Hd & Hr). injection Hr as <-.
    exists data0, d. split; [assumption|]. split; [now apply cd_of_data | reflexivity].
  - intros Hall.
    assert (Hsplit : Forall2 (fun cd record =>
                        exists p : Blob * string,
                          (do data <- Blob_build cd; Ok (cd, data)) = Ok p /\
                          (let '(cd, data) := p in
                           do d <- cd_of cd;
                           Ok {| digest_sha1 := sha1 data;
                                 digest_sha256 := sha256 data;
                                 record_hashType := hashType d |}) = Ok record)
                       cds records).
    { eapply Forall2_impl; [exact Hall|].
      intros cd record (data & d & Hbuild & Hd & ->).
      exists (cd, data). rewrite Hbuild. split; [reflexivity|].
      unfold cd_of. rewrite Hd. reflexivity. }
    apply Forall2_compose in Hsplit as (cd_datas & H1 & H2).
    apply map_result_ok in H1. apply map_result_ok in H2.
    rewrite H1. cbn [bind]. exact H2.
Qed.

(** X9: [set_signature] on a signature with one wrapper blob whose bytes are
    still the parsed ones: the wrapper gets the signer's output, computed
    from the old signature and the code directory hashes of the signature
    as it is, as payload and as bytes, and its size plus 8 as length;
    everything else stays. *)
Theorem set_signature_effect
        (signer : Signer) (construct : Blob) (count : Z)
        (pre post : list IndexEntry) (e : IndexEntry)
        (oldsig : string) (cd_hashes : list HashRecord) :
  blob_data construct = DSuperBlob count (pre ++ e :: post) ->
  blob_magic (index_blob e) = "CSMAGIC_BLOBWRAPPER" ->
  occurrences "CSMAGIC_BLOBWRAPPER" pre = 0%nat ->
  occurrences "CSMAGIC_BLOBWRAPPER" post = 0%nat ->
  blob_bytes (index_blob e) = LazyContainer oldsig ->
  get_codedirectory_hashes construct = Ok cd_hashes ->
  let sig := sign signer oldsig cd_hashes in
  let sigwrapper :=
    mkBlob "CSMAGIC_BLOBWRAPPER" (len sig + 8) (DDyn (PCont [("data", PStr sig)]))
           (Str sig) (blob_attr_count (index_blob e)) in
  set_signature signer construct
  = Ok (set_data (DSuperBlob count (pre ++ set_blob sigwrapper e :: post)) construct).
Proof.
  intros Hdata Hm Hpre Hpost Hbytes Hhashes sig sigwrapper.
  unfold set_signature.
  rewrite (get_blob_unique construct _ (pre ++ e :: post) pre e post);
    auto; [|now rewrite Hdata].
  cbn [bind]. rewrite Hbytes. cbn [bind]. rewrite Hhashes. cbn [bind].
  rewrite (write_blob_unique _ _ _ _ _ _ _ Hdata Hm Hpre Hpost).
  do 3 f_equal. f_equal. f_equal. subst sigwrapper sig.
  destruct (index_blob e) as [m l d y c]. simpl in *. now subst m.
Qed.

(** X10: What stops [set_signature] before it signs anything: no wrapper blob
    ([KeyError]), several of them ([MultipleEntriesException] with their
    number), or one whose bytes a pass has already replaced by a plain
    string ([AttributeError] on [.value]). *)
Theorem set_signature_errors
        (signer : Signer) (construct : Blob) (count : Z) (idx : list IndexEntry) :
  blob_data construct = DSuperBlob count idx ->
  let n := occurrences "CSMAGIC_BLOBWRAPPER" idx in
  (n = 0%nat ->
   set_signature signer construct = Raise (KeyError "CSMAGIC_BLOBWRAPPER")) /\
  ((1 < n)%nat ->
   set_signature signer construct = Raise (MultipleEntriesException n)) /\
  (forall sigwrapper s,
      get_blob construct "CSMAGIC_BLOBWRAPPER" = Ok sigwrapper ->
      blob_bytes sigwrapper = Str s ->
      set_signature signer construct = Raise AttributeError).
Proof.
  intros Hdata n. unfold set_signature.
  assert (Hidx : data_BlobIndex (blob_data construct) = Ok idx) by now rewrite Hdata.
  split; [|split].
  - intros Hn. now rewrite (get_blob_absent _ _ _ Hidx Hn).
  - intros Hn. now rewrite (get_blob_many _ _ _ Hidx Hn).
  - intros sigwrapper s Hget Hb. rewrite Hget. cbn [bind]. rewrite Hb. reflexivity.
Qed.

(** X11: [set_signature] cannot be run twice: after a first run the wrapper's
    bytes are the signature itself, a plain string, and a second run
    stops at [.value] with [AttributeError], whoever signs. *)
Theorem set_signature_not_repeatable
        (signer signer' : Signer) (construct construct' : Blob) :
  set_signature signer construct = Ok construct' ->
  set_signature signer' construct' = Raise AttributeError.
Proof.
  intros Hrun.
  assert (Hd : exists count idx, blob_data construct = DSuperBlob count idx).
  { unfold set_signature, get_blob, get_blobs in Hrun.
    destruct (blob_data construct); try discriminate. eauto. }
  destruct Hd as (count & idx & Hdata).
  unfold set_signature in Hrun.
  apply bind_ok in Hrun as (sigwrapper & Hget & Hrun).
  apply bind_ok in Hrun as (oldsig & _ & Hrun).
  apply bind_ok in Hrun as (cd_hashes & _ & Hrun).
  injection Hrun as <-.
  destruct (get_blob_split _ _ _ _ _ Hdata Hget)
    as (pre & e & post & -> & <- & Hm & Hpre & Hpost).
  rewrite (write_blob_unique _ _ _ _ _ _ _ Hdata Hm Hpre Hpost).
  unfold set_signature. rewrite get_blob_after_write; auto.
  - cbn [bind]. now destruct (index_blob e).
  - rewrite <- Hm. now destruct (index_blob e).
Qed.

End Signature.
Section EdgeCases.
Context `{MachoCS} `{Host}.

Lemma occurrences_app magic idx1 idx2 :
  occurrences magic (idx1 ++ idx2)
  = (occurrences magic idx1 + occurrences magic idx2)%nat.
Proof.
  induction idx1 as [|e idx1 IH]; simpl; [reflexivity|].
  destruct (String.eqb (blob_magic (index_blob e)) magic); simpl; congruence.
Qed.

(** Storing a blob under its own magic keeps the magic of every entry. *)
Lemma write_entries_occurrences magic magic' b' idx :
  blob_magic b' = magic ->
  occurrences magic' (List.map (write_entry magic b') idx) = occurrences magic' idx.
Proof.
  intros Hm. induction idx as [|e idx IH]; simpl; [reflexivity|].
  assert (Hsame : blob_magic (index_blob (write_entry magic b' e))
                  = blob_magic (index_blob e)).
  { unfold write_entry.
    destruct (String.eqb_spec (blob_magic (index_blob e)) magic) as [He|He];
      [|reflexivity].
    destruct e. simpl in *. congruence. }
  rewrite Hsame, IH. reflexivity.
Qed.

(** [set_entitlements] keeps the magic of every entry. *)
Lemma set_entitlements_occurrences entitlements_bytes construct construct'
      count idx magic :
  blob_data construct = DSuperBlob count idx ->
  set_entitlements entitlements_bytes construct = Ok construct' ->
  exists idx',
    blob_data construct' = DSuperBlob count idx' /\
    occurrences magic idx' = occurrences magic idx.
Proof.
  intros Hdata. unfold set_entitlements.
  destruct (get_blob construct "CSMAGIC_ENTITLEMENT") as [b|err] eqn:Hget.
  - intros [= <-]. unfold write_blob. rewrite Hdata, blob_data_set_data.
    eexists. split; [reflexivity|].
    apply write_entries_occurrences.
    destruct (get_blob_split _ _ _ _ _ Hdata Hget) as (_ & _ & _ & _ & _ & Hm & _).
    now destruct b.
  - destruct err; try discriminate. intros [= <-]. eauto.
Qed.

(** X12: A second [set_entitlements] overwrites the first: only the bytes
    given last are kept, and giving the same bytes again changes nothing. *)
Theorem set_entitlements_overwrites
        (bytes_1 bytes_2 : string) (construct construct_1 : Blob) :
  set_entitlements bytes_1 construct = Ok construct_1 ->
  set_entitlements bytes_2 construct_1 = set_entitlements bytes_2 construct /\
  set_entitlements bytes_1 construct_1 = Ok construct_1.
Proof.
  intros Hrun.
  assert (Hd : exists count idx, blob_data construct = DSuperBlob count idx).
  { unfold set_entitlements, get_blob, get_blobs in Hrun.
    destruct (blob_data construct); try discriminate. eauto. }
  destruct Hd as (count & idx & Hdata).
  assert (Hover : forall bytes_3,
             set_entitlements bytes_3 construct_1 = set_entitlements bytes_3 construct).
  { intros bytes_3. unfold set_entitlements in *.
    destruct (get_blob construct "CSMAGIC_ENTITLEMENT") as [b|err] eqn:Hget.
    - injection Hrun as <-.
      destruct (get_blob_split _ _ _ _ _ Hdata Hget)
        as (pre & e & post & -> & <- & Hm & Hpre & Hpost).
      rewrite (write_blob_unique _ _ _ _ _ _ _ Hdata Hm Hpre Hpost).
      rewrite get_blob_after_write; auto;
        [|rewrite <- Hm; now destruct (index_blob e)].
      rewrite (write_blob_unique _ _ _ _ _ _ _ Hdata Hm Hpre Hpost).
      erewrite write_blob_unique;
        [|apply blob_data_set_data
         |destruct e as [t o [m l d y c]]; simpl in *; exact Hm
         |assumption|assumption].
      rewrite set_data_twice.
      destruct e as [t o [m l d y c]]. reflexivity.
    - destruct err; try discriminate. injection Hrun as <-. now rewrite Hget. }
  split; [apply Hover|]. now rewrite Hover.
Qed.

(** X13: [set_entitlements] swallows the [KeyError] of a missing entitlements
    blob only: several entitlements blobs stop it with
    [MultipleEntriesException] and their number, and nothing is stored. *)
Theorem set_entitlements_errors
        (entitlements_bytes : string) (construct : Blob) (count : Z)
        (idx : list IndexEntry) :
  blob_data construct = DSuperBlob count idx ->
  (1 < occurrences "CSMAGIC_ENTITLEMENT" idx)%nat ->
  set_entitlements entitlements_bytes construct
  = Raise (MultipleEntriesException (occurrences "CSMAGIC_ENTITLEMENT" idx)).
Proof.
  intros Hdata Hn. unfold set_entitlements.
  rewrite (get_blob_many _ _ idx); [reflexivity | now rewrite Hdata | assumption].
Qed.

(** X17: A signature without a Requirements blob cannot be re-signed, not even
    ad hoc: [resign] stops in [set_requirements] with
    [KeyError('CSMAGIC_REQUIREMENTS')]. *)
Theorem resign_without_requirements
        (signable : Signable) (bundle : Bundle) (signer : Signer)
        (construct : Blob) (count : Z) (idx : list IndexEntry) :
  blob_data construct = DSuperBlob count idx ->
  occurrences "CSMAGIC_REQUIREMENTS" idx = 0%nat ->
  entitlements bundle = None \/ (occurrences "CSMAGIC_ENTITLEMENT" idx <= 1)%nat ->
  resign signable bundle signer construct = Raise (KeyError "CSMAGIC_REQUIREMENTS").
Proof.
  intros Hdata Hreq Hent. unfold resign.
  assert (Hfirst : exists c1 idx1,
             match entitlements bundle with
             | Some entitlements_bytes => set_entitlements entitlements_bytes construct
             | None => Ok construct
             end = Ok c1 /\
             blob_data c1 = DSuperBlob count idx1 /\
             occurrences "CSMAGIC_REQUIREMENTS" idx1 = 0%nat).
  { destruct (entitlements bundle) as [entitlements_bytes|]; [|eauto].
    destruct Hent as [Hent|Hent]; [discriminate|].
    assert (Hok : exists c1, set_entitlements entitlements_bytes construct = Ok c1).
    { unfold set_entitlements.
      destruct (get_blob construct "CSMAGIC_ENTITLEMENT") as [b|err] eqn:Hget; [eauto|].
      destruct (occurrences "CSMAGIC_ENTITLEMENT" idx) as [|[|n]] eqn:Hn; [| |lia].
      - rewrite (get_blob_absent _ _ idx) in Hget;
          [|now rewrite Hdata|assumption].
        injection Hget as <-. eauto.
      - destruct (occurrences_one_split _ _ Hn) as (pre & e & post & Hs & Hm & Hp & Hq).
        rewrite (get_blob_unique _ _ idx pre e post) in Hget;
          auto; [discriminate | now rewrite Hdata]. }
    destruct Hok as [c1 Hok].
    destruct (set_entitlements_occurrences _ _ _ _ _ "CSMAGIC_REQUIREMENTS" Hdata Hok)
      as (idx1 & Hd1 & Ho1).
    exists c1, idx1. split; [assumption|]. split; [assumption | congruence]. }
  destruct Hfirst as (c1 & idx1 & -> & Hd1 & Ho1). cbn [bind].
  unfold set_requirements.
  rewrite (get_blob_absent _ _ idx1); [reflexivity | now rewrite Hd1 | assumption].
Qed.

Lemma positions_from_none magic idx : forall k,
  occurrences magic idx = 0%nat -> positions_from magic k idx = [].
Proof.
  induction idx as [|e idx IH]; simpl; intros k; [reflexivity|].
  destruct (String.eqb (blob_magic (index_blob e)) magic); [discriminate | apply IH].
Qed.

Lemma positions_from_first magic pre e post :
  occurrences magic pre = 0%nat -> blob_magic (index_blob e) = magic ->
  forall k,
    positions_from magic k (pre ++ e :: post)
    = (k + List.length pre)%nat
        :: positions_from magic (S (k + List.length pre)) post.
Proof.
  intros Hpre Hm. induction pre as [|e0 pre IH]; simpl; intros k.
  - rewrite Hm, String.eqb_refl, Nat.add_0_r. reflexivity.
  - simpl in Hpre.
    destruct (String.eqb (blob_magic (index_blob e0)) magic); [discriminate|].
    rewrite (IH Hpre (S k)). now replace (S k + List.length pre)%nat
      with (k + S (List.length pre))%nat by lia.
Qed.

(** X6: A code directory with an unknown hash type stops [set_codedirectory]:
    when the first code directory of the index has at least one special
    slot and the signable lets every slot be filled, the pass raises
    [ValueError] with that hash type, from the first slot it tries that is
    not the application slot. *)
Theorem set_codedirectory_unknown_hash_type
        (signable : Signable) (seal_path info_path : string) (signer : Signer)
        (construct : Blob) (count : Z) (pre post : list IndexEntry)
        (e : IndexEntry) (cd : CodeDirectory) :
  blob_data construct = DSuperBlob count (pre ++ e :: post) ->
  occurrences "CSMAGIC_CODEDIRECTORY" pre = 0%nat ->
  blob_magic (index_blob e) = "CSMAGIC_CODEDIRECTORY" ->
  blob_data (index_blob e) = DCodeDirectory cd ->
  hashType cd <> SHA1_HASHTYPE ->
  hashType cd <> SHA256_HASHTYPE ->
  1 <= nSpecialSlots cd ->
  (forall c slot, should_fill_slot signable c slot = true) ->
  set_codedirectory signable seal_path info_path signer construct
  = Raise (ValueError (hashType cd)).
Proof.
  intros Hdata Hpre Hm Hcd H1 H256 Hn Hfill.
  unfold set_codedirectory, get_codedirectories.
  rewrite Hdata. cbn [data_BlobIndex bind].
  rewrite (positions_from_first _ _ _ _ Hpre Hm 0%nat). cbn [for_each Nat.add].
  assert (Hentry : entry_at construct (List.length pre) = Ok e).
  { unfold entry_at. rewrite Hdata. cbn [data_BlobIndex bind].
    rewrite lookup_app_r by lia. now rewrite Nat.sub_diag. }
  assert (Hcd' : cd_of (index_blob e) = Ok cd) by (unfold cd_of; now rewrite Hcd).
  assert (Hraise : forall slot,
             slot <> ApplicationSlot ->
             has_codedirectory_slot cd slot = true ->
             fill_if_present signable true (List.length pre) slot construct
             = Raise (ValueError (hashType cd))).
  { intros slot Hslot Hhas. unfold fill_if_present.
    rewrite Hentry. cbn [bind]. rewrite Hcd'. cbn [bind]. rewrite Hhas. cbn [andb].
    unfold fill_codedirectory_slot. rewrite Hfill, Hentry. cbn [bind].
    rewrite Hcd'. cbn [bind].
    assert (Hh : get_hash construct slot (hashType cd) = Raise (ValueError (hashType cd))).
    { destruct slot; try contradiction; cbn [get_hash];
        unfold CodeDirectorySlot_get_hash;
        destruct (Z.eqb_spec (hashType cd) SHA1_HASHTYPE); try contradiction;
        destruct (Z.eqb_spec (hashType cd) SHA256_HASHTYPE); try contradiction;
        reflexivity. }
    now rewrite Hh. }
  assert (Hskip : forall guard slot,
             has_codedirectory_slot cd slot && guard = false ->
             fill_if_present signable guard (List.length pre) slot construct
             = Ok construct).
  { intros guard slot Hno. unfold fill_if_present.
    rewrite Hentry. cbn [bind]. rewrite Hcd'. cbn [bind]. now rewrite Hno. }
  unfold fill_slots.
  destruct (has_codedirectory_slot cd EntitlementsSlot && negb (is_adhoc signer))
    eqn:Hent.
  { apply andb_prop in Hent as [Hhas Hadhoc]. rewrite Hadhoc.
    rewrite (Hraise EntitlementsSlot); [reflexivity | discriminate | assumption]. }
  rewrite (Hskip _ _ Hent). cbn [bind].
  destruct (has_codedirectory_slot cd (ResourceDirSlot seal_path)) eqn:Hres.
  { rewrite (Hraise (ResourceDirSlot seal_path)); [reflexivity | discriminate | assumption]. }
  rewrite (Hskip true (ResourceDirSlot seal_path)) by now rewrite Hres. cbn [bind].
  destruct (has_codedirectory_slot cd RequirementsSlot) eqn:Hreq.
  { rewrite (Hraise RequirementsSlot); [reflexivity | discriminate | assumption]. }
  rewrite (Hskip true RequirementsSlot) by now rewrite Hreq. cbn [bind].
  assert (Happ : has_codedirectory_slot cd ApplicationSlot = false).
  { unfold has_codedirectory_slot, get_codedirectory_hash_index in *.
    apply Z.leb_gt in Hreq. apply Z.leb_gt. simpl in *. lia. }
  rewrite (Hskip true ApplicationSlot) by now rewrite Happ. cbn [bind].
  rewrite (Hraise (InfoSlot info_path)); [reflexivity | discriminate |].
  unfold has_codedirectory_slot, get_codedirectory_hash_index.
  apply Z.leb_le. simpl. lia.
Qed.

(** X15: What stops [set_requirements] once it has found the Requirements blob
    and the signer is not ad hoc: a requirement set without entries
    ([IndexError] on [BlobIndex[0]]), and a signer CN rule whose value is
    [None], a number or a string ([AttributeError] on [cn.data = ...],
    outside any [try]), whether or not the bundle id has changed. *)
Theorem set_requirements_errors
        (signable : Signable) (signer : Signer) (construct requirements : Blob)
        (count : Z) :
  get_blob construct "CSMAGIC_REQUIREMENTS" = Ok requirements ->
  is_adhoc signer = false ->
  (blob_data requirements = DSuperBlob count [] ->
   set_requirements signable signer construct = Raise IndexError) /\
  (forall entry_0 later cn,
      blob_data requirements = DSuperBlob count (entry_0 :: later) ->
      find_cn (blob_data (index_blob entry_0)) = Some cn ->
      cn = PNone \/ (exists z, cn = PInt z) \/ (exists s, cn = PStr s) ->
      set_requirements signable signer construct = Raise AttributeError).
Proof.
  intros Hget Hadhoc. unfold set_requirements. rewrite Hget, Hadhoc. cbn [bind].
  split.
  - intros ->. reflexivity.
  - intros entry_0 later cn -> Hcn Hnot. cbn [data_BlobIndex bind].
    assert (Hcn' : find_cn
                     (blob_data
                        match truthy (get_changed_bundle_id signable) with
                        | Some changed_bundle_id =>
                            set_data (patch_bundle_id changed_bundle_id
                                        (blob_data (index_blob entry_0)))
                                     (index_blob entry_0)
                        | None => index_blob entry_0
                        end) = Some cn).
    { destruct (truthy (get_changed_bundle_id signable)); [|assumption].
      now rewrite blob_data_set_data, find_cn_patch. }
    rewrite Hcn'. unfold replace_cn, set_literal.
    destruct Hnot as [-> | [[z ->] | [s ->]]]; reflexivity.
Qed.

End EdgeCases.

Section Resign.
Context `{MachoCS} `{Host}.

Lemma same_places_refl construct count idx :
  blob_data construct = DSuperBlob count idx -> same_places construct construct.
Proof. intros Hd. split; [reflexivity|]. exists count, idx, idx. auto. Qed.

Lemma same_places_trans c c' c'' :
  same_places c c' -> same_places c' c'' -> same_places c c''.
Proof.
  intros (Hm & count & idx & idx' & Hd & Hd' & Hk & Ho)
         (Hm' & count' & idx0 & idx'' & Hd0 & Hd'' & Hk' & Ho').
  rewrite Hd' in Hd0. injection Hd0 as <- <-.
  split; [congruence|]. exists count, idx, idx''.
  repeat split; auto; congruence.
Qed.

Lemma blob_magic_set_data d b : blob_magic (set_data d b) = blob_magic b.
Proof. now destruct b. Qed.

(** Storing a blob under its own magic moves nothing. *)
Lemma write_blob_places magic b' construct count idx :
  blob_data construct = DSuperBlob count idx ->
  blob_magic b' = magic ->
  same_places construct (write_blob magic b' construct).
Proof.
  intros Hd Hm. unfold write_blob. rewrite Hd.
  split; [apply blob_magic_set_data|].
  exists count, idx, (List.map (write_entry magic b') idx).
  split; [assumption|]. split; [apply blob_data_set_data|].
  rewrite !List.map_map. split; apply List.map_ext; intros e; unfold write_entry;
    destruct (String.eqb_spec (blob_magic (index_blob e)) magic) as [He|He];
    try reflexivity; destruct e; unfold entry_kind; simpl in *; congruence.
Qed.

Lemma get_blob_magic construct magic b :
  get_blob construct magic = Ok b -> blob_magic b = magic.
Proof.
  intros Hget.
  assert (Hd : exists count idx, blob_data construct = DSuperBlob count idx).
  { unfold get_blob, get_blobs in Hget.
    destruct (blob_data construct); try discriminate. eauto. }
  destruct Hd as (count & idx & Hd).
  now destruct (get_blob_split _ _ _ _ _ Hd Hget) as (_ & _ & _ & _ & _ & Hm & _).
Qed.

Lemma get_blob_superblob construct magic b :
  get_blob construct magic = Ok b ->
  exists count idx, blob_data construct = DSuperBlob count idx.
Proof.
  unfold get_blob, get_blobs.
  destruct (blob_data construct); try discriminate. eauto.
Qed.

Lemma set_entitlements_places entitlements_bytes construct construct' count idx :
  blob_data construct = DSuperBlob count idx ->
  set_entitlements entitlements_bytes construct = Ok construct' ->
  same_places construct construct'.
Proof.
  intros Hd. unfold set_entitlements.
  destruct (get_blob construct "CSMAGIC_ENTITLEMENT") as [b|err] eqn:Hget.
  - intros [= <-]. apply (write_blob_places _ _ _ count idx Hd).
    apply get_blob_magic in Hget. now destruct b.
  - destruct err; try discriminate. intros [= <-].
    now apply (same_places_refl _ count idx).
Qed.

Lemma set_requirements_places signable signer construct construct' :
  set_requirements signable signer construct = Ok construct' ->
  same_places construct construct'.
Proof.
  unfold set_requirements. intros Hrun.
  apply bind_ok in Hrun as (requirements & Hget & Hrun).
  destruct (get_blob_superblob _ _ _ Hget) as (count & idx & Hd).
  pose proof (get_blob_magic _ _ _ Hget) as Hm.
  assert (Hwrite : forall r', blob_magic r' = blob_magic requirements ->
                              same_places construct
                                (write_blob "CSMAGIC_REQUIREMENTS" r' construct)).
  { intros r' Hr'. apply (write_blob_places _ _ _ count idx Hd). congruence. }
  destruct (is_adhoc signer).
  { injection Hrun as <-. apply Hwrite. now destruct requirements. }
  apply bind_ok in Hrun as (BlobIndex & _ & Hrun).
  destruct BlobIndex as [|entry_0 later]; [discriminate|].
  match type of Hrun with
  | match find_cn ?d with _ => _ end = _ => destruct (find_cn d) as [cn|]
  end.
  - apply bind_ok in Hrun as (data_0 & _ & Hrun).
    apply bind_ok in Hrun as (bytes_0 & _ & Hrun).
    apply bind_ok in Hrun as (bytes & _ & Hrun).
    injection Hrun as <-. apply Hwrite. now destruct requirements.
  - injection Hrun as <-. apply Hwrite. now destruct requirements.
Qed.

Lemma set_signature_places signer construct construct' :
  set_signature signer construct = Ok construct' ->
  same_places construct construct'.
Proof.
  unfold set_signature. intros Hrun.
  apply bind_ok in Hrun as (sigwrapper & Hget & Hrun).
  apply bind_ok in Hrun as (oldsig & _ & Hrun).
  apply bind_ok in Hrun as (cd_hashes & _ & Hrun).
  injection Hrun as <-.
  destruct (get_blob_superblob _ _ _ Hget) as (count & idx & Hd).
  apply (write_blob_places _ _ _ count idx Hd).
  apply get_blob_magic in Hget. now destruct sigwrapper.
Qed.

Lemma map_eq_lookup {A B : Type} (f : A -> B) (l l' : list A) :
  List.length l' = List.length l ->
  (forall i a, l !! i = Some a -> exists a', l' !! i = Some a' /\ f a' = f a) ->
  List.map f l' = List.map f l.
Proof.
  revert l'. induction l as [|a l IH]; intros [|a' l'] Hlen Hall;
    simpl in *; try discriminate; [reflexivity|].
  f_equal.
  - destruct (Hall 0%nat a eq_refl) as (a0 & Ha0 & Hf). simpl in Ha0. congruence.
  - apply IH; [lia|]. intros i x Hi. exact (Hall (S i) x Hi).
Qed.

Lemma set_codedirectory_places signable seal_path info_path signer
      construct construct' :
  set_codedirectory signable seal_path info_path signer construct = Ok construct' ->
  same_places construct construct'.
Proof.
  intros Hrun.
  assert (Hd : exists count idx, blob_data construct = DSuperBlob count idx).
  { unfold set_codedirectory, get_codedirectories in Hrun.
    destruct (blob_data construct); try discriminate. eauto. }
  destruct Hd as (count & idx & Hd).
  destruct (set_codedirectory_effect _ _ _ _ _ _ _ _ Hd Hrun)
    as (idx' & -> & Hl & Hall).
  split; [apply blob_magic_set_data|].
  exists count, idx, idx'. split; [assumption|]. split; [apply blob_data_set_data|].
  assert (Hentry : forall i e, idx !! i = Some e ->
                     exists e', idx' !! i = Some e' /\
                                entry_kind e' = entry_kind e /\
                                index_offset e' = index_offset e).
  { intros i e Hi. destruct (Hall _ _ Hi) as [Hother Hcd].
    destruct (String.eqb_spec (blob_magic (index_blob e)) "CSMAGIC_CODEDIRECTORY")
      as [Hm|Hm]; [|exists e; auto].
    destruct (Hcd Hm) as (e_f & b' & Hf & Hb' & Hi').
    assert (Hcdf : exists cd_f, cd_of (index_blob e_f) = Ok cd_f).
    { unfold rebuild_blob in Hb'. apply bind_ok in Hb' as (cd_f & Hcdf & _). eauto. }
    destruct Hcdf as [cd_f Hcdf].
    destruct (slots_filled_cd _ _ _ _ Hf Hcdf) as (cd & _ & _ & _ & ->).
    destruct (rebuild_blob_fields _ _ _ _ _ Hcdf Hb') as (cd' & bytes & -> & _ & _).
    eexists. split; [exact Hi'|].
    destruct e as [t o [m l d y c]]. split; reflexivity. }
  split; apply map_eq_lookup; auto; intros i e Hi;
    destruct (Hentry i e Hi) as (e' & He' & Hk & Ho); eauto.
Qed.

(** The loop of [update_offsets] gives every entry the offset at which
    the entries before it end. *)
Lemma assign_offsets_result idx : forall b idx',
  assign_offsets b idx = Ok idx' ->
  exists sizes,
    built_sizes idx' sizes /\
    List.map index_offset idx' = cascade b sizes /\
    List.map index_blob idx' = List.map index_blob idx /\
    List.map index_type idx' = List.map index_type idx.
Proof.
  induction idx as [|e idx IH]; simpl; intros b idx'.
  - intros [= <-]. exists []. repeat split; constructor.
  - intros Hrun.
    apply bind_ok in Hrun as (built & Hb & Hrun).
    apply bind_ok in Hrun as (rest & Hrest & Hrun).
    injection Hrun as <-.
    destruct (IH _ _ Hrest) as (sizes & Hs & Ho & Hbl & Ht).
    exists (len built :: sizes). simpl. rewrite Ho, Hbl, Ht.
    repeat split; try (destruct e; reflexivity).
    constructor; [|assumption]. exists built. auto.
Qed.

(** Whenever [update_offsets] returns. *)
Lemma update_offsets_result construct construct' :
  update_offsets construct = Ok construct' ->
  exists count first rest idx' sizes superblob,
    blob_data construct = DSuperBlob count (first :: rest) /\
    construct' = mkBlob (blob_magic construct) (len superblob + 8)
                        (DSuperBlob count idx') (Str superblob)
                        (blob_attr_count construct) /\
    SuperBlob_build (DSuperBlob count idx') = Ok superblob /\
    assign_offsets (index_offset first) (first :: rest) = Ok idx' /\
    built_sizes idx' sizes /\
    List.map index_offset idx' = cascade (index_offset first) sizes /\
    List.map index_blob idx' = List.map index_blob (first :: rest) /\
    List.map index_type idx' = List.map index_type (first :: rest).
Proof.
  unfold update_offsets. intros Hrun.
  destruct (blob_data construct) as [count idx| |] eqn:Hd; try discriminate.
  cbn [data_BlobIndex bind] in Hrun.
  destruct idx as [|first rest]; [discriminate|].
  apply bind_ok in Hrun as (idx' & Hidx & Hrun).
  cbn [set_BlobIndex] in Hrun. rewrite blob_data_set_data in Hrun.
  apply bind_ok in Hrun as (superblob & Hsb & Hrun). injection Hrun as <-.
  destruct (assign_offsets_result _ _ _ Hidx) as (sizes & Hs & Ho & Hbl & Ht).
  exists count, first, rest, idx', sizes, superblob.
  repeat split; auto. destruct construct. simpl in *. now subst.
Qed.

Lemma update_offsets_fix construct construct' :
  update_offsets construct = Ok construct' ->
  update_offsets construct' = Ok construct'.
Proof.
  intros Hrun.
  destruct (update_offsets_result _ _ Hrun)
    as (count & first & rest & idx' & sizes & superblob
        & Hd & -> & Hsb & Hidx & _).
  destruct (assign_offsets_head _ _ _ _ Hidx) as (rest' & Hhead).
  apply assign_offsets_fix in Hidx.
  unfold update_offsets. cbn [blob_data data_BlobIndex bind]. rewrite Hhead.
  replace (index_offset (set_offset (index_offset first) first))
    with (index_offset first) by now destruct first.
  rewrite <- Hhead, Hidx. cbn [bind set_BlobIndex set_data blob_data].
  rewrite Hsb. reflexivity.
Qed.

Lemma blobs_with_blobs magic idx idx' :
  List.map index_blob idx' = List.map index_blob idx ->
  blobs_with magic idx' = blobs_with magic idx.
Proof. unfold blobs_with. now intros ->. Qed.

(** X18: [resign] never adds, drops, reorders or retypes an entry: the index
    it returns has the entries of the index it was given, each with its
    type and the magic of its blob, the same count, and the first entry
    at the offset it had; the magic of the signature stays too. *)
Theorem resign_keeps_index_shape
        (signable : Signable) (bundle : Bundle) (signer : Signer)
        (construct construct' : Blob) (count : Z) (idx : list IndexEntry) :
  blob_data construct = DSuperBlob count idx ->
  resign signable bundle signer construct = Ok construct' ->
  exists idx',
    blob_data construct' = DSuperBlob count idx' /\
    blob_magic construct' = blob_magic construct /\
    List.map index_type idx' = List.map index_type idx /\
    List.map (fun e => blob_magic (index_blob e)) idx'
    = List.map (fun e => blob_magic (index_blob e)) idx /\
    List.head (List.map index_offset idx') = List.head (List.map index_offset idx).
Proof.
  intros Hd Hrun. unfold resign in Hrun.
  apply bind_ok in Hrun as (c1 & H1 & Hrun).
  apply bind_ok in Hrun as (c2 & H2 & Hrun).
  apply bind_ok in Hrun as (c3 & H3 & Hrun).
  apply bind_ok in Hrun as (c4 & H4 & H5).
  assert (P1 : same_places construct c1).
  { destruct (entitlements bundle) as [entitlements_bytes|].
    - exact (set_entitlements_places entitlements_bytes _ _ count idx Hd H1).
    - injection H1 as <-. now apply (same_places_refl _ count idx). }
  pose proof (same_places_trans _ _ _ P1
               (same_places_trans _ _ _ (set_requirements_places _ _ _ _ H2)
                  (same_places_trans _ _ _
                     (set_codedirectory_places _ _ _ _ _ _ H3)
                     (set_signature_places _ _ _ H4))))
    as (Hm & count0 & idx0 & idx4 & Hd0 & Hd4 & Hk & Ho).
  rewrite Hd in Hd0. injection Hd0 as <- <-.
  destruct (update_offsets_result _ _ H5)
    as (count5 & first & rest & idx' & sizes & superblob
        & Hd5 & -> & _ & Hidx & _ & _ & Hbl & Ht).
  rewrite Hd4 in Hd5. injection Hd5 as <- ->.
  exists idx'. split; [reflexivity|]. split; [exact Hm|].
  assert (Htypes : List.map index_type (first :: rest) = List.map index_type idx).
  { apply (f_equal (List.map fst)) in Hk. rewrite !List.map_map in Hk. exact Hk. }
  assert (Hmagics : List.map (fun e => blob_magic (index_blob e)) (first :: rest)
                    = List.map (fun e => blob_magic (index_blob e)) idx).
  { apply (f_equal (List.map snd)) in Hk. rewrite !List.map_map in Hk. exact Hk. }
  split; [congruence|]. split.
  - rewrite <- Hmagics.
    rewrite <- (List.map_map index_blob blob_magic idx'), Hbl.
    now rewrite List.map_map.
  - rewrite <- Ho. destruct (assign_offsets_head _ _ _ _ Hidx) as (rest' & ->).
    now destruct first.
Qed.

(** X19: Whenever [resign] returns, the signature is laid out: each entry
    sits where the entries before it end when their blobs are encoded,
    the signature holds the encoding of its payload and that size plus 8
    as length, the one wrapper blob has a length of its bytes plus 8, and
    another [update_offsets] would change nothing. *)
Theorem resign_result_laid_out
        (signable : Signable) (bundle : Bundle) (signer : Signer)
        (construct construct' : Blob) :
  resign signable bundle signer construct = Ok construct' ->
  exists count first rest sizes superblob sigwrapper,
    blob_data construct' = DSuperBlob count (first :: rest) /\
    built_sizes (first :: rest) sizes /\
    List.map index_offset (first :: rest) = cascade (index_offset first) sizes /\
    SuperBlob_build (blob_data construct') = Ok superblob /\
    blob_bytes construct' = Str superblob /\
    blob_length construct' = len superblob + 8 /\
    get_blob construct' "CSMAGIC_BLOBWRAPPER" = Ok sigwrapper /\
    length_ok sigwrapper /\
    update_offsets construct' = Ok construct'.
Proof.
  intros Hrun. unfold resign in Hrun.
  apply bind_ok in Hrun as (c1 & _ & Hrun).
  apply bind_ok in Hrun as (c2 & _ & Hrun).
  apply bind_ok in Hrun as (c3 & _ & Hrun).
  apply bind_ok in Hrun as (c4 & H4 & H5).
  pose proof (update_offsets_fix _ _ H5) as Hfix.
  destruct (update_offsets_result _ _ H5)
    as (count & first & rest & idx' & sizes & superblob
        & Hd4 & -> & Hsb & Hidx & Hs & Ho & Hbl & _).
  destruct (set_signature_places _ _ _ H4)
    as (_ & count3 & idx3 & idx4 & Hd3 & Hd4' & _).
  destruct (set_signature_length_ok _ _ _ _ _ Hd3 H4) as (sigwrapper & Hw & Hlw).
  destruct (assign_offsets_head _ _ _ _ Hidx) as (rest' & Hhead).
  exists count, (set_offset (index_offset first) first), rest', sizes, superblob,
         sigwrapper.
  rewrite <- Hhead.
  replace (index_offset (set_offset (index_offset first) first))
    with (index_offset first) by now destruct first.
  split; [reflexivity|]. split; [assumption|]. split; [assumption|].
  split; [exact Hsb|]. split; [reflexivity|]. split; [reflexivity|].
  split; [|split; [assumption | exact Hfix]].
  unfold get_blob, get_blobs in *. rewrite Hd4 in Hw.
  cbn [blob_data data_BlobIndex bind] in *.
  now rewrite (blobs_with_blobs _ _ _ Hbl).
Qed.

End Resign.

Section Bounds.
Context `{MachoCS} `{Host}.

(** X2: [fill_codedirectory_slot] on its own, for a slot the signable lets be
    filled and whose hash is [h]: the hash goes to index
    [slot.offset + nSpecialSlots] of the hash array; a negative index
    counts from the end of the array, as Python list indices do, so that
    for a slot the code directory does not have a hash of a later slot or
    of a code slot is overwritten; an index outside the array on either
    side raises [IndexError]. *)
Theorem fill_codedirectory_slot_cases
        (signable : Signable) (i : nat) (slot : Slot) (construct : Blob)
        (e : IndexEntry) (cd : CodeDirectory) (h : string) :
  entry_at construct i = Ok e ->
  blob_data (index_blob e) = DCodeDirectory cd ->
  should_fill_slot signable construct slot = true ->
  get_hash construct slot (hashType cd) = Ok h ->
  let index := slot_offset slot + nSpecialSlots cd in
  let n := Z.of_nat (List.length (hashes cd)) in
  let stored k :=
    Ok (put_blob_at i
          (set_data (DCodeDirectory (set_hashes (<[Z.to_nat k := h]> (hashes cd)) cd))
                    (index_blob e))
          construct) in
  (0 <= index < n ->
   fill_codedirectory_slot signable i slot construct = stored index) /\
  (- n <= index < 0 ->
   fill_codedirectory_slot signable i slot construct = stored (index + n)) /\
  (index < - n \/ n <= index ->
   fill_codedirectory_slot signable i slot construct = Raise IndexError).
Proof.
  intros He Hcd Hfill Hh index n stored.
  unfold fill_codedirectory_slot. rewrite Hfill, He. cbn [bind].
  unfold cd_of. rewrite Hcd. cbn [bind]. rewrite Hh. cbn [bind].
  unfold get_codedirectory_hash_index, list_assign.
  fold index. fold n. subst stored. cbv beta.
  split; [|split]; intros Hrange.
  - destruct (Z.ltb_spec index 0); [lia|].
    destruct (Z.leb_spec 0 index); [|lia].
    destruct (Z.ltb_spec index n); [|lia]. reflexivity.
  - destruct (Z.ltb_spec index 0); [|lia].
    destruct (Z.leb_spec 0 (index + n)); [|lia].
    destruct (Z.ltb_spec (index + n) n); [|lia]. reflexivity.
  - destruct (Z.ltb_spec index 0).
    + destruct (Z.leb_spec 0 (index + n)); [lia|]. reflexivity.
    + destruct (Z.leb_spec 0 index); [|lia].
      destruct (Z.ltb_spec index n); [lia|]. reflexivity.
Qed.

(** X7: [set_entitlements] passes a missing entitlements blob by, the
    entitlements slot does not: when the first code directory has all
    five special slots and a known hash type, the signer is not ad hoc,
    the signable lets the slot be filled and the signature has no
    entitlements blob, [set_codedirectory] raises
    [KeyError('CSMAGIC_ENTITLEMENT')]. *)
Theorem set_codedirectory_missing_entitlements
        (signable : Signable) (seal_path info_path : string) (signer : Signer)
        (construct : Blob) (count : Z) (pre post : list IndexEntry)
        (e : IndexEntry) (cd : CodeDirectory) :
  blob_data construct = DSuperBlob count (pre ++ e :: post) ->
  occurrences "CSMAGIC_CODEDIRECTORY" pre = 0%nat ->
  blob_magic (index_blob e) = "CSMAGIC_CODEDIRECTORY" ->
  blob_data (index_blob e) = DCodeDirectory cd ->
  hashType cd = SHA1_HASHTYPE \/ hashType cd = SHA256_HASHTYPE ->
  5 <= nSpecialSlots cd ->
  is_adhoc signer = false ->
  should_fill_slot signable construct EntitlementsSlot = true ->
  occurrences "CSMAGIC_ENTITLEMENT" (pre ++ e :: post) = 0%nat ->
  set_codedirectory signable seal_path info_path signer construct
  = Raise (KeyError "CSMAGIC_ENTITLEMENT").
Proof.
  intros Hdata Hpre Hm Hcd Hht Hn Hadhoc Hfill Hent.
  unfold set_codedirectory, get_codedirectories.
  rewrite Hdata. cbn [data_BlobIndex bind].
  rewrite (positions_from_first _ _ _ _ Hpre Hm 0%nat). cbn [for_each Nat.add].
  assert (Hentry : entry_at construct (List.length pre) = Ok e).
  { unfold entry_at. rewrite Hdata. cbn [data_BlobIndex bind].
    rewrite lookup_app_r by lia. now rewrite Nat.sub_diag. }
  assert (Hcd' : cd_of (index_blob e) = Ok cd) by (unfold cd_of; now rewrite Hcd).
  assert (Hcontents : get_contents construct EntitlementsSlot
                      = Raise (KeyError "CSMAGIC_ENTITLEMENT")).
  { cbn [get_contents]. unfold get_blob_data.
    rewrite (get_blob_absent _ _ (pre ++ e :: post));
      [reflexivity | now rewrite Hdata | assumption]. }
  assert (Hh : get_hash construct EntitlementsSlot (hashType cd)
               = Raise (KeyError "CSMAGIC_ENTITLEMENT")).
  { cbn [get_hash]. unfold CodeDirectorySlot_get_hash. rewrite Hcontents.
    destruct Hht as [-> | ->]; rewrite ?Z.eqb_refl;
      [reflexivity | now destruct (SHA256_HASHTYPE =? SHA1_HASHTYPE)%Z]. }
  unfold fill_slots, fill_if_present.
  rewrite Hentry. cbn [bind]. rewrite Hcd'. cbn [bind]. rewrite Hadhoc.
  assert (Hhas : has_codedirectory_slot cd EntitlementsSlot = true).
  { unfold has_codedirectory_slot, get_codedirectory_hash_index.
    apply Z.leb_le. simpl. lia. }
  rewrite Hhas. cbn [negb andb].
  unfold fill_codedirectory_slot. rewrite Hfill, Hentry. cbn [bind].
  rewrite Hcd'. cbn [bind]. now rewrite Hh.
Qed.

(** X14: With an ad-hoc signer [set_requirements] puts an attribute
    [count = 0] on the Requirements blob object and returns: the blob's
    payload with its own count and entries, its bytes and its length, and
    everything else in the signature, are as they were, and the entries of
    the requirement set are not even looked at. *)
Theorem set_requirements_adhoc_frame
        (signable : Signable) (signer : Signer) (construct : Blob) (count : Z)
        (pre post : list IndexEntry) (e : IndexEntry) :
  blob_data construct = DSuperBlob count (pre ++ e :: post) ->
  blob_magic (index_blob e) = "CSMAGIC_REQUIREMENTS" ->
  occurrences "CSMAGIC_REQUIREMENTS" pre = 0%nat ->
  occurrences "CSMAGIC_REQUIREMENTS" post = 0%nat ->
  is_adhoc signer = true ->
  set_requirements signable signer construct
  = Ok (set_data
          (DSuperBlob count
             (pre ++
              mkIndex (index_type e) (index_offset e)
                (mkBlob "CSMAGIC_REQUIREMENTS" (blob_length (index_blob e))
                        (blob_data (index_blob e)) (blob_bytes (index_blob e))
                        (Some 0))
              :: post))
          construct).
Proof.
  intros Hdata Hm Hpre Hpost Hadhoc.
  rewrite (set_requirements_adhoc signable signer construct (index_blob e) Hadhoc).
  - rewrite (write_blob_unique _ _ _ _ _ _ _ Hdata Hm Hpre Hpost).
    destruct e as [t o [m l d y c]]. simpl in *. now subst m.
  - apply (get_blob_unique construct _ (pre ++ e :: post) pre e post); auto.
    now rewrite Hdata.
Qed.

Lemma assign_offsets_raise pre : forall sizes b e post err,
  built_sizes pre sizes ->
  Blob_build (index_blob e) = Raise err ->
  assign_offsets b (pre ++ e :: post) = Raise err.
Proof.
  induction pre as [|e0 pre IH]; intros sizes b e post err Hs Hraise.
  - simpl. rewrite index_blob_set_offset, Hraise. reflexivity.
  - inversion Hs as [|e1 s l l' (built & Hb & ->) Hrest]; subst.
    simpl. rewrite index_blob_set_offset, Hb. cbn [bind].
    now rewrite (IH _ _ _ _ _ Hrest Hraise).
Qed.

(** X16: What stops [update_offsets]: an index without entries ([IndexError]
    on [BlobIndex[0]]), and the first entry whose blob does not encode,
    with the error of that encoding. *)
Theorem update_offsets_errors (construct : Blob) :
  (forall count,
      blob_data construct = DSuperBlob count [] ->
      update_offsets construct = Raise IndexError) /\
  (forall count pre e post sizes err,
      blob_data construct = DSuperBlob count (pre ++ e :: post) ->
      built_sizes pre sizes ->
      Blob_build (index_blob e) = Raise err ->
      update_offsets construct = Raise err).
Proof.
  unfold update_offsets. split.
  - intros count ->. reflexivity.
  - intros count pre e post sizes err -> Hs Hraise. cbn [data_BlobIndex bind].
    destruct (pre ++ e :: post) as [|first rest] eqn:Hsplit;
      [now destruct pre|].
    rewrite <- Hsplit.
    now rewrite (assign_offsets_raise _ _ _ _ _ _ Hs Hraise).
Qed.

End Bounds.

(** ** The passes on the synthetic signature *)

#[local] Existing Instance SpecCodec.codec.
#[local] Existing Instance Sample.host.

Import Sample.

(** The Requirements blob of the sample is found; two wrappers are refused
    with their number; a missing magic is a [KeyError]. *)
Lemma get_blob_cases_witness :
  get_blob signature "CSMAGIC_REQUIREMENTS" = Ok requirements /\
  get_blob signature_two_wrappers "CSMAGIC_BLOBWRAPPER"
  = Raise (MultipleEntriesException 2) /\
  get_blob signature_two_wrappers "CSMAGIC_ENTITLEMENT"
  = Raise (KeyError "CSMAGIC_ENTITLEMENT").
Proof.
  split; [|split].
  - destruct (get_blob_cases signature "CSMAGIC_REQUIREMENTS" (index_of signature)
                             eq_refl) as (_ & _ & _ & Hone & _).
    exact (Hone (before signature 1) (entry signature 1) (after signature 1)
                eq_refl eq_refl eq_refl eq_refl).
  - destruct (get_blob_cases signature_two_wrappers "CSMAGIC_BLOBWRAPPER"
                             (index_of signature_two_wrappers) eq_refl)
      as (_ & _ & Htwo & _).
    exact (Htwo eq_refl).
  - destruct (get_blob_cases signature_two_wrappers "CSMAGIC_ENTITLEMENT"
                             (index_of signature_two_wrappers) eq_refl)
      as (Hnone & _).
    exact (Hnone eq_refl).
Defined.

(** New entitlements on the sample: the blob holds them with length 17. *)
Lemma set_entitlements_cases_witness :
  exists construct',
    set_entitlements "<new-ent>" signature = Ok construct' /\
    get_blob construct' "CSMAGIC_ENTITLEMENT"
    = Ok (mkBlob "CSMAGIC_ENTITLEMENT" 17 (DDyn (PCont [("data", PStr "<ent>")]))
                 (Str "<new-ent>") None).
Proof.
  eexists. split.
  - exact (proj2 (set_entitlements_cases signature 4 (index_of signature)
                                         "<new-ent>" eq_refl)
                 (before signature 2) (entry signature 2) (after signature 2)
                 eq_refl eq_refl eq_refl eq_refl).
  - vm_compute. reflexivity.
Defined.

(** Hash type 3 on the sample: the entitlements slot raises, the
    application slot answers 32 bytes. *)
Lemma get_hash_unsupported_witness :
  get_hash signature EntitlementsSlot 3 = Raise (ValueError 3) /\
  exists digest,
    get_hash signature ApplicationSlot 3 = Ok digest /\
    String.length digest = 32%nat.
Proof.
  assert (H1 : 3 <> SHA1_HASHTYPE) by (vm_compute; discriminate).
  assert (H2 : 3 <> SHA256_HASHTYPE) by (vm_compute; discriminate).
  destruct (get_hash_unsupported signature EntitlementsSlot 3)
    as [Ha (digest & Hb & _ & _ & Hlen)].
  split; [apply Ha; [exact H1 | exact H2 | discriminate]|].
  exists digest. split; [exact Hb | exact (Hlen H1)].
Defined.

(** C6, refuted as stated: not every slot variant raises on an unsupported
    hash type; the application slot returns. *)
Lemma application_slot_accepts_any_hash_type :
  ~ (forall (slot : Slot) (hash_type : Z),
        hash_type <> SHA1_HASHTYPE -> hash_type <> SHA256_HASHTYPE ->
        exists err, get_hash signature slot hash_type = Raise err).
Proof.
  intros Hall.
  destruct (Hall ApplicationSlot 3) as [err Herr];
    [vm_compute; discriminate | vm_compute; discriminate | discriminate Herr].
Qed.



(** C1, refuted as stated: on the sample without a CN rule a longer bundle
    id goes into the tree of entry 0, and [set_requirements] returns with
    entry 0 still carrying the bytes and the length of the old tree. *)
Lemma set_requirements_without_cn_stale :
  exists construct',
    set_requirements (signable (Some "com.example.application")) signer
                     signature_without_cn = Ok construct' /\
    ~ requirements_reencoded construct'.
Proof.
  eexists. split.
  - vm_compute. reflexivity.
  - intros (r & e0 & lt & b0 & b & Hget & Hidx & Hrb & Hraw & Hlen & _).
    vm_compute in Hget. injection Hget as <-.
    vm_compute in Hidx. injection Hidx as <- <-.
    vm_compute in Hrb. injection Hrb as <-.
    vm_compute in Hlen. discriminate Hlen.
Qed.

(** The sample with its CN rule and a longer bundle id: [set_requirements]
    returns and leaves the Requirements blob re-encoded. *)
Lemma set_requirements_with_cn_witness :
  exists construct',
    set_requirements (signable (Some "com.example.application")) signer
                     signature = Ok construct' /\
    requirements_reencoded construct'.
Proof.
  assert (Hrun : exists construct',
             set_requirements (signable (Some "com.example.application")) signer
                              signature = Ok construct')
    by (eexists; vm_compute; reflexivity).
  destruct Hrun as [construct' Hrun]. exists construct'. split; [exact Hrun|].
  destruct (set_requirements_with_cn
              (signable (Some "com.example.application")) signer signature 4
              (before signature 1) (after signature 1) (entry signature 1) 2
              (entry requirements 0) (after requirements 0)
              eq_refl eq_refl eq_refl eq_refl eq_refl eq_refl
              (literal "Old CN") construct')
    as [Hfound _].
  destruct (Hfound eq_refl Hrun)
    as (r & b0 & l' & t & t' & cn' & y0 & y & Hre).
  apply Hre.
Defined.

(** The sample laid out again: sizes 194, 156, 13 and 14 from base 44. *)
Lemma update_offsets_cascade_witness :
  exists idx',
    List.map index_offset idx' = [44; 238; 394; 407] /\
    List.map index_blob idx' = List.map index_blob (index_of signature).
Proof.
  assert (Hsizes : built_sizes (entry signature 0 :: after signature 0)
                               [194; 156; 13; 14]).
  { repeat (constructor; [eexists; split; [vm_compute; reflexivity | reflexivity]|]).
    constructor. }
  destruct (update_offsets_cascade signature 4 (entry signature 0)
                                   (after signature 0) [194; 156; 13; 14]
                                   eq_refl Hsizes)
    as (idx' & Ho & _ & Hb & _).
  exists idx'. split; [exact Ho | exact Hb].
Defined.

(** Both sides of the idempotence law are results on the sample. *)
Example update_offsets_twice_sample :
  exists construct',
    update_offsets signature = Ok construct' /\
    update_offsets construct' = Ok construct'.
Proof.
  eexists. split; [vm_compute; reflexivity | vm_compute; reflexivity].
Qed.

(** The sample with an identifier one byte longer: [hashOffset] goes from
    174 to 175, [teamIDOffset] from 68 to 69, the declared length from 194
    to 195. *)
Lemma set_codedirectory_changed_ident_witness :
  exists construct' e' cd',
    set_codedirectory (signable (Some "com.example.app2"))
                      "_CodeSignature/CodeResources" "Info.plist" signer
                      signature = Ok construct' /\
    index_of construct' !! 0%nat = Some e' /\
    blob_data (index_blob e') = DCodeDirectory cd' /\
    ident cd' = "com.example.app2" /\
    hashOffset cd' = 175 /\
    teamIDOffset cd' = Some 69 /\
    blob_length (index_blob e') = 195.
Proof.
  assert (Hrun : exists construct',
             set_codedirectory (signable (Some "com.example.app2"))
                               "_CodeSignature/CodeResources" "Info.plist"
                               signer signature = Ok construct')
    by (eexists; vm_compute; reflexivity).
  destruct Hrun as [construct' Hrun].
  destruct (set_codedirectory_changed_ident
              (signable (Some "com.example.app2"))
              "_CodeSignature/CodeResources" "Info.plist" signer
              signature construct' 4 (index_of signature) "com.example.app2"
              eq_refl eq_refl Hrun)
    as (idx' & Hdata' & Hall).
  destruct (Hall 0%nat (entry signature 0) (code_directory 5 1 "OLDTM")
                 eq_refl eq_refl eq_refl)
    as (e' & cd' & He' & Hcd' & Hident & Hho & Hto & Hlen & _).
  exists construct', e', cd'.
  split; [exact Hrun|]. split; [unfold index_of; rewrite Hdata'; exact He'|].
  split; [exact Hcd'|]. split; [exact Hident|]. split; [exact Hho|].
  split; [exact Hto | exact Hlen].
Defined.

(** C4, on the sample with an ad-hoc signer: [set_requirements] returns
    with an attribute [count = 0] on the Requirements blob object and with
    the payload (its own count of 2 and both entries), the stored bytes and
    the length of 156 as they were, so that the blob still encodes to the
    same bytes; an empty requirement set would encode to a payload of 4
    bytes, a blob of length 12. *)
Theorem adhoc_requirements_keep_their_encoding :
  exists construct' requirements',
    set_requirements (signable None) adhoc_signer signature = Ok construct' /\
    get_blob construct' "CSMAGIC_REQUIREMENTS" = Ok requirements' /\
    blob_attr_count requirements' = Some 0 /\
    blob_data requirements' = blob_data requirements /\
    (exists idx, blob_data requirements' = DSuperBlob 2 idx /\
                 List.length idx = 2%nat) /\
    blob_bytes requirements' = blob_bytes requirements /\
    blob_length requirements' = 156 /\
    get_blob_data construct' "CSMAGIC_REQUIREMENTS"
    = get_blob_data signature "CSMAGIC_REQUIREMENTS" /\
    (exists empty, Entitlements_build (DSuperBlob 0 []) = Ok empty /\
                   len empty + 8 = 12).
Proof.
  eexists. eexists.
  split; [vm_compute; reflexivity|].
  split; [vm_compute; reflexivity|].
  split; [reflexivity|]. split; [reflexivity|].
  split; [eexists; split; reflexivity|].
  split; [reflexivity|]. split; [reflexivity|].
  split; [vm_compute; reflexivity|].
  eexists. split; [vm_compute; reflexivity | vm_compute; reflexivity].
Qed.

(** The other half of the ad-hoc scenario: [resign] with entitlements
    supplied stores them in the entitlements blob and leaves hash slot 0 of
    the code directory, the entitlements slot, as it was. *)
Example adhoc_resign_skips_entitlements_slot :
  exists construct' e cd entitlements',
    resign (signable None) bundle adhoc_signer signature = Ok construct' /\
    index_of construct' !! 0%nat = Some e /\
    blob_data (index_blob e) = DCodeDirectory cd /\
    hashes cd !! 0%nat = Some (zeros 20) /\
    hashes (code_directory 5 1 "OLDTM") !! 0%nat = Some (zeros 20) /\
    get_blob construct' "CSMAGIC_ENTITLEMENT" = Ok entitlements' /\
    blob_bytes entitlements' = Str "<new-ent>".
Proof.
  do 4 eexists.
  split; [vm_compute; reflexivity|].
  split; [vm_compute; reflexivity|].
  split; [vm_compute; reflexivity|].
  split; [vm_compute; reflexivity|].
  split; [vm_compute; reflexivity|].
  split; [vm_compute; reflexivity|].
  reflexivity.
Qed.

(** C8, on a code directory that keeps its team identifier after the hash
    array: the parsed blob declares 194 = 8 + 186; [set_codedirectory] with
    a signer whose team identifier is five bytes longer, and no change of
    bundle id, stores 191 rebuilt bytes and leaves the declared length at
    194. *)
Theorem team_id_of_other_length_breaks_declared_length :
  length_ok cd_blob_team_last /\
  exists construct' cd_blob',
    set_codedirectory (signable None) "_CodeSignature/CodeResources"
                      "Info.plist" signer_long_team signature_team_last
    = Ok construct' /\
    get_blob construct' "CSMAGIC_CODEDIRECTORY" = Ok cd_blob' /\
    blob_length cd_blob' = 194 /\
    len (raw (blob_bytes cd_blob')) = 191 /\
    ~ length_ok cd_blob'.
Proof.
  split; [vm_compute; reflexivity|].
  eexists. eexists.
  split; [vm_compute; reflexivity|].
  split; [vm_compute; reflexivity|].
  split; [reflexivity|]. split; [vm_compute; reflexivity|].
  unfold length_ok. vm_compute. discriminate.
Qed.

(** On the sample, [set_codedirectory] leaves the Requirements entry and
    the place of the code directory as they were. *)
Lemma set_codedirectory_frame_witness :
  exists construct' e',
    set_codedirectory (signable None) "_CodeSignature/CodeResources" "Info.plist"
                      signer signature = Ok construct' /\
    index_of construct' !! 1%nat = Some (entry signature 1) /\
    index_of construct' !! 0%nat = Some e' /\
    index_type e' = 0 /\ index_offset e' = 44.
Proof.
  assert (Hrun : exists construct',
             set_codedirectory (signable None)
                               "_CodeSignature/CodeResources" "Info.plist"
                               signer signature = Ok construct')
    by (eexists; vm_compute; reflexivity).
  destruct Hrun as [construct' Hrun].
  destruct (set_codedirectory_frame
              (signable None) "_CodeSignature/CodeResources" "Info.plist" signer
              signature construct' 4 (index_of signature) eq_refl Hrun)
    as (idx' & Hc & _ & Hall).
  destruct (Hall 1%nat (entry signature 1) eq_refl)
    as (e1 & He1 & _ & _ & _ & _ & Hsame).
  destruct (Hall 0%nat (entry signature 0) eq_refl)
    as (e0 & He0 & Ht & Ho & _).
  exists construct', e0.
  assert (Hidx : index_of construct' = idx')
    by (unfold index_of; rewrite Hc; reflexivity).
  rewrite Hidx. split; [exact Hrun|].
  split; [rewrite He1; f_equal; apply Hsame; vm_compute; discriminate|].
  split; [exact He0|]. split; [exact Ht | exact Ho].
Defined.

(** On the sample with an ad-hoc signer, the hash of the entitlements slot
    (index 0 of 5) and the hash of the code slot (index 5) are the ones the
    code directory had. *)
Lemma set_codedirectory_hash_array_witness :
  exists construct' e' cd',
    set_codedirectory (signable None) "_CodeSignature/CodeResources" "Info.plist"
                      adhoc_signer signature = Ok construct' /\
    index_of construct' !! 0%nat = Some e' /\
    blob_data (index_blob e') = DCodeDirectory cd' /\
    List.length (hashes cd') = 6%nat /\
    hashes cd' !! 0%nat = Some (zeros 20) /\
    hashes cd' !! 5%nat = Some (zeros 20).
Proof.
  assert (Hrun : exists construct',
             set_codedirectory (signable None)
                               "_CodeSignature/CodeResources" "Info.plist"
                               adhoc_signer signature = Ok construct')
    by (eexists; vm_compute; reflexivity).
  destruct Hrun as [construct' Hrun].
  destruct (set_codedirectory_hash_array
              (signable None) "_CodeSignature/CodeResources" "Info.plist"
              adhoc_signer signature construct' 4 (index_of signature)
              eq_refl Hrun)
    as (idx' & Hd' & Hall).
  destruct (Hall 0%nat (entry signature 0) eq_refl eq_refl)
    as (e' & cd & cd' & He' & Hcd & Hcd' & Hn & _ & Hlen & Hk).
  assert (cd = code_directory 5 1 "OLDTM") as ->
    by (vm_compute in Hcd; now injection Hcd).
  exists construct', e', cd'.
  split; [exact Hrun|]. split; [unfold index_of; rewrite Hd'; exact He'|].
  split; [exact Hcd'|]. split; [exact Hlen|]. split.
  - destruct (decide (hashes cd' !! 0%nat
                      = hashes (code_directory 5 1 "OLDTM") !! 0%nat)) as [Heq|Hne];
      [exact Heq|].
    destruct (Hk 0%nat Hne) as [_ Hent]. now specialize (Hent eq_refl).
  - destruct (decide (hashes cd' !! 5%nat
                      = hashes (code_directory 5 1 "OLDTM") !! 5%nat)) as [Heq|Hne];
      [exact Heq|].
    destruct (Hk 5%nat Hne) as [Hrange _]. simpl in Hrange. lia.
Defined.

(** On the sample, the code directory ends up with the signer's team
    identifier, its old identifier and the bytes of its own encoding. *)
Lemma set_codedirectory_rebuilds_witness :
  exists construct' e' cd' bytes,
    set_codedirectory (signable None) "_CodeSignature/CodeResources" "Info.plist"
                      signer signature = Ok construct' /\
    index_of construct' !! 0%nat = Some e' /\
    blob_data (index_blob e') = DCodeDirectory cd' /\
    teamID cd' = Some "TEAM1" /\
    ident cd' = "com.example.app" /\
    CodeDirectory_build (DCodeDirectory cd') = Ok bytes /\
    blob_bytes (index_blob e') = Str bytes.
Proof.
  assert (Hrun : exists construct',
             set_codedirectory (signable None)
                               "_CodeSignature/CodeResources" "Info.plist"
                               signer signature = Ok construct')
    by (eexists; vm_compute; reflexivity).
  destruct Hrun as [construct' Hrun].
  destruct (set_codedirectory_rebuilds
              (signable None) "_CodeSignature/CodeResources" "Info.plist"
              signer signature construct' 4 (index_of signature)
              eq_refl Hrun)
    as (idx' & Hd' & Hall).
  destruct (Hall 0%nat (entry signature 0) eq_refl eq_refl)
    as (e' & cd & cd' & bytes & He' & Hcd & Hcd' & Ht & Hid & _ & Hb & Hbytes).
  assert (cd = code_directory 5 1 "OLDTM") as ->
    by (vm_compute in Hcd; now injection Hcd).
  exists construct', e', cd', bytes.
  split; [exact Hrun|]. split; [unfold index_of; rewrite Hd'; exact He'|].
  split; [exact Hcd'|]. split; [exact Ht|]. split; [exact Hid|].
  split; [exact Hb | exact Hbytes].
Defined.

(** With five special slots the entitlements slot is present, at index 0. *)
Lemma slot_index_law_witness :
  0 <= get_codedirectory_hash_index (code_directory 5 1 "OLDTM") EntitlementsSlot < 5.
Proof.
  destruct (slot_index_law (code_directory 5 1 "OLDTM") EntitlementsSlot)
    as (_ & _ & Hrange & _).
  apply Hrange. reflexivity.
Defined.

(** The sample has one code directory, hence one record, of hash type 1. *)
Lemma get_codedirectory_hashes_records_witness :
  exists record,
    get_codedirectory_hashes signature = Ok [record] /\
    record_hashType record = 1.
Proof.
  assert (Hrun : exists record, get_codedirectory_hashes signature = Ok [record])
    by (eexists; vm_compute; reflexivity).
  destruct Hrun as [record Hrun]. exists record. split; [exact Hrun|].
  pose proof (proj1 (get_codedirectory_hashes_records
                       signature 4 (index_of signature) [record] eq_refl) Hrun)
    as Hall.
  change (blobs_with "CSMAGIC_CODEDIRECTORY" (index_of signature))
    with [cd_blob] in Hall.
  inversion Hall as [|cd r l l' (data & d & _ & Hd & Hr) _]; subst.
  vm_compute in Hd. injection Hd as <-. reflexivity.
Defined.

(** On the sample the wrapper, last of four entries, ends up with the six
    bytes of the new signature and a length of 14. *)
Lemma set_signature_effect_witness :
  exists construct',
    set_signature signer signature = Ok construct' /\
    index_of construct' !! 3%nat
    = Some (mkIndex 65536 407
              (mkBlob "CSMAGIC_BLOBWRAPPER" 14
                      (DDyn (PCont [("data", PStr "NEWSIG")])) (Str "NEWSIG") None)) /\
    before construct' 3 = before signature 3.
Proof.
  assert (Hh : exists cd_hashes, get_codedirectory_hashes signature = Ok cd_hashes)
    by (eexists; vm_compute; reflexivity).
  destruct Hh as [cd_hashes Hh].
  pose proof (set_signature_effect signer signature 4 (before signature 3) []
                (entry signature 3) "OLDSIG" cd_hashes
                eq_refl eq_refl eq_refl eq_refl eq_refl Hh) as Hrun.
  eexists. split; [exact Hrun|]. split; reflexivity.
Defined.

(** Two wrapper blobs stop [set_signature]. *)
Lemma set_signature_errors_witness :
  set_signature signer signature_two_wrappers = Raise (MultipleEntriesException 2).
Proof.
  destruct (set_signature_errors signer signature_two_wrappers 3
              (index_of signature_two_wrappers) eq_refl)
    as (_ & Hmany & _).
  apply Hmany. vm_compute. lia.
Defined.

(** On the sample a second signing stops at the wrapper's bytes. *)
Lemma set_signature_not_repeatable_witness :
  exists construct',
    set_signature signer signature = Ok construct' /\
    set_signature adhoc_signer construct' = Raise AttributeError.
Proof.
  assert (Hrun : exists construct', set_signature signer signature = Ok construct')
    by (eexists; vm_compute; reflexivity).
  destruct Hrun as [construct' Hrun]. exists construct'.
  split; [exact Hrun|].
  exact (set_signature_not_repeatable signer adhoc_signer signature construct' Hrun).
Defined.

(** On the sample, entitlements given twice leave what the second gives. *)
Lemma set_entitlements_overwrites_witness :
  exists construct_1,
    set_entitlements "<first>" signature = Ok construct_1 /\
    set_entitlements "<second>" construct_1 = set_entitlements "<second>" signature.
Proof.
  assert (Hrun : exists construct_1,
             set_entitlements "<first>" signature = Ok construct_1)
    by (eexists; vm_compute; reflexivity).
  destruct Hrun as [construct_1 Hrun]. exists construct_1.
  split; [exact Hrun|].
  exact (proj1 (set_entitlements_overwrites "<first>" "<second>" signature
                  construct_1 Hrun)).
Defined.

(** Two entitlements blobs stop [set_entitlements]. *)
Lemma set_entitlements_errors_witness :
  set_entitlements "<ent>" signature_two_entitlements
  = Raise (MultipleEntriesException 2).
Proof.
  apply (set_entitlements_errors "<ent>" signature_two_entitlements 3
           (index_of signature_two_entitlements) eq_refl).
  vm_compute. lia.
Defined.

(** The sample without its Requirements blob cannot be re-signed. *)
Lemma resign_without_requirements_witness :
  resign (signable None) bundle signer signature_without_requirements
  = Raise (KeyError "CSMAGIC_REQUIREMENTS").
Proof.
  apply (resign_without_requirements (signable None) bundle signer
           signature_without_requirements 3
           (index_of signature_without_requirements) eq_refl eq_refl).
  right. vm_compute. lia.
Defined.

(** A code directory of hash type 3 with five special slots. *)
Lemma set_codedirectory_unknown_hash_type_witness :
  set_codedirectory (signable None) "_CodeSignature/CodeResources" "Info.plist"
                    signer signature_unknown_hash
  = Raise (ValueError 3).
Proof.
  apply (set_codedirectory_unknown_hash_type
           (signable None) "_CodeSignature/CodeResources" "Info.plist" signer
           signature_unknown_hash 3
           (before signature_unknown_hash 1) (after signature_unknown_hash 1)
           (entry signature_unknown_hash 1) code_directory_unknown_hash
           eq_refl eq_refl eq_refl eq_refl).
  - vm_compute. discriminate.
  - vm_compute. discriminate.
  - vm_compute. discriminate.
  - intros c slot. reflexivity.
Defined.

(** A requirement set without entries, and a signer CN rule that holds
    [None] where the name would be. *)
Lemma set_requirements_errors_witness :
  set_requirements (signable None) signer (signature_with requirements_empty)
  = Raise IndexError /\
  set_requirements (signable None) signer (signature_with requirements_cn_exists)
  = Raise AttributeError.
Proof.
  split.
  - destruct (set_requirements_errors
                (signable None) signer (signature_with requirements_empty)
                requirements_empty 0 eq_refl eq_refl) as [Hempty _].
    apply Hempty. reflexivity.
  - destruct (set_requirements_errors
                (signable None) signer (signature_with requirements_cn_exists)
                requirements_cn_exists 1 eq_refl eq_refl) as [_ Hcn].
    apply (Hcn (entry requirements_cn_exists 0) [] PNone eq_refl eq_refl).
    left. reflexivity.
Defined.

(** Re-signing the sample leaves its four entries with their types and
    magics, the first at offset 44. *)
Lemma resign_keeps_index_shape_witness :
  exists construct' idx',
    resign (signable None) bundle signer signature = Ok construct' /\
    blob_data construct' = DSuperBlob 4 idx' /\
    List.map index_type idx' = [0; 2; 5; 65536] /\
    List.map (fun e => blob_magic (index_blob e)) idx'
    = ["CSMAGIC_CODEDIRECTORY"; "CSMAGIC_REQUIREMENTS"; "CSMAGIC_ENTITLEMENT";
       "CSMAGIC_BLOBWRAPPER"] /\
    List.head (List.map index_offset idx') = Some 44.
Proof.
  assert (Hrun : exists construct',
             resign (signable None) bundle signer signature = Ok construct')
    by (eexists; vm_compute; reflexivity).
  destruct Hrun as [construct' Hrun].
  destruct (resign_keeps_index_shape (signable None) bundle signer signature
              construct' 4 (index_of signature) eq_refl Hrun)
    as (idx' & Hd' & _ & Ht & Hm & Ho).
  exists construct', idx'. split; [exact Hrun|]. split; [exact Hd'|].
  split; [exact Ht|]. split; [exact Hm | exact Ho].
Defined.

(** Re-signing the sample gives a signature that [update_offsets] maps
    to itself and whose length is that of its bytes plus 8. *)
Lemma resign_result_laid_out_witness :
  exists construct',
    resign (signable None) bundle signer signature = Ok construct' /\
    length_ok construct' /\
    update_offsets construct' = Ok construct'.
Proof.
  assert (Hrun : exists construct',
             resign (signable None) bundle signer signature = Ok construct')
    by (eexists; vm_compute; reflexivity).
  destruct Hrun as [construct' Hrun].
  destruct (resign_result_laid_out (signable None) bundle signer signature
              construct' Hrun)
    as (count & first & rest & sizes & superblob & sigwrapper
        & _ & _ & _ & _ & Hb & Hl & _ & _ & Hfix).
  exists construct'. split; [exact Hrun|]. split; [|exact Hfix].
  unfold length_ok. rewrite Hl, Hb. simpl. lia.
Defined.

(** With one special slot the requirements slot has index -1: its hash
    lands on the last place of the array, the hash of the code slot. *)
Lemma fill_codedirectory_slot_cases_witness :
  exists construct' e' cd' h,
    get_hash signature_one_slot RequirementsSlot 1 = Ok h /\
    fill_codedirectory_slot (signable None) 0 RequirementsSlot signature_one_slot
    = Ok construct' /\
    index_of construct' !! 0%nat = Some e' /\
    blob_data (index_blob e') = DCodeDirectory cd' /\
    hashes cd' = [zeros 20; h].
Proof.
  assert (Hh : exists h, get_hash signature_one_slot RequirementsSlot 1 = Ok h)
    by (eexists; vm_compute; reflexivity).
  destruct Hh as [h Hh].
  destruct (fill_codedirectory_slot_cases
              (signable None) 0 RequirementsSlot signature_one_slot
              (entry signature_one_slot 0) (code_directory 1 1 "OLDTM") h
              eq_refl eq_refl eq_refl Hh)
    as (_ & Hwrap & _).
  eexists _, _, _, h. split; [exact Hh|].
  split; [apply Hwrap; vm_compute; split; [discriminate | reflexivity]|].
  split; [reflexivity|]. split; reflexivity.
Defined.

(** A signature with a full code directory and no entitlements blob. *)
Lemma set_codedirectory_missing_entitlements_witness :
  set_codedirectory (signable None) "_CodeSignature/CodeResources" "Info.plist"
                    signer signature_two_wrappers
  = Raise (KeyError "CSMAGIC_ENTITLEMENT").
Proof.
  apply (set_codedirectory_missing_entitlements
           (signable None) "_CodeSignature/CodeResources" "Info.plist" signer
           signature_two_wrappers 3 [] (after signature_two_wrappers 0)
           (entry signature_two_wrappers 0) (code_directory 5 1 "OLDTM")
           eq_refl eq_refl eq_refl eq_refl).
  - left. reflexivity.
  - vm_compute. discriminate.
  - reflexivity.
  - reflexivity.
  - reflexivity.
Defined.

(** On the sample the Requirements blob keeps its length of 156, its two
    entries and its bytes. *)
Lemma set_requirements_adhoc_frame_witness :
  exists construct' e',
    set_requirements (signable None) adhoc_signer signature = Ok construct' /\
    index_of construct' !! 1%nat = Some e' /\
    blob_attr_count (index_blob e') = Some 0 /\
    blob_length (index_blob e') = 156 /\
    blob_data (index_blob e') = blob_data requirements /\
    blob_bytes (index_blob e') = blob_bytes requirements.
Proof.
  pose proof (set_requirements_adhoc_frame
                (signable None) adhoc_signer signature 4
                (before signature 1) (after signature 1) (entry signature 1)
                eq_refl eq_refl eq_refl eq_refl eq_refl) as Hrun.
  eexists _, _. split; [exact Hrun|]. split; [reflexivity|].
  split; [reflexivity|]. split; [reflexivity|]. split; reflexivity.
Defined.

(** A signature without entries, and one whose second blob does not
    encode. *)
Lemma update_offsets_errors_witness :
  update_offsets signature_empty = Raise IndexError /\
  update_offsets signature_unknown_magic = Raise ConstructError.
Proof.
  split.
  - destruct (update_offsets_errors signature_empty) as (Hempty & _).
    apply (Hempty 0). reflexivity.
  - destruct (update_offsets_errors signature_unknown_magic) as (_ & Hblob).
    apply (Hblob 2 [entry signature_unknown_magic 0]
                 (entry signature_unknown_magic 1) [] [194] ConstructError
                 eq_refl).
    + constructor; [|constructor].
      eexists. split; [vm_compute; reflexivity | reflexivity].
    + reflexivity.
Defined.
